(** * The chat stream reducer and the batch orchestrator of [frontend/app/page.tsx]

    A shallow embedding of the client-side code of the support chatbot:
    [getFriendlyStatusMessage], the reader loop and event handler of
    [handleSendMessage], its rate-limit timer, and the bulk driver
    [processBatch] / [startBulkProcessing].

    Conventions.
    - A JavaScript string is a sequence of UTF-16 code units; the model covers
      the code units below 256, one [ascii] each.
    - A JavaScript number is modelled by an integer ([Z]): the values the code
      inspects are lengths, counts and status codes.
    - [JSON.parse] is a platform function.  The reducer is defined in a
      [Section] over an arbitrary [JSON_parse : string -> option JSValue]
      ([None] is a thrown [SyntaxError]); module [JSON] gives a concrete
      parser for the integer fragment of JSON, used to run the reducer on
      concrete streams.
    - [TextDecoder.decode(value, {stream: true})] is a platform function that
      commutes with concatenation; a chunk is modelled after decoding. *)

From Stdlib Require Import String Ascii List ZArith Lia Bool Arith PeanoNat.
From Equations Require Import Equations.
Import ListNotations.
Open Scope string_scope.
Open Scope list_scope.

(** ** JavaScript strings *)

Module JSString.

(** Code units that [String.prototype.trim] removes and that [\s] matches
    (WhiteSpace and LineTerminator of ECMAScript), below 256:
    TAB, LF, VT, FF, CR, SPACE, NBSP. *)
Definition is_space (c : ascii) : bool :=
  let n := nat_of_ascii c in
  (Nat.eqb n 9 || Nat.eqb n 10 || Nat.eqb n 11 || Nat.eqb n 12
   || Nat.eqb n 13 || Nat.eqb n 32 || Nat.eqb n 160)%bool.

Definition LF : ascii := ascii_of_nat 10.

(** The double quote. *)
Definition quote : ascii := ascii_of_nat 34.

Definition is_nl (c : ascii) : bool := Ascii.eqb c LF.

(** [s.split('\n')]: never empty; ["a\nb\n"] gives [["a"; "b"; ""]]. *)
Fixpoint split_nl (s : string) : list string :=
  match s with
  | EmptyString => [EmptyString]
  | String c s' =>
      if is_nl c then EmptyString :: split_nl s'
      else match split_nl s' with
           | l :: ls => String c l :: ls
           | [] => [String c EmptyString]
           end
  end.

(** [s.startsWith(p)] *)
Definition startsWith (s p : string) : bool := String.prefix p s.

(** [s.slice(n)] for [n >= 0] *)
Fixpoint slice (n : nat) (s : string) : string :=
  match n, s with
  | O, _ => s
  | S n', String _ s' => slice n' s'
  | S _, EmptyString => EmptyString
  end.

Fixpoint trimStart (s : string) : string :=
  match s with
  | String c s' => if is_space c then trimStart s' else s
  | EmptyString => EmptyString
  end.

Fixpoint trimEnd (s : string) : string :=
  match s with
  | EmptyString => EmptyString
  | String c s' =>
      match trimEnd s' with
      | EmptyString => if is_space c then EmptyString else String c EmptyString
      | t => String c t
      end
  end.

(** [s.trim()] *)
Definition trim (s : string) : string := trimEnd (trimStart s).

(** [s.includes(p)] *)
Fixpoint includes (s p : string) : bool :=
  (String.prefix p s
   || match s with
      | EmptyString => false
      | String _ s' => includes s' p
      end)%bool.

(** Canonicalisation of a code unit under the [i] flag without the [u]
    flag: ASCII letters go to upper case, nothing else below 256 is mapped
    onto an ASCII letter. *)
Definition upcase (c : ascii) : ascii :=
  let n := nat_of_ascii c in
  if (Nat.leb 97 n && Nat.leb n 122)%bool then ascii_of_nat (n - 32) else c.

(** The remainder of [s] after a case-insensitive match of the literal
    [w] at its start. *)
Fixpoint match_ci (w s : string) : option string :=
  match w, s with
  | EmptyString, _ => Some s
  | String a w', String b s' =>
      if Ascii.eqb (upcase a) (upcase b) then match_ci w' s' else None
  | String _ _, EmptyString => None
  end.

(** A match of [w\s+] under the [i] flag at the start of [s]: the literal,
    then one or more white-space code units, as many as there are. *)
Definition match_word_spaces (w s : string) : option string :=
  match match_ci w s with
  | Some (String c r) => if is_space c then Some (trimStart r) else None
  | _ => None
  end.

(** [s.replace(/w\s+/i, by)]: the leftmost match only; [by] holds no [$]. *)
Fixpoint replace_word_spaces (w by_ s : string) : string :=
  match match_word_spaces w s with
  | Some rest => by_ ++ rest
  | None =>
      match s with
      | EmptyString => EmptyString
      | String c s' => String c (replace_word_spaces w by_ s')
      end
  end.

(** [s.replace(/\.\.\./g, '...')]: every run of three dots, left to right
    and without overlap, is replaced by three dots. *)
Fixpoint replace_ellipsis (s : string) : string :=
  match s with
  | String "." (String "." (String "." r)) => "..." ++ replace_ellipsis r
  | String c s' => String c (replace_ellipsis s')
  | EmptyString => EmptyString
  end.

(** Decimal digits of a natural number ([String(n)] for a count). *)
Definition digit (n : nat) : ascii := ascii_of_nat (48 + n mod 10).

Fixpoint decimal_aux (fuel n : nat) (acc : string) : string :=
  match fuel with
  | O => acc
  | S fuel' =>
      let acc' := String (digit n) acc in
      if Nat.ltb n 10 then acc' else decimal_aux fuel' (n / 10) acc'
  end.

Definition decimal (n : nat) : string := decimal_aux (S n) n EmptyString.

Definition decimalZ (z : Z) : string :=
  match z with
  | Z0 => "0"
  | Zpos p => decimal (Pos.to_nat p)
  | Zneg p => "-" ++ decimal (Pos.to_nat p)
  end.

End JSString.


(** ** JavaScript values *)

Module JS.
Import JSString.

(** The values [JSON.parse] returns, and [undefined]. *)
#[warnings="-register-all"] Inductive JSValue : Type :=
| JUndefined
| JNull
| JBool (b : bool)
| JNum (n : Z)
| JStr (s : string)
| JArr (items : list JSValue)
| JObj (fields : list (string * JSValue)).

(** ToBoolean *)
Definition truthy (v : JSValue) : bool :=
  match v with
  | JUndefined | JNull => false
  | JBool b => b
  | JNum n => negb (Z.eqb n 0)
  | JStr s => negb (String.eqb s "")
  | JArr _ | JObj _ => true
  end.

(** [a || b] *)
Definition or_else (a b : JSValue) : JSValue := if truthy a then a else b.

Definition nullish (v : JSValue) : bool :=
  match v with
  | JUndefined | JNull => true
  | _ => false
  end.

(** Own property of an object built by [JSON.parse]: of two members with
    one name the later wins. *)
Fixpoint lookup (k : string) (fields : list (string * JSValue)) : option JSValue :=
  match fields with
  | [] => None
  | (k', v) :: rest =>
      match lookup k rest with
      | Some v' => Some v'
      | None => if String.eqb k k' then Some v else None
      end
  end.

(** [v?.k], and [v.k] where [v] is not nullish, for the property names the
    reducer reads ([type], [data], [message], [length], ...): none of them
    names a member inherited from [Object.prototype], [Array.prototype] or
    a wrapper prototype other than [length]. *)
Definition prop (v : JSValue) (k : string) : JSValue :=
  match v with
  | JObj fields =>
      match lookup k fields with
      | Some x => x
      | None => JUndefined
      end
  | JArr items =>
      if String.eqb k "length" then JNum (Z.of_nat (List.length items)) else JUndefined
  | JStr s =>
      if String.eqb k "length" then JNum (Z.of_nat (String.length s)) else JUndefined
  | _ => JUndefined
  end.

(** [v === "s"] *)
Definition is_str (v : JSValue) (s : string) : bool :=
  match v with
  | JStr t => String.eqb t s
  | _ => false
  end.

(** [Array.prototype.join(",")] over items already converted. *)
Fixpoint join_comma (parts : list string) : string :=
  match parts with
  | [] => ""
  | [p] => p
  | p :: rest => p ++ "," ++ join_comma rest
  end.

(** ToString, as used by ToPropertyKey and by the relational operators
    (a number prints as its digits: the model does not reach the magnitudes
    that print with an exponent). *)
Fixpoint ToString (v : JSValue) : string :=
  match v with
  | JUndefined => "undefined"
  | JNull => "null"
  | JBool true => "true"
  | JBool false => "false"
  | JNum n => decimalZ n
  | JStr s => s
  | JArr items =>
      join_comma
        ((fix each (l : list JSValue) : list string :=
            match l with
            | [] => []
            | x :: l' => (if nullish x then "" else ToString x) :: each l'
            end) items)
  | JObj _ => "[object Object]"
  end.

End JS.

(** ** A parser for the integer fragment of JSON

    Used to run the reducer on concrete streams.  It accepts the JSON
    grammar except number literals with a fraction or an exponent and
    [\u] escapes in strings, which it rejects. *)

Module JSON.
Import JSString JS.

Definition is_ws (c : ascii) : bool :=
  let n := nat_of_ascii c in
  (Nat.eqb n 32 || Nat.eqb n 9 || Nat.eqb n 10 || Nat.eqb n 13)%bool.

Fixpoint skip_ws (s : string) : string :=
  match s with
  | String c s' => if is_ws c then skip_ws s' else s
  | EmptyString => EmptyString
  end.

Definition is_digit (c : ascii) : bool :=
  let n := nat_of_ascii c in (Nat.leb 48 n && Nat.leb n 57)%bool.

(** The digits at the start of [s], read in base ten, and what follows. *)
Fixpoint digits (acc : Z) (s : string) : Z * string :=
  match s with
  | String c s' =>
      if is_digit c
      then digits (10 * acc + Z.of_nat (nat_of_ascii c - 48)) s'
      else (acc, s)
  | EmptyString => (acc, s)
  end.

Definition no_fraction (s : string) : bool :=
  match s with
  | String c _ =>
      negb (Ascii.eqb c "."%char || Ascii.eqb c "e"%char || Ascii.eqb c "E"%char)
  | EmptyString => true
  end.

(** [0] or a digit string without a leading zero *)
Definition unsigned (s : string) : option (Z * string) :=
  match s with
  | String c s' =>
      if Ascii.eqb c "0"%char then
        match s' with
        | String d _ => if is_digit d then None else
                          if no_fraction s' then Some (0%Z, s') else None
        | EmptyString => Some (0%Z, s')
        end
      else if is_digit c then
        let '(n, r) := digits 0 s in
        if no_fraction r then Some (n, r) else None
      else None
  | EmptyString => None
  end.

Definition number (s : string) : option (JSValue * string) :=
  match s with
  | String c s' =>
      if Ascii.eqb c "-"%char then
        match unsigned s' with
        | Some (n, r) => Some (JNum (- n), r)
        | None => None
        end
      else
        match unsigned s with
        | Some (n, r) => Some (JNum n, r)
        | None => None
        end
  | EmptyString => None
  end.

Definition escape (c : ascii) : option ascii :=
  if Ascii.eqb c quote then Some quote
  else if Ascii.eqb c "\"%char then Some "\"%char
  else if Ascii.eqb c "/"%char then Some "/"%char
  else if Ascii.eqb c "b"%char then Some (ascii_of_nat 8)
  else if Ascii.eqb c "f"%char then Some (ascii_of_nat 12)
  else if Ascii.eqb c "n"%char then Some (ascii_of_nat 10)
  else if Ascii.eqb c "r"%char then Some (ascii_of_nat 13)
  else if Ascii.eqb c "t"%char then Some (ascii_of_nat 9)
  else None.

(** The characters of a string literal after its opening quote. *)
Fixpoint string_body (s : string) : option (string * string) :=
  match s with
  | EmptyString => None
  | String c r =>
      if Ascii.eqb c quote then Some (EmptyString, r)
      else if Ascii.eqb c "\"%char then
        match r with
        | String e r' =>
            match escape e, string_body r' with
            | Some x, Some (t, rest) => Some (String x t, rest)
            | _, _ => None
            end
        | EmptyString => None
        end
      else if Nat.ltb (nat_of_ascii c) 32 then None
      else
        match string_body r with
        | Some (t, rest) => Some (String c t, rest)
        | None => None
        end
  end.

Definition literal (w : string) (v : JSValue) (s : string) : option (JSValue * string) :=
  if String.prefix w s then Some (v, slice (String.length w) s) else None.

Fixpoint value (fuel : nat) (s : string) {struct fuel} : option (JSValue * string) :=
  match fuel with
  | O => None
  | S f =>
      match skip_ws s with
      | EmptyString => None
      | String c r =>
          if Ascii.eqb c "{"%char then
            match skip_ws r with
            | String "}" r' => Some (JObj [], r')
            | _ => members f r []
            end
          else if Ascii.eqb c "["%char then
            match skip_ws r with
            | String "]" r' => Some (JArr [], r')
            | _ => elements f r []
            end
          else if Ascii.eqb c quote then
            match string_body r with
            | Some (t, rest) => Some (JStr t, rest)
            | None => None
            end
          else if Ascii.eqb c "t"%char then literal "true" (JBool true) (String c r)
          else if Ascii.eqb c "f"%char then literal "false" (JBool false) (String c r)
          else if Ascii.eqb c "n"%char then literal "null" JNull (String c r)
          else number (String c r)
      end
  end
with elements (fuel : nat) (s : string) (acc : list JSValue) {struct fuel}
  : option (JSValue * string) :=
  match fuel with
  | O => None
  | S f =>
      match value f s with
      | Some (v, r) =>
          match skip_ws r with
          | String "," r' => elements f r' (v :: acc)
          | String "]" r' => Some (JArr (rev (v :: acc)), r')
          | _ => None
          end
      | None => None
      end
  end
with members (fuel : nat) (s : string) (acc : list (string * JSValue)) {struct fuel}
  : option (JSValue * string) :=
  match fuel with
  | O => None
  | S f =>
      match skip_ws s with
      | String c r =>
          if Ascii.eqb c quote then
            match string_body r with
            | Some (k, r1) =>
                match skip_ws r1 with
                | String ":" r2 =>
                    match value f r2 with
                    | Some (v, r3) =>
                        match skip_ws r3 with
                        | String "," r4 => members f r4 ((k, v) :: acc)
                        | String "}" r4 => Some (JObj (rev ((k, v) :: acc)), r4)
                        | _ => None
                        end
                    | None => None
                    end
                | _ => None
                end
            | None => None
            end
          else None
      | EmptyString => None
      end
  end.

(** [JSON.parse(text)]; [None] stands for the [SyntaxError]. *)
Definition parse (text : string) : option JSValue :=
  match value (2 * String.length text + 2) text with
  | Some (v, rest) =>
      match skip_ws rest with
      | EmptyString => Some v
      | _ => None
      end
  | None => None
  end.

(** Whether ToNumber of a text is greater than zero, for the texts made of
    decimal digits (with white space around them); the reducer asks this
    only of a [length] member that is itself a text, or an array or object. *)
Definition positive_text (s : string) : bool :=
  match trim s with
  | EmptyString => false
  | t =>
      match digits 0 t with
      | (n, EmptyString) => Z.ltb 0 n
      | _ => false
      end
  end.

End JSON.


(** ** The state of the page and the timers of the platform *)

Module Page.
Import JSString JS.

(** An entry of [messages].  [timestamp] is the clock reading from which
    [new Date().toLocaleTimeString()] is rendered, where the entry has one. *)
Record Message : Type := {
  role : string;
  content : JSValue;
  timestamp : option N }.

(** What [getFriendlyStatusMessage] returns and [currentStatus] holds: a
    text, or the member that every object inherits under the name [key]. *)
Inductive StatusValue : Type :=
| StatusText (s : string)
| StatusInherited (key : string).

(** The [useState] cells of [Home] that the chat and bulk paths touch.
    [internalAnalysis] is [null] or [{classification, timestamp}]. *)
Record State : Type := {
  messages : list Message;
  input : string;
  isLoading : bool;
  chatStarted : bool;
  currentStatus : StatusValue;
  citations : JSValue;
  ticketData : list JSValue;
  processedCount : nat;
  totalCount : nat;
  bulkResults : list JSValue;
  internalAnalysis : option (JSValue * N);
  showInternalView : bool;
  rateLimitTimer : option nat }.

(** The initial values given to [useState]. *)
Definition initialState : State := {|
  messages := [];
  input := "";
  isLoading := false;
  chatStarted := false;
  currentStatus := StatusText "";
  citations := JArr [];
  ticketData := [];
  processedCount := 0;
  totalCount := 0;
  bulkResults := [];
  internalAnalysis := None;
  showInternalView := false;
  rateLimitTimer := None |}.

(** What a pending timer runs.  The rate-limit callback is a closure over
    the [isLoading] constant of the render that created it. *)
Inductive TimerAction : Type :=
| RateLimitCallback (seen_isLoading : bool)
| AbortFetch.

Record Timer : Type := {
  timer_id : nat;
  timer_due : N;
  timer_action : TimerAction }.

(** The page state together with the clock (milliseconds, binary) and the pending
    timers of the event loop. *)
Record World : Type := {
  ui : State;
  clock : N;
  timers : list Timer;
  next_timer : nat }.

Definition initialWorld : World :=
  {| ui := initialState; clock := 0%N; timers := []; next_timer := 1 |}.

Definition with_ui (f : State -> State) (w : World) : World :=
  {| ui := f (ui w); clock := clock w; timers := timers w; next_timer := next_timer w |}.

(** [setTimeout(action, delay)]: the handle and the world with the timer pending. *)
Definition setTimeout (action : TimerAction) (delay : N) (w : World) : nat * World :=
  (next_timer w,
   {| ui := ui w; clock := clock w;
      timers := timers w ++ [{| timer_id := next_timer w;
                                timer_due := (clock w + delay)%N;
                                timer_action := action |}];
      next_timer := S (next_timer w) |}).

(** [clearTimeout(handle)] *)
Definition clearTimeout (handle : nat) (w : World) : World :=
  {| ui := ui w; clock := clock w;
     timers := filter (fun t => negb (Nat.eqb (timer_id t) handle)) (timers w);
     next_timer := next_timer w |}.

(** The setters; [setMessages(prev => [...prev, m])] is [pushMessage m]. *)
Definition pushMessage (m : Message) : World -> World :=
  with_ui (fun s =>
    {| messages := messages s ++ [m]; input := input s; isLoading := isLoading s;
       chatStarted := chatStarted s; currentStatus := currentStatus s;
       citations := citations s; ticketData := ticketData s;
       processedCount := processedCount s; totalCount := totalCount s;
       bulkResults := bulkResults s; internalAnalysis := internalAnalysis s;
       showInternalView := showInternalView s; rateLimitTimer := rateLimitTimer s |}).

Definition setInput (v : string) : World -> World :=
  with_ui (fun s =>
    {| messages := messages s; input := v; isLoading := isLoading s;
       chatStarted := chatStarted s; currentStatus := currentStatus s;
       citations := citations s; ticketData := ticketData s;
       processedCount := processedCount s; totalCount := totalCount s;
       bulkResults := bulkResults s; internalAnalysis := internalAnalysis s;
       showInternalView := showInternalView s; rateLimitTimer := rateLimitTimer s |}).

Definition setIsLoading (v : bool) : World -> World :=
  with_ui (fun s =>
    {| messages := messages s; input := input s; isLoading := v;
       chatStarted := chatStarted s; currentStatus := currentStatus s;
       citations := citations s; ticketData := ticketData s;
       processedCount := processedCount s; totalCount := totalCount s;
       bulkResults := bulkResults s; internalAnalysis := internalAnalysis s;
       showInternalView := showInternalView s; rateLimitTimer := rateLimitTimer s |}).

Definition setChatStarted (v : bool) : World -> World :=
  with_ui (fun s =>
    {| messages := messages s; input := input s; isLoading := isLoading s;
       chatStarted := v; currentStatus := currentStatus s;
       citations := citations s; ticketData := ticketData s;
       processedCount := processedCount s; totalCount := totalCount s;
       bulkResults := bulkResults s; internalAnalysis := internalAnalysis s;
       showInternalView := showInternalView s; rateLimitTimer := rateLimitTimer s |}).

Definition setCurrentStatusValue (v : StatusValue) : World -> World :=
  with_ui (fun s =>
    {| messages := messages s; input := input s; isLoading := isLoading s;
       chatStarted := chatStarted s; currentStatus := v;
       citations := citations s; ticketData := ticketData s;
       processedCount := processedCount s; totalCount := totalCount s;
       bulkResults := bulkResults s; internalAnalysis := internalAnalysis s;
       showInternalView := showInternalView s; rateLimitTimer := rateLimitTimer s |}).

Definition setCurrentStatus (text : string) : World -> World :=
  setCurrentStatusValue (StatusText text).

Definition setCitations (v : JSValue) : World -> World :=
  with_ui (fun s =>
    {| messages := messages s; input := input s; isLoading := isLoading s;
       chatStarted := chatStarted s; currentStatus := currentStatus s;
       citations := v; ticketData := ticketData s;
       processedCount := processedCount s; totalCount := totalCount s;
       bulkResults := bulkResults s; internalAnalysis := internalAnalysis s;
       showInternalView := showInternalView s; rateLimitTimer := rateLimitTimer s |}).

Definition setTicketData (v : list JSValue) : World -> World :=
  with_ui (fun s =>
    {| messages := messages s; input := input s; isLoading := isLoading s;
       chatStarted := chatStarted s; currentStatus := currentStatus s;
       citations := citations s; ticketData := v;
       processedCount := processedCount s; totalCount := totalCount s;
       bulkResults := bulkResults s; internalAnalysis := internalAnalysis s;
       showInternalView := showInternalView s; rateLimitTimer := rateLimitTimer s |}).

(** [setProcessedCount(prev => f(prev))] *)
Definition setProcessedCount (f : nat -> nat) : World -> World :=
  with_ui (fun s =>
    {| messages := messages s; input := input s; isLoading := isLoading s;
       chatStarted := chatStarted s; currentStatus := currentStatus s;
       citations := citations s; ticketData := ticketData s;
       processedCount := f (processedCount s); totalCount := totalCount s;
       bulkResults := bulkResults s; internalAnalysis := internalAnalysis s;
       showInternalView := showInternalView s; rateLimitTimer := rateLimitTimer s |}).

Definition setTotalCount (v : nat) : World -> World :=
  with_ui (fun s =>
    {| messages := messages s; input := input s; isLoading := isLoading s;
       chatStarted := chatStarted s; currentStatus := currentStatus s;
       citations := citations s; ticketData := ticketData s;
       processedCount := processedCount s; totalCount := v;
       bulkResults := bulkResults s; internalAnalysis := internalAnalysis s;
       showInternalView := showInternalView s; rateLimitTimer := rateLimitTimer s |}).

(** [setBulkResults(prev => f(prev))] *)
Definition setBulkResults (f : list JSValue -> list JSValue) : World -> World :=
  with_ui (fun s =>
    {| messages := messages s; input := input s; isLoading := isLoading s;
       chatStarted := chatStarted s; currentStatus := currentStatus s;
       citations := citations s; ticketData := ticketData s;
       processedCount := processedCount s; totalCount := totalCount s;
       bulkResults := f (bulkResults s); internalAnalysis := internalAnalysis s;
       showInternalView := showInternalView s; rateLimitTimer := rateLimitTimer s |}).

Definition setInternalAnalysis (v : option (JSValue * N)) : World -> World :=
  with_ui (fun s =>
    {| messages := messages s; input := input s; isLoading := isLoading s;
       chatStarted := chatStarted s; currentStatus := currentStatus s;
       citations := citations s; ticketData := ticketData s;
       processedCount := processedCount s; totalCount := totalCount s;
       bulkResults := bulkResults s; internalAnalysis := v;
       showInternalView := showInternalView s; rateLimitTimer := rateLimitTimer s |}).

Definition setShowInternalView (v : bool) : World -> World :=
  with_ui (fun s =>
    {| messages := messages s; input := input s; isLoading := isLoading s;
       chatStarted := chatStarted s; currentStatus := currentStatus s;
       citations := citations s; ticketData := ticketData s;
       processedCount := processedCount s; totalCount := totalCount s;
       bulkResults := bulkResults s; internalAnalysis := internalAnalysis s;
       showInternalView := v; rateLimitTimer := rateLimitTimer s |}).

Definition setRateLimitTimer (v : option nat) : World -> World :=
  with_ui (fun s =>
    {| messages := messages s; input := input s; isLoading := isLoading s;
       chatStarted := chatStarted s; currentStatus := currentStatus s;
       citations := citations s; ticketData := ticketData s;
       processedCount := processedCount s; totalCount := totalCount s;
       bulkResults := bulkResults s; internalAnalysis := internalAnalysis s;
       showInternalView := showInternalView s; rateLimitTimer := v |}).

(** The constants of one render of [Home] that the closures of that render
    read: [isLoading] and [rateLimitTimer] are [const] bindings, and a
    setter call does not change them for code already running. *)
Record Render : Type := {
  seen_isLoading : bool;
  seen_rateLimitTimer : option nat }.

Definition render (s : State) : Render :=
  {| seen_isLoading := isLoading s; seen_rateLimitTimer := rateLimitTimer s |}.

(** [if (rateLimitTimer) { clearTimeout(rateLimitTimer); setRateLimitTimer(null); }] *)
Definition clearRateLimitTimer (seen : Render) (w : World) : World :=
  match seen_rateLimitTimer seen with
  | Some handle => setRateLimitTimer None (clearTimeout handle w)
  | None => w
  end.

End Page.

(** ** The chat turn: [getFriendlyStatusMessage] and [handleSendMessage] *)

Module Chat.
Import JSString JS Page.

(** The own members of the [statusMap] literal. *)
Definition statusMap : list (string * string) :=
  [ ("classify", "Understanding your question...");
    ("agent", "Preparing response...");
    ("document_search", "Searching knowledge base...");
    ("finalize_response", "Finalizing answer...") ].

(** The members an object literal inherits from [Object.prototype]; each is
    a function or an object, hence truthy. *)
Definition Object_prototype_members : list string :=
  [ "constructor"; "__defineGetter__"; "__defineSetter__"; "hasOwnProperty";
    "__lookupGetter__"; "__lookupSetter__"; "isPrototypeOf";
    "propertyIsEnumerable"; "toString"; "valueOf"; "__proto__";
    "toLocaleString" ].

Fixpoint assoc (key : string) (table : list (string * string)) : option string :=
  match table with
  | [] => None
  | (k, v) :: rest => if String.eqb key k then Some v else assoc key rest
  end.

(** [statusMap[node]] where it is truthy *)
Definition statusMap_get (key : string) : option StatusValue :=
  match assoc key statusMap with
  | Some phrase => Some (StatusText phrase)
  | None =>
      if existsb (String.eqb key) Object_prototype_members
      then Some (StatusInherited key)
      else None
  end.

(** [message.replace(/Processing\s+/i, '').replace(/Completed\s+/i, 'Finished ').replace(/\.\.\./g, '...')] *)
Definition cleanup (message : string) : string :=
  replace_ellipsis
    (replace_word_spaces "Completed" "Finished "
       (replace_word_spaces "Processing" "" message)).

(** [getFriendlyStatusMessage(node, message)] as it is called, with any two
    values; [None] is the [TypeError] of calling [replace] on a value that
    is not a string. *)
Definition getFriendlyStatusMessage (node message : JSValue) : option StatusValue :=
  match statusMap_get (ToString node) with
  | Some v => Some v
  | None =>
      match message with
      | JStr m => Some (StatusText (cleanup m))
      | _ => None
      end
  end.

(** The text of the advisory message of the rate-limit timer (the source
    text ends with an emoji, which lies outside the modelled code units). *)
Definition rateLimitMessage : string :=
  "As we are using free tier of Gemini API in backend, the request got rate limited, please try after 60 seconds ".

Definition assistant (c : JSValue) : Message :=
  {| role := "assistant"; content := c; timestamp := None |}.

(** The callback given to [setTimeout] at lines 279-287; [seen] is the
    [isLoading] constant of the enclosing render. *)
Definition rateLimitCallback (seen : bool) (w : World) : World :=
  if seen
  then setCurrentStatus ""
         (setIsLoading false (pushMessage (assistant (JStr rateLimitMessage)) w))
  else w.

Section Reducer.

(** [JSON.parse]; [None] is a thrown [SyntaxError]. *)
Variable JSON_parse : string -> option JSValue.

(** Whether the number a text converts to (ToNumber) is greater than zero. *)
Variable text_positive : string -> bool.

(** [v > 0] *)
Definition greater_than_zero (v : JSValue) : bool :=
  match v with
  | JUndefined | JNull => false
  | JBool b => b
  | JNum n => Z.ltb 0 n
  | JStr s => text_positive s
  | JArr _ | JObj _ => text_positive (ToString v)
  end.

(** [if (finalContent) { setMessages(...); if (responseSources.length > 0) setCitations(responseSources); }] *)
Definition deliver (finalContent responseSources : JSValue) (w : World) : World :=
  if truthy finalContent then
    let w1 := pushMessage (assistant finalContent) w in
    if greater_than_zero (prop responseSources "length")
    then setCitations responseSources w1
    else w1
  else w.

(** Lines 445-453: the content and sources of a flattened payload. *)
Definition extractFlattened (parsed : JSValue) : JSValue * JSValue :=
  let final_response := prop parsed "final_response" in
  if (is_str (prop final_response "response_type") "rag_answer"
      && truthy (prop final_response "rag_response"))%bool then
    (prop (prop final_response "rag_response") "answer",
     or_else (prop (prop final_response "rag_response") "sources") (JArr []))
  else if (is_str (prop final_response "response_type") "routing_message"
           && truthy (prop final_response "routing_response"))%bool then
    (prop (prop final_response "routing_response") "message", JArr [])
  else (JStr "", JArr []).

(** Lines 346-354 and 506-513: the content and sources of the [data] of a
    [final_result] payload. *)
Definition extractFinalResult (responseData : JSValue) : JSValue * JSValue :=
  let final_response := prop responseData "final_response" in
  if truthy (prop (prop final_response "rag_response") "answer") then
    (prop (prop final_response "rag_response") "answer",
     or_else (prop (prop final_response "rag_response") "sources") (JArr []))
  else if truthy (prop (prop final_response "routing_response") "message") then
    (prop (prop final_response "routing_response") "message", JArr [])
  else (JStr "", JArr []).

(** [if (responseData.internal_analysis) setInternalAnalysis({classification, timestamp})] *)
Definition storeAnalysis (responseData : JSValue) (w : World) : World :=
  if truthy (prop responseData "internal_analysis")
  then setInternalAnalysis
         (Some (prop (prop responseData "internal_analysis") "classification", clock w)) w
  else w.

(** Lines 489-516: the content and sources of a payload whose [type] is
    [final_response] or [final_result]. *)
Definition extractTyped (parsed : JSValue) : JSValue * JSValue :=
  if (is_str (prop parsed "type") "final_result" && truthy (prop parsed "data"))%bool
  then extractFinalResult (prop parsed "data")
  else (or_else (or_else (prop parsed "data") (prop parsed "content"))
          (prop (prop parsed "response") "data"),
        JArr []).

(** Lines 419-552, the body of the [try] after [JSON.parse] in the loop. *)
Definition handleParsed (seen : Render) (parsed : JSValue) (w : World) : World :=
  if nullish parsed then
    (* reading [parsed.type] throws; the [catch] at line 553 skips the line *)
    w
  else if (truthy (prop parsed "internal_analysis")
           && truthy (prop parsed "final_response"))%bool then
    let w1 := clearRateLimitTimer seen (setIsLoading false (setCurrentStatus "" w)) in
    let w2 := setInternalAnalysis
                (Some (prop (prop parsed "internal_analysis") "classification", clock w1)) w1 in
    let '(finalContent, responseSources) := extractFlattened parsed in
    deliver finalContent responseSources w2
  else if is_str (prop parsed "type") "node_complete" then
    let classification (w0 : World) : World :=
      if (is_str (prop parsed "node") "classify" && truthy (prop parsed "data"))%bool
      then setInternalAnalysis (Some (prop parsed "data", clock w0)) w0
      else w0 in
    if truthy (prop parsed "message") then
      match getFriendlyStatusMessage (prop parsed "node") (prop parsed "message") with
      | Some friendlyMessage => classification (setCurrentStatusValue friendlyMessage w)
      | None => w   (* thrown inside the [try]: the line is skipped *)
      end
    else classification w
  else if (is_str (prop parsed "type") "final_response"
           || is_str (prop parsed "type") "final_result")%bool then
    let w1 := clearRateLimitTimer seen (setIsLoading false (setCurrentStatus "" w)) in
    let w2 :=
      if (is_str (prop parsed "type") "final_result" && truthy (prop parsed "data"))%bool
      then storeAnalysis (prop parsed "data") w1
      else w1 in
    let '(finalContent, responseSources) := extractTyped parsed in
    let w3 := deliver finalContent responseSources w2 in
    let other := or_else (prop parsed "citations")
                   (prop (prop parsed "response") "citations") in
    if truthy other then setCitations other w3 else w3
  else if (truthy (prop parsed "response")
           && truthy (prop (prop parsed "response") "data"))%bool then
    let w1 := clearRateLimitTimer seen (setIsLoading false (setCurrentStatus "" w)) in
    let w2 := pushMessage (assistant (prop (prop parsed "response") "data")) w1 in
    if truthy (prop (prop parsed "response") "citations")
    then setCitations (prop (prop parsed "response") "citations") w2
    else w2
  else w.

(** Lines 394-558, the body of [for (const line of lines)]. *)
Definition processLine (seen : Render) (w : World) (line : string) : World :=
  if startsWith line "data: " then
    let data := trim (slice 6 line) in
    if String.eqb data "[DONE]" then
      clearRateLimitTimer seen (setCurrentStatus "" (setIsLoading false w))
    else if String.eqb data "" then w
    else
      match JSON_parse data with
      | Some parsed => handleParsed seen parsed w
      | None => w
      end
  else w.

(** Lines 325-371: what is done with the buffer once the stream has ended. *)
Definition flushBuffer (buffer : string) (w : World) : World :=
  if negb (String.eqb (trim buffer) "") then
    let line := trim buffer in
    if startsWith line "data: " then
      let data := trim (slice 6 line) in
      if (negb (String.eqb data "") && negb (String.eqb data "[DONE]"))%bool then
        match JSON_parse data with
        | Some parsed =>
            if nullish parsed then w
            else if (is_str (prop parsed "type") "final_result"
                     && truthy (prop parsed "data"))%bool then
              let w1 := storeAnalysis (prop parsed "data") w in
              let '(finalContent, responseSources) :=
                extractFinalResult (prop parsed "data") in
              deliver finalContent responseSources w1
            else w
        | None => w
        end
      else w
    else w
  else w.

(** Lines 323-383: [if (done) { ...; break; }] *)
Definition onDone (seen : Render) (buffer : string) (w : World) : World :=
  let w1 := flushBuffer buffer w in
  if seen_isLoading seen
  then clearRateLimitTimer seen (setIsLoading false (setCurrentStatus "Processing complete" w1))
  else w1.

(** Lines 386-559: one chunk.  [lines.pop() || ''] is the last piece. *)
Definition onChunk (seen : Render) (buffer text : string) (w : World) : string * World :=
  let lines := split_nl (buffer ++ text) in
  (last lines "", fold_left (processLine seen) (removelast lines) w).

(** Lines 562-584: the [catch] of the turn, for an [Error] with this name
    and message. *)
Definition catchBlock (seen : Render) (name message : string) (w : World) : World :=
  let w1 := clearRateLimitTimer seen w in
  let errorMessage :=
    if String.eqb name "AbortError" then "Request timed out. Please try again."
    else if includes message "Failed to fetch"
    then "Unable to connect to the server. Please check if the backend is running."
    else if includes message "HTTP" then ("Server error: " ++ message)%string
    else "Sorry, something went wrong." in
  pushMessage (assistant (JStr errorMessage)) w1.

(** Lines 585-594 *)
Definition finallyBlock (seen : Render) (w : World) : World :=
  clearRateLimitTimer seen (setCurrentStatus "" (setIsLoading false w)).

(** Where the asynchronous function is suspended. *)
Inductive Phase : Type :=
| AwaitFetch (timeoutId : nat)
| AwaitRead (buffer : string)
| Finished.

(** What the platform delivers to a suspended turn, and the passing of time. *)
Inductive Event : Type :=
| Response (ok : bool) (status : nat) (statusText : string) (hasBody : bool)
| Chunk (text : string)
| Done
| Reject (name message : string)
| Wait (ms : N).

(** Lines 261-302: the synchronous part, up to [await fetch(...)]. *)
Definition beginTurn (seen : Render) (message : string) (w : World) : Phase * World :=
  if String.eqb (trim message) "" then (Finished, w)
  else
    let userMessage :=
      {| role := "user"; content := JStr message; timestamp := Some (clock w) |} in
    let w1 :=
      setShowInternalView false
        (setInternalAnalysis None
           (setCitations (JArr [])
              (setCurrentStatus "Understanding your question..."
                 (setIsLoading true
                    (setInput "" (pushMessage userMessage (setChatStarted true w))))))) in
    let w2 :=
      match seen_rateLimitTimer seen with
      | Some handle => clearTimeout handle w1
      | None => w1
      end in
    let '(timer, w3) := setTimeout (RateLimitCallback (seen_isLoading seen)) 15000%N w2 in
    let w4 := setRateLimitTimer (Some timer) w3 in
    let '(timeoutId, w5) := setTimeout AbortFetch 300000%N w4 in
    (AwaitFetch timeoutId, w5).

(** The pending timer that is due first, among those due by [target]. *)
Fixpoint earliest_due (target : N) (pending : list Timer) : option Timer :=
  match pending with
  | [] => None
  | t :: rest =>
      match earliest_due target rest with
      | Some t' =>
          if (N.leb (timer_due t) target && N.leb (timer_due t) (timer_due t'))%bool
          then Some t else Some t'
      | None => if N.leb (timer_due t) target then Some t else None
      end
  end.

Definition set_clock (n : N) (w : World) : World :=
  {| ui := ui w; clock := n; timers := timers w; next_timer := next_timer w |}.

(** One timer fires.  An abort while the fetch is awaited rejects it with
    an [AbortError], which runs the [catch] and the [finally] of the turn. *)
Definition fire (seen : Render) (t : Timer) (pw : Phase * World) : Phase * World :=
  let '(phase, w) := pw in
  let w1 := set_clock (N.max (clock w) (timer_due t)) (clearTimeout (timer_id t) w) in
  match timer_action t with
  | RateLimitCallback seen_loading => (phase, rateLimitCallback seen_loading w1)
  | AbortFetch =>
      match phase with
      | AwaitFetch _ =>
          (Finished,
           finallyBlock seen (catchBlock seen "AbortError" "The operation was aborted." w1))
      | _ => (phase, w1)
      end
  end.

(** The event loop runs the timers due by [target], in the order they are due. *)
Fixpoint run_timers (fuel : nat) (target : N) (seen : Render) (pw : Phase * World)
  : Phase * World :=
  match fuel with
  | O => (fst pw, set_clock target (snd pw))
  | S fuel' =>
      match earliest_due target (timers (snd pw)) with
      | Some t => run_timers fuel' target seen (fire seen t pw)
      | None => (fst pw, set_clock target (snd pw))
      end
  end.

(** The turn resumes on an event.  An event the turn is not waiting for is
    ignored. *)
Definition step (seen : Render) (pw : Phase * World) (e : Event) : Phase * World :=
  let '(phase, w) := pw in
  match e, phase with
  | Wait ms, _ => run_timers (List.length (timers w)) (clock w + ms)%N seen pw
  | Response ok status statusText hasBody, AwaitFetch timeoutId =>
      let w1 := clearRateLimitTimer seen (clearTimeout timeoutId w) in
      if negb ok then
        (Finished,
         finallyBlock seen
           (catchBlock seen "Error"
              ("HTTP " ++ decimal status ++ ": " ++ statusText)%string w1))
      else if hasBody then (AwaitRead "", w1)
      else (Finished, finallyBlock seen w1)
  | Chunk text, AwaitRead buffer =>
      let '(buffer', w1) := onChunk seen buffer text w in (AwaitRead buffer', w1)
  | Done, AwaitRead buffer => (Finished, finallyBlock seen (onDone seen buffer w))
  | Reject name message, AwaitFetch _
  | Reject name message, AwaitRead _ =>
      (Finished, finallyBlock seen (catchBlock seen name message w))
  | _, _ => pw
  end.

(** [handleSendMessage(message)], called on the page in world [w], with the
    events that follow. *)
Definition handleSendMessage (message : string) (events : list Event) (w : World)
  : Phase * World :=
  let seen := render (ui w) in
  fold_left (step seen) events (beginTurn seen message w).

End Reducer.

End Chat.

(** ** The bulk path: [handleFileUpload], [processBatch], [startBulkProcessing] *)

Module Bulk.
Import JSString JS Page.

(** How the stream of one response ends: [{done: true}], or a rejected read. *)
Inductive StreamEnd : Type :=
| Closed
| Broken (message : string).

(** What [fetch] gives for one batch: a rejection, or a response with its
    status and, when it has a body, the chunks read from it. *)
Inductive FetchOutcome : Type :=
| Rejected (message : string)
| Responded (ok : bool) (status : nat) (statusText : string)
    (body : option (list string * StreamEnd)).

(** The object [processBatch] returns: [{results, batch_index}] or
    [{error, batch_index}]. *)
Inductive BatchResult : Type :=
| BatchResults (results : list JSValue) (batch_index : nat)
| BatchError (error : string) (batch_index : nat).

(** What the run does to the outside, in order. *)
Inductive Effect : Type :=
| Posted (batch_index : nat) (batch : list JSValue)
| ReadChunk (batch_index : nat) (text : string)
| ReadEnd (batch_index : nat)
| Slept (ms : nat).

(** [data.slice(i, j)] *)
Definition slice_list {A : Type} (i j : nat) (data : list A) : list A :=
  firstn (j - i) (skipn i data).

Definition batchSize : nat := 5.

(** Lines 208-214: [for (let i = 0; i < data.length; i += batchSize) batches.push(data.slice(i, i + batchSize))],
    from index [i]. *)
Equations? batchesFrom (i : nat) (data : list JSValue)
  : list (list JSValue) by wf (List.length data - i) lt :=
  batchesFrom i data with lt_dec i (List.length data) := {
    | left _ => slice_list i (i + batchSize) data :: batchesFrom (i + batchSize) data
    | right _ => [] }.
Proof. unfold batchSize. lia. Qed.

Definition makeBatches (data : list JSValue) : list (list JSValue) :=
  batchesFrom 0 data.

Section Driver.

(** [JSON.parse]; [None] is a thrown [SyntaxError]. *)
Variable JSON_parse : string -> option JSValue.

(** The server: what the request for batch [i] with this content gives. *)
Variable network : nat -> list JSValue -> FetchOutcome.

(** Lines 179-189, the body of [for (const line of lines)]. *)
Definition collectLine (results : list JSValue) (line : string) : list JSValue :=
  if startsWith line "data: " then
    let data := trim (slice 6 line) in
    if negb (String.eqb data "") then
      match JSON_parse data with
      | Some parsed => results ++ [parsed]
      | None => results
      end
    else results
  else results.

(** Lines 175-190: one chunk; each chunk is split on its own. *)
Definition collectChunk (results : list JSValue) (chunk : string) : list JSValue :=
  fold_left collectLine (split_nl chunk) results.

(** [processBatch(batch, batchIndex)] with the effects it has. *)
Definition processBatch (batch : list JSValue) (batchIndex : nat)
  : BatchResult * list Effect :=
  match network batchIndex batch with
  | Rejected message => (BatchError message batchIndex, [Posted batchIndex batch])
  | Responded ok status statusText body =>
      if negb ok then
        (BatchError ("HTTP " ++ decimal status ++ ": " ++ statusText)%string batchIndex,
         [Posted batchIndex batch])
      else
        match body with
        | None => (BatchResults [] batchIndex, [Posted batchIndex batch])
        | Some (chunks, Closed) =>
            (BatchResults (fold_left collectChunk chunks []) batchIndex,
             Posted batchIndex batch :: map (ReadChunk batchIndex) chunks
               ++ [ReadEnd batchIndex])
        | Some (chunks, Broken message) =>
            (BatchError message batchIndex,
             Posted batchIndex batch :: map (ReadChunk batchIndex) chunks)
        end
  end.

(** Lines 218-244, the body of the loop for batch [i] of [count]. *)
Definition iteration (count i : nat) (batch : list JSValue) (acc : World * list Effect)
  : World * list Effect :=
  let '(w, trace) := acc in
  let w1 :=
    setCurrentStatus
      ("Processing batch " ++ decimal (i + 1) ++ " of " ++ decimal count ++ " ("
         ++ decimal (List.length batch) ++ " tickets)...")%string w in
  let '(batchResult, effects) := processBatch batch i in
  let '(w2, pause) :=
    match batchResult with
    | BatchResults results _ =>
        (setCurrentStatus
           ("Batch " ++ decimal (i + 1) ++ " completed successfully. "
              ++ decimal (List.length results) ++ " tickets processed.")%string
           (setProcessedCount (fun prev => prev + List.length results)
              (setBulkResults (fun prev => prev ++ results) w1)),
         [])
    | BatchError error _ =>
        if negb (String.eqb error "") then
          (setCurrentStatus
             ("Batch " ++ decimal (i + 1) ++ " failed: " ++ error
                ++ ". Continuing with next batch...")%string w1,
           [Slept 1000])
        else
          (setCurrentStatus
             ("Batch " ++ decimal (i + 1) ++ " completed with no results.")%string w1,
           [Slept 500])
    end in
  (w2, trace ++ effects ++ pause ++ (if Nat.ltb i (count - 1) then [Slept 200] else [])).

(** Lines 217-245: [for (let i = 0; i < batches.length; i++)], from index [i]. *)
Fixpoint batchLoop (count i : nat) (batches : list (list JSValue))
  (acc : World * list Effect) : World * list Effect :=
  match batches with
  | [] => acc
  | batch :: rest => batchLoop count (S i) rest (iteration count i batch acc)
  end.

(** [startBulkProcessing(data)] *)
Definition startBulkProcessing (data : list JSValue) (w : World) : World * list Effect :=
  let w0 :=
    setProcessedCount (fun _ => 0)
      (setBulkResults (fun _ => [])
         (setCurrentStatus "Starting batch processing..." (setIsLoading true w))) in
  let batches := makeBatches data in
  let '(w1, trace) := batchLoop (List.length batches) 0 batches (w0, []) in
  (setCurrentStatus
     ("Processing complete: " ++ decimal (List.length data) ++ " tickets processed")%string
     (setIsLoading false w1),
   trace).

(** The run stopped after its first [k] batches: the state the page shows
    while batch [k] is awaited. *)
Definition bulkProgress (k : nat) (data : list JSValue) (w : World) : World :=
  let w0 :=
    setProcessedCount (fun _ => 0)
      (setBulkResults (fun _ => [])
         (setCurrentStatus "Starting batch processing..." (setIsLoading true w))) in
  let batches := makeBatches data in
  fst (batchLoop (List.length batches) 0 (firstn k batches) (w0, [])).

(** What [handleFileUpload] does with a chosen file: an [alert], or the
    accepted tickets and the page state set at lines 131-136 (after which a
    timer calls [startBulkProcessing(data)]). *)
Inductive Upload : Type :=
| Alert (text : string)
| Accepted (data : list JSValue) (w : World).

Definition endsWith (s suffix : string) : bool :=
  String.eqb (slice (String.length s - String.length suffix) s) suffix.

(** [!ticket.id || !ticket.body] *)
Definition invalidTicket (ticket : JSValue) : bool :=
  (negb (truthy (prop ticket "id")) || negb (truthy (prop ticket "body")))%bool.

(** Lines 90-147, for a file with this name, size in bytes and text. *)
Definition handleFileUpload (name : string) (size : N) (text : string) (w : World)
  : Upload :=
  if negb (endsWith name ".json") then Alert "Please upload a JSON file"
  else if N.ltb (2 * 1024 * 1024) size then Alert "File size must be less than 2MB"
  else
    match JSON_parse text with
    | Some (JArr data) =>
        if existsb nullish data then Alert "Invalid JSON file format"
        else
          let invalidTickets := filter invalidTicket data in
          if Nat.ltb 0 (List.length invalidTickets) then
            Alert (decimal (List.length invalidTickets)
                     ++ " tickets are missing required fields (id, body)")%string
          else
            Accepted data
              (setCurrentStatus
                 ("File uploaded: " ++ decimal (List.length data)
                    ++ " tickets. Starting processing...")%string
                 (setBulkResults (fun _ => [])
                    (setProcessedCount (fun _ => 0)
                       (setTotalCount (List.length data) (setTicketData data w)))))
    | Some _ => Alert "JSON file must contain an array of tickets"
    | None => Alert "Invalid JSON file format"
    end.

(** A bulk run: the upload of a file and the processing it starts. *)
Definition bulkRun (name : string) (size : N) (text : string) (w : World)
  : option (World * list Effect) :=
  match handleFileUpload name size text w with
  | Accepted data w' => Some (startBulkProcessing data w')
  | Alert _ => None
  end.

(** What [handleBulkProcess] does: an [alert], or a run. *)
Inductive BulkStart : Type :=
| NothingToProcess (text : string)
| Started (run : World * list Effect).

(** Lines 251-258: the handler of the button that processes the uploaded
    tickets. *)
Definition handleBulkProcess (w : World) : BulkStart :=
  if Nat.eqb (List.length (ticketData (ui w))) 0
  then NothingToProcess "Please upload a JSON file first"
  else Started (startBulkProcessing (ticketData (ui w)) w).

End Driver.

End Bulk.

(** ** Vocabulary of the specification *)

Module Spec.
Import JSString JS Page.









(** The fallback as the specification words it: a leading [Processing] or
    [Completed] verb (with the white space after it) is stripped. *)
Definition strip_leading_verb (message : string) : string :=
  match match_word_spaces "Processing" message with
  | Some rest => rest
  | None =>
      match match_word_spaces "Completed" message with
      | Some rest => rest
      | None => message
      end
  end.

(** A list with the positions of its items. *)
Definition indexed {A : Type} (l : list A) : list (nat * A) :=
  combine (seq 0 (List.length l)) l.

(** The number of results a batch adds to [processedCount]. *)
Definition contributed (r : Bulk.BatchResult) : nat :=
  match r with
  | Bulk.BatchResults results _ => List.length results
  | Bulk.BatchError _ _ => 0
  end.

(** The pause that follows a batch that returned no results. *)
Definition errorPause (r : Bulk.BatchResult) : list Bulk.Effect :=
  match r with
  | Bulk.BatchResults _ _ => []
  | Bulk.BatchError error _ =>
      if String.eqb error "" then [Bulk.Slept 500] else [Bulk.Slept 1000]
  end.

Definition interBatchPause : Bulk.Effect := Bulk.Slept 200.

Definition is_interBatchPause (e : Bulk.Effect) : bool :=
  match e with
  | Bulk.Slept ms => Nat.eqb ms 200
  | _ => false
  end.

(** The claim as the specification words it: at the end of a bulk run
    [processedCount] does not exceed [totalCount]. *)
Definition never_exceeds_total
  (JSON_parse : string -> option JSValue)
  (network : nat -> list JSValue -> Bulk.FetchOutcome) : Prop :=
  forall (name text : string) (size : N) (w : World) (run : World * list Bulk.Effect),
    Bulk.bulkRun JSON_parse network name size text w = Some run ->
    processedCount (ui (fst run)) <= totalCount (ui (fst run)).

(** Whether the last effect of a trace is the pause between batches. *)
Definition ends_with_pause (trace : list Bulk.Effect) : bool :=
  match rev trace with
  | e :: _ => is_interBatchPause e
  | [] => false
  end.

Definition is_Posted (e : Bulk.Effect) : bool :=
  match e with
  | Bulk.Posted _ _ => true
  | _ => false
  end.

(** The effects of batch [i] of [count]: its request and the reads of its
    stream, the pause after a failure, and the pause before the next batch. *)
Definition segment (JSON_parse : string -> option JSValue)
  (network : nat -> list JSValue -> Bulk.FetchOutcome)
  (count : nat) (ib : nat * list JSValue) : list Bulk.Effect :=
  let '(i, batch) := ib in
  let '(result, effects) := Bulk.processBatch JSON_parse network batch i in
  effects ++ errorPause result
    ++ (if Nat.ltb i (count - 1) then [interBatchPause] else []).

(** Why a batch fails, if it does: its request is rejected, its response is
    not ok, or a read of its stream is rejected. *)
Definition failure (outcome : Bulk.FetchOutcome) : option string :=
  match outcome with
  | Bulk.Rejected message => Some message
  | Bulk.Responded false status statusText _ =>
      Some ("HTTP " ++ decimal status ++ ": " ++ statusText)%string
  | Bulk.Responded true _ _ (Some (_, Bulk.Broken message)) => Some message
  | Bulk.Responded true _ _ _ => None
  end.

(** The reads of the stream of batch [i]: every chunk the server sends, in
    order, and then the end of the stream when the stream is closed. *)
Definition reads (i : nat) (outcome : Bulk.FetchOutcome) : list Bulk.Effect :=
  match outcome with
  | Bulk.Responded true _ _ (Some (chunks, Bulk.Closed)) =>
      map (Bulk.ReadChunk i) chunks ++ [Bulk.ReadEnd i]
  | Bulk.Responded true _ _ (Some (chunks, Bulk.Broken _)) =>
      map (Bulk.ReadChunk i) chunks
  | _ => []
  end.

(** The result a line of a stream carries: the parsed payload of a data
    line whose payload is not empty and parses. *)
Definition line_result (JSON_parse : string -> option JSValue) (line : string)
  : list JSValue :=
  if startsWith line "data: " then
    if String.eqb (trim (slice 6 line)) "" then []
    else
      match JSON_parse (trim (slice 6 line)) with
      | Some parsed => [parsed]
      | None => []
      end
  else [].

(** The per-ticket results of a batch: the results of the lines of each
    chunk of its stream when the batch does not fail, none when it fails. *)
Definition batch_results (JSON_parse : string -> option JSValue)
  (outcome : Bulk.FetchOutcome) : list JSValue :=
  match failure outcome, outcome with
  | None, Bulk.Responded _ _ _ (Some (chunks, _)) =>
      flat_map (fun chunk => flat_map (line_result JSON_parse) (split_nl chunk)) chunks
  | _, _ => []
  end.

(** The pause after a batch that failed. *)
Definition failurePause (outcome : Bulk.FetchOutcome) : list Bulk.Effect :=
  match failure outcome with
  | Some error => if String.eqb error "" then [Bulk.Slept 500] else [Bulk.Slept 1000]
  | None => []
  end.

(** What the run does for batch [i] of [count], given what the server does:
    the request, the reads of the stream, the pause after a failure, and
    the pause before the next batch. *)
Definition batch_steps (network : nat -> list JSValue -> Bulk.FetchOutcome)
  (count : nat) (ib : nat * list JSValue) : list Bulk.Effect :=
  Bulk.Posted (fst ib) (snd ib)
    :: reads (fst ib) (network (fst ib) (snd ib))
    ++ failurePause (network (fst ib) (snd ib))
    ++ (if Nat.ltb (fst ib) (count - 1) then [interBatchPause] else []).

(** The tickets of a batch that failed. *)
Definition failed_tickets (network : nat -> list JSValue -> Bulk.FetchOutcome)
  (ib : nat * list JSValue) : nat :=
  match failure (network (fst ib) (snd ib)) with
  | Some _ => List.length (snd ib)
  | None => 0
  end.

(** A line of the stream that is a data line, is neither empty nor the
    sentinel, and does not parse. *)
Definition malformed (JSON_parse : string -> option JSValue) (line : string) : bool :=
  (startsWith line "data: "
   && negb (String.eqb (trim (slice 6 line)) "[DONE]")
   && negb (String.eqb (trim (slice 6 line)) "")
   && match JSON_parse (trim (slice 6 line)) with
      | None => true
      | Some _ => false
      end)%bool.

(** The lines, each ended by a line feed. *)
Definition unlines (lines : list string) : string :=
  fold_right (fun l acc => l ++ String LF acc)%string EmptyString lines.

Definition no_newline (l : string) : Prop := split_nl l = [l].

(** The complete lines of a text and the piece after its last line feed:
    what [lines] holds after [lines.pop()], and what [pop] returned. *)
Definition complete_lines (s : string) : list string := removelast (split_nl s).

Definition pending (s : string) : string := last (split_nl s) EmptyString.

(** The text of a stream delivered in these chunks. *)
Definition joined (chunks : list string) : string :=
  fold_right String.append EmptyString chunks.

(** An event other than the passing of time. *)
Definition not_wait (e : Chat.Event) : Prop :=
  match e with
  | Chat.Wait _ => False
  | _ => True
  end.

(** A payload the loop takes as flattened (line 427), and one it takes as
    typed (line 478). *)
Definition is_flattened (parsed : JSValue) : bool :=
  (truthy (prop parsed "internal_analysis") && truthy (prop parsed "final_response"))%bool.

Definition is_typed_final (parsed : JSValue) : bool :=
  (negb (is_flattened parsed)
   && (is_str (prop parsed "type") "final_response"
       || is_str (prop parsed "type") "final_result"))%bool.

(** The claim as the specification words it: the sentinel line ends
    processing, so what follows it in the stream changes nothing. *)
Definition sentinel_ends_processing
  (JSON_parse : string -> option JSValue) (text_positive : string -> bool) : Prop :=
  forall (message before after : string) (w : World),
    Chat.handleSendMessage JSON_parse text_positive message
      [Chat.Response true 200 "OK" true;
       Chat.Chunk (before ++ "data: [DONE]" ++ String LF after); Chat.Done] w
    = Chat.handleSendMessage JSON_parse text_positive message
        [Chat.Response true 200 "OK" true;
         Chat.Chunk (before ++ "data: [DONE]" ++ String LF EmptyString); Chat.Done] w.







(** A terminal payload whose extracted answer content is empty. *)
Definition empty_terminal (parsed : JSValue) : bool :=
  (negb (nullish parsed)
   && ((is_flattened parsed && negb (truthy (fst (Chat.extractFlattened parsed))))
       || (is_typed_final parsed && negb (truthy (fst (Chat.extractTyped parsed))))))%bool.

(** A ticket that passes the check of lines 118-124. *)
Definition valid_ticket (ticket : JSValue) : Prop :=
  nullish ticket = false
  /\ truthy (prop ticket "id") = true
  /\ truthy (prop ticket "body") = true.

(** The results a batch adds to [bulkResults]. *)
Definition results_of (JSON_parse : string -> option JSValue)
  (network : nat -> list JSValue -> Bulk.FetchOutcome)
  (ib : nat * list JSValue) : list JSValue :=
  match fst (Bulk.processBatch JSON_parse network (snd ib) (fst ib)) with
  | Bulk.BatchResults results _ => results
  | Bulk.BatchError _ _ => []
  end.

(** Two pages that differ at most in what a bulk run writes: the loading
    flag, the status text, the processed count and the results. *)
Definition same_outside_bulk (w w' : World) : Prop :=
  messages (ui w) = messages (ui w')
  /\ input (ui w) = input (ui w')
  /\ chatStarted (ui w) = chatStarted (ui w')
  /\ citations (ui w) = citations (ui w')
  /\ ticketData (ui w) = ticketData (ui w')
  /\ totalCount (ui w) = totalCount (ui w')
  /\ internalAnalysis (ui w) = internalAnalysis (ui w')
  /\ showInternalView (ui w) = showInternalView (ui w')
  /\ rateLimitTimer (ui w) = rateLimitTimer (ui w')
  /\ clock w = clock w'
  /\ timers w = timers w'
  /\ next_timer w = next_timer w'.

(** A chunk that ends where a line ends: it is empty or ends with a line
    feed. *)
Definition line_aligned (chunk : string) : Prop := pending chunk = EmptyString.

(** A payload that one of the branches of the loop takes (lines 427, 464,
    478 and 535). *)
Definition recognised (parsed : JSValue) : bool :=
  (is_flattened parsed
   || is_str (prop parsed "type") "node_complete"
   || is_str (prop parsed "type") "final_response"
   || is_str (prop parsed "type") "final_result"
   || (truthy (prop parsed "response") && truthy (prop (prop parsed "response") "data")))%bool.

(** No place of the text matches [w\s+] under the [i] flag. *)
Definition no_match (w s : string) : Prop :=
  forall k : nat, match_word_spaces w (slice k s) = None.

(** The text holds no code unit [c]. *)
Fixpoint avoids (c : ascii) (s : string) : Prop :=
  match s with
  | EmptyString => True
  | String x s' => x <> c /\ avoids c s'
  end.

(** A pending timer that changes nothing when the clock reaches [target]:
    it is not due by then, or it is a rate-limit callback of a render in
    which the page was not loading. *)
Definition quiet (target : N) (t : Timer) : Prop :=
  (target < timer_due t)%N \/ timer_action t = RateLimitCallback false.

End Spec.

(** ** Concrete streams *)

Module Examples.
Import JSString JS Page.

Definition eol : string := String LF EmptyString.

(** A chat turn on a freshly loaded page, with the concrete parser. *)
Definition chat (message : string) (events : list Chat.Event) : Chat.Phase * World :=
  Chat.handleSendMessage JSON.parse JSON.positive_text message events initialWorld.

Definition ok : Chat.Event := Chat.Response true 200 "OK" true.

(** A JSON text written with an apostrophe for each double quote. *)
Fixpoint json (s : string) : string :=
  match s with
  | String c s' => String (if Ascii.eqb c "'"%char then quote else c) (json s')
  | EmptyString => EmptyString
  end.

Definition flattened_line : string :=
  json "data: {'internal_analysis':{'classification':{'priority':'P2'}},'final_response':{'response_type':'routing_message','routing_response':{'message':'Routed to the support team'}}}".

Definition wrapped_line : string :=
  json "data: {'type':'final_result','data':{'internal_analysis':{'classification':{'priority':'P2'}},'final_response':{'response_type':'routing_message','routing_response':{'message':'Routed to the support team'}}}}".

Definition legacy_line : string :=
  json "data: {'response':{'data':'Routed to the support team'}}".

Definition progress_line : string :=
  json "data: {'type':'node_complete','node':'classify','message':'Completed classify'}".

Definition malformed_line : string := json "data: {'type':'node_complete',".

Definition done_line : string := "data: [DONE]".

(** A flattened payload that announces an answer and carries none, and a
    wrapped payload with neither an answer nor a hand-off message. *)
Definition empty_flattened : JSValue :=
  JObj [("internal_analysis", JObj [("classification", JObj [])]);
        ("final_response", JObj [("response_type", JStr "rag_answer")])].

Definition empty_wrapped : JSValue :=
  JObj [("type", JStr "final_result");
        ("data", JObj [("final_response", JObj [("response_type", JStr "rag_answer")])])].


(** Twelve tickets, as a file. *)
Definition twelve_tickets : string :=
  json "[{'id':1,'body':'a'},{'id':2,'body':'b'},{'id':3,'body':'c'},{'id':4,'body':'d'},{'id':5,'body':'e'},{'id':6,'body':'f'},{'id':7,'body':'g'},{'id':8,'body':'h'},{'id':9,'body':'i'},{'id':10,'body':'j'},{'id':11,'body':'k'},{'id':12,'body':'l'}]".

Definition one_ticket : string := json "[{'id':1,'body':'a'}]".

Definition result_frame : string :=
  (json "data: {'classification':{'priority':'P2'}}" ++ eol ++ eol)%string.

(** A server that answers one frame per ticket, and is unreachable for the
    second batch. *)
Definition second_fails (i : nat) (batch : list JSValue) : Bulk.FetchOutcome :=
  if Nat.eqb i 1 then Bulk.Rejected "Failed to fetch"
  else Bulk.Responded true 200 "OK" (Some (map (fun _ => result_frame) batch, Bulk.Closed)).

(** A server that answers two frames per ticket: a progress event and the
    classification. *)
Definition two_frames (i : nat) (batch : list JSValue) : Bulk.FetchOutcome :=
  Bulk.Responded true 200 "OK"
    (Some (map (fun _ => (json "data: {'type':'node_complete','node':'classify'}"
                            ++ eol ++ eol ++ result_frame)%string) batch,
           Bulk.Closed)).

(** The tickets and the page after the upload of [twelve_tickets]. *)
Definition uploaded_data : list JSValue :=
  match Bulk.handleFileUpload JSON.parse "tickets.json" 253 twelve_tickets initialWorld with
  | Bulk.Accepted data _ => data
  | Bulk.Alert _ => []
  end.

Definition uploaded_page : World :=
  match Bulk.handleFileUpload JSON.parse "tickets.json" 253 twelve_tickets initialWorld with
  | Bulk.Accepted _ w => w
  | Bulk.Alert _ => initialWorld
  end.

Definition user (text : string) : Message :=
  {| role := "user"; content := JStr text; timestamp := Some 0%N |}.





(** The payload of [wrapped_line], parsed. *)
Definition wrapped_payload : JSValue :=
  match JSON.parse (trim (slice 6 wrapped_line)) with
  | Some v => v
  | None => JNull
  end.

(** The page while a bulk run keeps it loading, before any chat turn. *)
Definition loading_page : World := setIsLoading true initialWorld.

End Examples.

(** * Properties *)

Import JSString JS Page Spec.

(** ** Splitting into lines *)

Section Lines.

Lemma split_nl_not_nil (s : string) : split_nl s <> [].
Proof.
  destruct s as [|c s]; simpl; [discriminate|].
  destruct (is_nl c); [discriminate|].
  destruct (split_nl s); discriminate.
Qed.

Lemma split_nl_complete_pending (s : string) :
  split_nl s = complete_lines s ++ [pending s].
Proof.
  unfold complete_lines, pending.
  apply app_removelast_last, split_nl_not_nil.
Qed.

Lemma split_nl_app (s t : string) :
  split_nl (s ++ t)
  = complete_lines s ++ (pending s ++ hd EmptyString (split_nl t))%string
      :: tl (split_nl t).
Proof.
  unfold complete_lines, pending.
  induction s as [|c s IH]; simpl.
  - pose proof (split_nl_not_nil t). destruct (split_nl t); [contradiction|reflexivity].
  - destruct (is_nl c).
    + rewrite IH. pose proof (split_nl_not_nil s).
      destruct (split_nl s) as [|l ls]; [contradiction|]. reflexivity.
    + rewrite IH. pose proof (split_nl_not_nil s).
      destruct (split_nl s) as [|l [|l' ls]]; [contradiction| |]; reflexivity.
Qed.

Lemma split_nl_pieces (s : string) : Forall no_newline (split_nl s).
Proof.
  unfold no_newline.
  induction s as [|c s IH]; simpl.
  - constructor; [reflexivity|constructor].
  - destruct (is_nl c) eqn:E.
    + constructor; [reflexivity|assumption].
    + pose proof (split_nl_not_nil s).
      destruct (split_nl s) as [|l ls]; [contradiction|].
      inversion IH as [|? ? Hl Hls]; subst.
      constructor; [|assumption].
      simpl. rewrite E, Hl. reflexivity.
Qed.

Lemma pending_no_newline (s : string) : no_newline (pending s).
Proof.
  pose proof (split_nl_pieces s) as H.
  rewrite split_nl_complete_pending in H.
  apply Forall_app in H. destruct H as [_ H]. inversion H; assumption.
Qed.

Lemma split_nl_resume (s t : string) :
  split_nl (s ++ t) = complete_lines s ++ split_nl (pending s ++ t).
Proof.
  rewrite (split_nl_app (pending s) t).
  unfold complete_lines at 2. unfold pending at 2.
  rewrite (pending_no_newline s). simpl.
  apply split_nl_app.
Qed.

Lemma complete_lines_app (s t : string) :
  complete_lines (s ++ t) = complete_lines s ++ complete_lines (pending s ++ t).
Proof.
  unfold complete_lines at 1. rewrite split_nl_resume.
  rewrite removelast_app by apply split_nl_not_nil. reflexivity.
Qed.

Lemma last_app_not_nil {A} (l l' : list A) d : l' <> [] -> last (l ++ l') d = last l' d.
Proof.
  intros H. induction l as [|a l IH]; [reflexivity|].
  simpl. rewrite IH. destruct (l ++ l') eqn:E; [|reflexivity].
  apply app_eq_nil in E. destruct E; contradiction.
Qed.

Lemma pending_app (s t : string) : pending (s ++ t) = pending (pending s ++ t).
Proof.
  unfold pending at 1. rewrite split_nl_resume.
  apply last_app_not_nil, split_nl_not_nil.
Qed.

Lemma string_app_assoc (a b c : string) : ((a ++ b) ++ c = a ++ (b ++ c))%string.
Proof. induction a as [|x a IH]; simpl; [reflexivity|now rewrite IH]. Qed.

Lemma string_app_nil_r (a : string) : (a ++ "")%string = a.
Proof. induction a as [|x a IH]; simpl; [reflexivity|now rewrite IH]. Qed.

(** Joining the pieces with line feeds gives the text back. *)
Lemma concat_split_nl (s : string) : String.concat (String LF "") (split_nl s) = s.
Proof.
  induction s as [|c s IH]; [reflexivity|].
  simpl. destruct (is_nl c) eqn:E.
  - unfold is_nl in E. apply Ascii.eqb_eq in E. subst c.
    pose proof (split_nl_not_nil s).
    destruct (split_nl s) as [|l ls] eqn:Es; [contradiction|].
    simpl in *. now rewrite IH.
  - pose proof (split_nl_not_nil s).
    destruct (split_nl s) as [|l ls] eqn:Es; [contradiction|].
    simpl in *. destruct ls; simpl in *; now rewrite <- IH.
Qed.

End Lines.

(** ** The chat reducer *)

Section ChatReducer.

Variable JSON_parse : string -> option JSValue.
Variable text_positive : string -> bool.

Local Abbreviation processLine := (Chat.processLine JSON_parse text_positive).
Local Abbreviation onChunk := (Chat.onChunk JSON_parse text_positive).
Local Abbreviation step := (Chat.step JSON_parse text_positive).
Local Abbreviation handleSendMessage := (Chat.handleSendMessage JSON_parse text_positive).

Lemma step_chunk seen buffer text w :
  step seen (Chat.AwaitRead buffer, w) (Chat.Chunk text)
  = (Chat.AwaitRead (pending (buffer ++ text)),
     fold_left (processLine seen) (complete_lines (buffer ++ text)) w).
Proof. reflexivity. Qed.

Lemma step_response seen timeoutId status statusText w :
  step seen (Chat.AwaitFetch timeoutId, w) (Chat.Response true status statusText true)
  = (Chat.AwaitRead "", clearRateLimitTimer seen (clearTimeout timeoutId w)).
Proof. reflexivity. Qed.

(** Reading chunk after chunk processes the complete lines of the whole
    text read so far, and holds its last piece. *)
Lemma read_chunks seen (chunks : list string) :
  forall (x : string) (w : World),
    fold_left (step seen) (map Chat.Chunk chunks)
      (Chat.AwaitRead (pending x), fold_left (processLine seen) (complete_lines x) w)
    = (Chat.AwaitRead (pending (x ++ joined chunks)),
       fold_left (processLine seen) (complete_lines (x ++ joined chunks)) w).
Proof.
  induction chunks as [|c chunks IH]; intros x w; cbn [map fold_left joined fold_right].
  - now rewrite string_app_nil_r.
  - rewrite step_chunk.
    rewrite <- fold_left_app, <- complete_lines_app, <- pending_app.
    rewrite IH. now rewrite string_app_assoc.
Qed.

Lemma read_chunks_from_start seen (chunks : list string) (w : World) :
  fold_left (step seen) (map Chat.Chunk chunks) (Chat.AwaitRead "", w)
  = (Chat.AwaitRead (pending (joined chunks)),
     fold_left (processLine seen) (complete_lines (joined chunks)) w).
Proof. exact (read_chunks seen chunks "" w). Qed.

Lemma finished_ignores seen (events : list Chat.Event) (w : World) :
  Forall not_wait events ->
  fold_left (step seen) events (Chat.Finished, w) = (Chat.Finished, w).
Proof.
  induction 1 as [|e events He _ IH]; [reflexivity|].
  cbn [fold_left]. destruct e; try contradiction; exact IH.
Qed.

Lemma chunks_not_wait (chunks : list string) :
  Forall not_wait (map Chat.Chunk chunks ++ [Chat.Done]).
Proof.
  apply Forall_app. split.
  - apply Forall_forall. intros e He. apply in_map_iff in He.
    destruct He as [c [<- _]]. exact I.
  - constructor; [exact I|constructor].
Qed.

(** The synchronous part of a turn ends at [await fetch], or at once. *)
Lemma beginTurn_phase seen message w :
  (exists timeoutId w', Chat.beginTurn seen message w = (Chat.AwaitFetch timeoutId, w'))
  \/ Chat.beginTurn seen message w = (Chat.Finished, w).
Proof.
  unfold Chat.beginTurn.
  destruct (String.eqb (trim message) ""); [now right|left].
  cbn. eauto.
Qed.

(** A turn depends on the chunks of the body through their concatenation
    only. *)
Lemma turn_by_chunks (message statusText : string) (status : nat)
  (chunks : list string) (w : World) :
  handleSendMessage message
    (Chat.Response true status statusText true :: map Chat.Chunk chunks ++ [Chat.Done]) w
  = handleSendMessage message
      [Chat.Response true status statusText true; Chat.Chunk (joined chunks); Chat.Done] w.
Proof.
  unfold Chat.handleSendMessage.
  destruct (beginTurn_phase (render (ui w)) message w) as [[timeoutId [w0 E]]|E];
    rewrite E.
  - change [Chat.Response true status statusText true; Chat.Chunk (joined chunks); Chat.Done]
      with (Chat.Response true status statusText true
              :: map Chat.Chunk [joined chunks] ++ [Chat.Done]).
    cbn [fold_left]. rewrite step_response.
    rewrite !fold_left_app, !read_chunks_from_start.
    cbn [joined fold_right]. now rewrite string_app_nil_r.
  - rewrite (finished_ignores _ (_ :: _)).
    + now rewrite finished_ignores by (repeat constructor).
    + constructor; [exact I|apply chunks_not_wait].
Qed.

(** C1.  A chat turn whose response body arrives in any chunks ends in the
    state it ends in when the body arrives as one chunk; each chunk is
    appended to the buffer, the complete lines of the result are processed
    and the piece after the last line feed is held back. *)
Theorem C1_chunking_invariant :
  forall (message statusText : string) (status : nat) (chunks : list string) (w : World),
    handleSendMessage message
      (Chat.Response true status statusText true :: map Chat.Chunk chunks ++ [Chat.Done]) w
    = handleSendMessage message
        [Chat.Response true status statusText true; Chat.Chunk (joined chunks); Chat.Done] w
    /\ forall seen buffer text w',
         onChunk seen buffer text w'
         = (pending (buffer ++ text),
            fold_left (processLine seen) (complete_lines (buffer ++ text)) w')
         /\ String.concat (String LF "")
              (complete_lines (buffer ++ text) ++ [pending (buffer ++ text)])
            = (buffer ++ text)%string
         /\ Forall no_newline (complete_lines (buffer ++ text))
         /\ no_newline (pending (buffer ++ text)).
Proof.
  intros message statusText status chunks w. split.
  - apply turn_by_chunks.
  - intros seen buffer text w'. repeat split.
    + rewrite <- split_nl_complete_pending. apply concat_split_nl.
    + pose proof (split_nl_pieces (buffer ++ text)) as H.
      rewrite split_nl_complete_pending in H. now apply Forall_app in H.
    + apply pending_no_newline.
Qed.

(** *** Malformed lines *)

Lemma processLine_malformed seen w line :
  malformed JSON_parse line = true -> processLine seen w line = w.
Proof.
  unfold malformed, Chat.processLine. intros H.
  apply andb_prop in H. destruct H as [H Hparse].
  apply andb_prop in H. destruct H as [H Hempty].
  apply andb_prop in H. destruct H as [Hdata Hdone].
  rewrite Hdata.
  apply negb_true_iff in Hdone. apply negb_true_iff in Hempty.
  rewrite Hdone, Hempty.
  destruct (JSON_parse (trim (slice 6 line))); [discriminate|reflexivity].
Qed.

Lemma fold_processLine_filter seen lines :
  forall w,
    fold_left (processLine seen) lines w
    = fold_left (processLine seen)
        (filter (fun l => negb (malformed JSON_parse l)) lines) w.
Proof.
  induction lines as [|l lines IH]; intros w; [reflexivity|].
  cbn [fold_left filter].
  destruct (malformed JSON_parse l) eqn:E; cbn [negb fold_left].
  - rewrite processLine_malformed by assumption. apply IH.
  - apply IH.
Qed.

Lemma split_nl_line_then (l t : string) :
  no_newline l -> split_nl (l ++ String LF t) = l :: split_nl t.
Proof.
  intros Hl. rewrite split_nl_app. unfold complete_lines, pending. rewrite Hl.
  cbn. now rewrite string_app_nil_r.
Qed.

Lemma split_nl_unlines (lines : list string) (rest : string) :
  Forall no_newline lines ->
  split_nl (unlines lines ++ rest) = lines ++ split_nl rest.
Proof.
  induction 1 as [|l lines Hl _ IH]; [reflexivity|].
  cbn [unlines fold_right]. rewrite string_app_assoc.
  cbn [String.append]. rewrite split_nl_line_then by assumption.
  fold (unlines lines). now rewrite IH.
Qed.

Lemma complete_lines_unlines (lines : list string) (rest : string) :
  Forall no_newline lines ->
  complete_lines (unlines lines ++ rest) = lines ++ complete_lines rest
  /\ pending (unlines lines ++ rest) = pending rest.
Proof.
  intros H. unfold complete_lines, pending. rewrite split_nl_unlines by assumption.
  split.
  - apply removelast_app, split_nl_not_nil.
  - apply last_app_not_nil, split_nl_not_nil.
Qed.

Lemma Forall_filter {A} (P : A -> Prop) (f : A -> bool) (l : list A) :
  Forall P l -> Forall P (filter f l).
Proof.
  induction 1 as [|x l Hx _ IH]; cbn; [constructor|].
  destruct (f x); [constructor|]; assumption.
Qed.

(** C9.  A data line that does not parse leaves the page as it was and the
    loop goes on with the next line: a stream with malformed lines among its
    lines, cut into chunks in any way, ends the turn in the state the stream
    without them ends it in.  The bulk reader skips such a line in the same
    way. *)
Theorem C9_malformed_lines_skipped :
  forall (message statusText : string) (status : nat)
         (lines : list string) (rest : string) (chunks chunks' : list string) (w : World),
    Forall no_newline lines ->
    joined chunks = (unlines lines ++ rest)%string ->
    joined chunks'
    = (unlines (filter (fun l => negb (malformed JSON_parse l)) lines) ++ rest)%string ->
    handleSendMessage message
      (Chat.Response true status statusText true :: map Chat.Chunk chunks ++ [Chat.Done]) w
    = handleSendMessage message
        (Chat.Response true status statusText true :: map Chat.Chunk chunks' ++ [Chat.Done]) w
    /\ (forall seen w' line,
          malformed JSON_parse line = true -> processLine seen w' line = w')
    /\ (forall results line,
          malformed JSON_parse line = true ->
          Bulk.collectLine JSON_parse results line = results).
Proof.
  intros message statusText status lines rest chunks chunks' w Hlines Hjoin Hjoin'.
  split; [|split].
  - rewrite !turn_by_chunks, Hjoin, Hjoin'.
    unfold Chat.handleSendMessage.
    destruct (beginTurn_phase (render (ui w)) message w) as [[timeoutId [w0 E]]|E];
      rewrite E.
    + cbn [fold_left]. rewrite step_response, !step_chunk.
      cbn [String.append].
      destruct (complete_lines_unlines lines rest Hlines) as [-> ->].
      destruct (complete_lines_unlines
                  (filter (fun l => negb (malformed JSON_parse l)) lines) rest
                  (Forall_filter _ _ _ Hlines)) as [-> ->].
      rewrite !fold_left_app.
      now rewrite <- fold_processLine_filter.
    + now rewrite !finished_ignores by (repeat constructor).
  - intros seen w' line. apply processLine_malformed.
  - intros results line H. unfold malformed in H. unfold Bulk.collectLine.
    apply andb_prop in H. destruct H as [H Hparse].
    apply andb_prop in H. destruct H as [H Hempty].
    apply andb_prop in H. destruct H as [Hdata _].
    rewrite Hdata, Hempty.
    destruct (JSON_parse (trim (slice 6 line))); [discriminate|reflexivity].
Qed.

(** *** What the setters leave alone *)

Lemma clearRateLimitTimer_ui seen w :
  messages (ui (clearRateLimitTimer seen w)) = messages (ui w)
  /\ isLoading (ui (clearRateLimitTimer seen w)) = isLoading (ui w)
  /\ currentStatus (ui (clearRateLimitTimer seen w)) = currentStatus (ui w)
  /\ citations (ui (clearRateLimitTimer seen w)) = citations (ui w)
  /\ internalAnalysis (ui (clearRateLimitTimer seen w)) = internalAnalysis (ui w).
Proof.
  unfold clearRateLimitTimer. destruct (seen_rateLimitTimer seen); cbn; auto.
Qed.

Lemma deliver_empty content sources w :
  truthy content = false -> Chat.deliver text_positive content sources w = w.
Proof. unfold Chat.deliver. now intros ->. Qed.

Lemma storeAnalysis_ui data w :
  messages (ui (Chat.storeAnalysis data w)) = messages (ui w)
  /\ isLoading (ui (Chat.storeAnalysis data w)) = isLoading (ui w)
  /\ currentStatus (ui (Chat.storeAnalysis data w)) = currentStatus (ui w)
  /\ citations (ui (Chat.storeAnalysis data w)) = citations (ui w).
Proof. unfold Chat.storeAnalysis. destruct (truthy _); cbn; auto. Qed.

Lemma is_str_other v a b : is_str v a = true -> a <> b -> is_str v b = false.
Proof.
  destruct v; cbn; try discriminate.
  intros Ha Hab. apply String.eqb_eq in Ha. subst. now apply String.eqb_neq.
Qed.

(** *** The sentinel *)

(** C5 (amended).  A data line whose payload is the sentinel is not given to
    the JSON parser; it clears the loading state and the status text and
    leaves the messages and the citations as they were; the turn keeps
    reading, and the lines after it are processed. *)
Theorem C5_sentinel_clears_and_continues :
  forall (seen : Render) (w : World) (line : string),
    startsWith line "data: " = true ->
    trim (slice 6 line) = "[DONE]" ->
    no_newline line ->
    isLoading (ui (processLine seen w line)) = false
    /\ currentStatus (ui (processLine seen w line)) = StatusText ""
    /\ messages (ui (processLine seen w line)) = messages (ui w)
    /\ citations (ui (processLine seen w line)) = citations (ui w)
    /\ (forall parse' positive',
          Chat.processLine parse' positive' seen w line = processLine seen w line)
    /\ (forall after,
          step seen (Chat.AwaitRead "", w) (Chat.Chunk (line ++ String LF after))
          = step seen (Chat.AwaitRead "", processLine seen w line) (Chat.Chunk after)).
Proof.
  intros seen w line Hdata Hdone Hline.
  assert (E : forall parse' positive',
             Chat.processLine parse' positive' seen w line
             = clearRateLimitTimer seen (setCurrentStatus "" (setIsLoading false w))).
  { intros. unfold Chat.processLine. now rewrite Hdata, Hdone. }
  rewrite (E JSON_parse text_positive).
  destruct (clearRateLimitTimer_ui seen (setCurrentStatus "" (setIsLoading false w)))
    as (Hm & Hl & Hs & Hc & _).
  split; [now rewrite Hl|]. split; [now rewrite Hs|].
  split; [now rewrite Hm|]. split; [now rewrite Hc|]. split.
  - intros. now rewrite E.
  - intros after. rewrite !step_chunk. cbn [String.append].
    unfold complete_lines, pending.
    rewrite split_nl_line_then by assumption.
    pose proof (split_nl_not_nil after) as Hne.
    destruct (split_nl after) as [|l ls] eqn:Ea; [contradiction|].
    cbn [removelast last fold_left].
    rewrite (E JSON_parse text_positive). reflexivity.
Qed.

(** *** Terminal payloads *)

Local Abbreviation handleParsed := (Chat.handleParsed text_positive).

(** C10.  A terminal payload from which no answer content is extracted
    clears the loading state and the status text and leaves the message list
    as it was. *)
Theorem C10_empty_content_appends_nothing :
  forall (seen : Render) (parsed : JSValue) (w : World),
    empty_terminal parsed = true ->
    messages (ui (handleParsed seen parsed w)) = messages (ui w)
    /\ isLoading (ui (handleParsed seen parsed w)) = false
    /\ currentStatus (ui (handleParsed seen parsed w)) = StatusText "".
Proof.
  intros seen parsed w H.
  unfold empty_terminal in H.
  apply andb_prop in H. destruct H as [Hnull H].
  apply negb_true_iff in Hnull.
  unfold Chat.handleParsed. rewrite Hnull.
  destruct (clearRateLimitTimer_ui seen (setIsLoading false (setCurrentStatus "" w)))
    as (Hm & Hl & Hs & _ & _).
  apply orb_prop in H. destruct H as [H|H]; apply andb_prop in H; destruct H as [Hshape Hempty];
    apply negb_true_iff in Hempty.
  - unfold is_flattened in Hshape. rewrite Hshape.
    destruct (Chat.extractFlattened parsed) as [content sources]. cbn [fst] in Hempty.
    rewrite deliver_empty by assumption. cbn.
    rewrite Hm, Hl, Hs. cbn. auto.
  - unfold is_typed_final in Hshape. apply andb_prop in Hshape.
    destruct Hshape as [Hflat Htype]. apply negb_true_iff in Hflat.
    unfold is_flattened in Hflat. rewrite Hflat.
    assert (Hnode : is_str (prop parsed "type") "node_complete" = false).
    { apply orb_prop in Htype.
      destruct Htype as [Ht|Ht]; apply (is_str_other _ _ _ Ht); discriminate. }
    rewrite Hnode, Htype.
    destruct (Chat.extractTyped parsed) as [content sources]. cbn [fst] in Hempty.
    rewrite deliver_empty by assumption.
    set (w2 := if (is_str (prop parsed "type") "final_result" && truthy (prop parsed "data"))%bool
               then _ else _).
    assert (Hw2 : messages (ui w2) = messages (ui w)
                  /\ isLoading (ui w2) = false
                  /\ currentStatus (ui w2) = StatusText "").
    { subst w2.
      destruct (is_str (prop parsed "type") "final_result" && truthy (prop parsed "data"))%bool.
      - destruct (storeAnalysis_ui (prop parsed "data")
                    (clearRateLimitTimer seen (setIsLoading false (setCurrentStatus "" w))))
          as (Hm' & Hl' & Hs' & _).
        rewrite Hm', Hl', Hs', Hm, Hl, Hs. cbn. auto.
      - rewrite Hm, Hl, Hs. cbn. auto. }
    destruct (truthy (or_else _ _)); cbn; exact Hw2.
Qed.


End ChatReducer.

(** ** The status phrases *)

Section StatusMapping.

Lemma replace_ellipsis_bounded (n : nat) :
  forall s : string, String.length s <= n -> replace_ellipsis s = s.
Proof.
  induction n as [|n IH]; intros s Hs.
  - destruct s; [reflexivity|cbn in Hs; lia].
  - destruct s as [|c1 s1]; [reflexivity|]. cbn in Hs.
    assert (H1 : replace_ellipsis s1 = s1) by (apply IH; lia).
    destruct c1 as [[] [] [] [] [] [] [] []];
      try (cbn [replace_ellipsis]; now rewrite H1).
    destruct s1 as [|c2 s2]; [reflexivity|]. cbn in Hs.
    destruct c2 as [[] [] [] [] [] [] [] []];
      try (cbn [replace_ellipsis] in *; now rewrite H1).
    destruct s2 as [|c3 s3]; [reflexivity|]. cbn in Hs.
    assert (H3 : replace_ellipsis s3 = s3) by (apply IH; lia).
    destruct c3 as [[] [] [] [] [] [] [] []];
      try (cbn [replace_ellipsis] in *; now rewrite H1).
    cbn [replace_ellipsis]. now rewrite H3.
Qed.

(** Replacing every run of three dots by three dots changes nothing. *)
Lemma replace_ellipsis_id (s : string) : replace_ellipsis s = s.
Proof. exact (replace_ellipsis_bounded (String.length s) s (le_n _)). Qed.

Lemma statusMap_get_none (node : string) :
  ~ In node (map fst Chat.statusMap) ->
  ~ In node Chat.Object_prototype_members ->
  Chat.statusMap_get node = None.
Proof.
  intros Htable Hproto. unfold Chat.statusMap_get.
  assert (Chat.assoc node Chat.statusMap = None) as ->.
  { cbn in Htable. cbn.
    repeat match goal with
           | |- context [String.eqb node ?k] =>
               destruct (String.eqb_spec node k); [exfalso; apply Htable; subst; tauto|]
           end.
    reflexivity. }
  destruct (existsb (String.eqb node) Chat.Object_prototype_members) eqn:E; [|reflexivity].
  apply existsb_exists in E. destruct E as [k [Hk Heq]].
  apply String.eqb_eq in Heq. subst k. contradiction.
Qed.

(** C8 (amended).  The four nodes of the table give their phrases.  A node
    that is not in the table, and is not the name of a member that every
    object inherits, gives the message with its first [Processing] and the
    white space after it removed (in any letter case, wherever it stands)
    and its first [Completed] and the white space after it replaced by
    [Finished] and one space.  Given two strings the function returns. *)
Theorem C8_status_mapping :
  forall node message : string,
    ~ In node (map fst Chat.statusMap) ->
    ~ In node Chat.Object_prototype_members ->
    Chat.getFriendlyStatusMessage (JStr node) (JStr message)
    = Some (StatusText
              (replace_word_spaces "Completed" "Finished "
                 (replace_word_spaces "Processing" "" message)))
    /\ (forall any : string,
          Chat.getFriendlyStatusMessage (JStr "classify") (JStr any)
          = Some (StatusText "Understanding your question...")
          /\ Chat.getFriendlyStatusMessage (JStr "agent") (JStr any)
             = Some (StatusText "Preparing response...")
          /\ Chat.getFriendlyStatusMessage (JStr "document_search") (JStr any)
             = Some (StatusText "Searching knowledge base...")
          /\ Chat.getFriendlyStatusMessage (JStr "finalize_response") (JStr any)
             = Some (StatusText "Finalizing answer..."))
    /\ (forall n m : string,
          exists v, Chat.getFriendlyStatusMessage (JStr n) (JStr m) = Some v).
Proof.
  intros node message Htable Hproto. split; [|split].
  - unfold Chat.getFriendlyStatusMessage. cbn [ToString].
    rewrite statusMap_get_none by assumption.
    unfold Chat.cleanup. now rewrite replace_ellipsis_id.
  - intros any. repeat split.
  - intros n m. unfold Chat.getFriendlyStatusMessage. cbn [ToString].
    destruct (Chat.statusMap_get n); eauto.
Qed.

(** C8 at a node outside the table. *)
Lemma C8_witness :
  ~ In "retrieval" (map fst Chat.statusMap)
  /\ ~ In "retrieval" Chat.Object_prototype_members
  /\ Chat.getFriendlyStatusMessage (JStr "retrieval") (JStr "Now PROCESSING  documents...")
     = Some (StatusText "Now documents...").
Proof.
  assert (H1 : ~ In "retrieval" (map fst Chat.statusMap))
    by (cbn; intuition discriminate).
  assert (H2 : ~ In "retrieval" Chat.Object_prototype_members)
    by (cbn; intuition discriminate).
  split; [exact H1|]. split; [exact H2|].
  exact (proj1 (C8_status_mapping "retrieval" "Now PROCESSING  documents..." H1 H2)).
Defined.

(** C8, as stated, fails: a leading [Completed] is not stripped but replaced
    by [Finished], and a [Processing] that does not lead is removed too. *)
Lemma C8_counterexample :
  Chat.getFriendlyStatusMessage (JStr "retrieval") (JStr "Completed retrieval")
  = Some (StatusText "Finished retrieval")
  /\ strip_leading_verb "Completed retrieval" = "retrieval"
  /\ Chat.getFriendlyStatusMessage (JStr "retrieval") (JStr "Now processing files")
     = Some (StatusText "Now files")
  /\ strip_leading_verb "Now processing files" = "Now processing files"
  /\ ~ (forall node message : string,
          ~ In node (map fst Chat.statusMap) ->
          Chat.getFriendlyStatusMessage (JStr node) (JStr message)
          = Some (StatusText (strip_leading_verb message))).
Proof.
  repeat split.
  intros H. specialize (H "retrieval" "Completed retrieval").
  assert (Hn : ~ In "retrieval" (map fst Chat.statusMap)) by (cbn; intuition discriminate).
  specialize (H Hn). vm_compute in H. discriminate H.
Qed.

End StatusMapping.

(** ** Concrete turns *)

Section ConcreteTurns.

Import Examples.

Local Abbreviation processLine := (Chat.processLine JSON.parse JSON.positive_text).
Local Abbreviation handleParsed := (Chat.handleParsed JSON.positive_text).

(** C9 at a concrete stream: a progress line, a malformed line and a
    terminal payload, cut in the middle of the malformed line. *)
Lemma C9_witness :
  Forall no_newline [progress_line; malformed_line; flattened_line]
  /\ chat "hi"
       [ok;
        Chat.Chunk (progress_line ++ eol ++ "data: {");
        Chat.Chunk (slice 7 malformed_line ++ eol ++ flattened_line ++ eol);
        Chat.Done]
     = chat "hi" [ok; Chat.Chunk (progress_line ++ eol ++ flattened_line ++ eol); Chat.Done].
Proof.
  assert (H : Forall no_newline [progress_line; malformed_line; flattened_line])
    by (repeat constructor).
  split; [exact H|].
  exact (proj1 (C9_malformed_lines_skipped JSON.parse JSON.positive_text
                  "hi" "OK" 200 [progress_line; malformed_line; flattened_line] ""
                  [(progress_line ++ eol ++ "data: {")%string;
                   (slice 7 malformed_line ++ eol ++ flattened_line ++ eol)%string]
                  [(progress_line ++ eol ++ flattened_line ++ eol)%string]
                  initialWorld H eq_refl eq_refl)).
Defined.

(** C5 at the sentinel line on a freshly loaded page. *)
Lemma C5_witness :
  startsWith done_line "data: " = true
  /\ trim (slice 6 done_line) = "[DONE]"
  /\ no_newline done_line
  /\ isLoading (ui (processLine (render initialState) initialWorld done_line)) = false.
Proof.
  split; [reflexivity|]. split; [reflexivity|]. split; [reflexivity|].
  exact (proj1 (C5_sentinel_clears_and_continues JSON.parse JSON.positive_text
                  (render initialState) initialWorld done_line
                  eq_refl eq_refl eq_refl)).
Defined.

(** C5, as stated, fails: a terminal payload on the line after the sentinel
    is still read and delivered. *)
Lemma C5_counterexample :
  ~ sentinel_ends_processing JSON.parse JSON.positive_text.
Proof.
  intros H.
  specialize (H "hi" "" (flattened_line ++ eol)%string initialWorld).
  vm_compute in H. discriminate H.
Qed.

(** C10 at a flattened payload that announces an answer and has none, and
    at a wrapped payload with neither answer nor hand-off message. *)
Lemma C10_witness :
  empty_terminal empty_flattened = true
  /\ empty_terminal empty_wrapped = true
  /\ messages (ui (handleParsed (render initialState) empty_flattened initialWorld)) = []
  /\ messages (ui (handleParsed (render initialState) empty_wrapped initialWorld)) = [].
Proof.
  split; [reflexivity|]. split; [reflexivity|]. split.
  - exact (proj1 (C10_empty_content_appends_nothing JSON.positive_text
                    (render initialState) empty_flattened initialWorld eq_refl)).
  - exact (proj1 (C10_empty_content_appends_nothing JSON.positive_text
                    (render initialState) empty_wrapped initialWorld eq_refl)).
Defined.



(** C6, the code at a failing input: a flattened or legacy terminal payload
    on a trailing line without a line feed is dropped, although the same
    line followed by a line feed is delivered, and a wrapped payload is
    delivered in both places. *)
Example C6_trailing_payload_dropped :
  messages (ui (snd (chat "hi" [ok; Chat.Chunk flattened_line; Chat.Done])))
  = [user "hi"]
  /\ messages (ui (snd (chat "hi" [ok; Chat.Chunk (flattened_line ++ eol); Chat.Done])))
     = [user "hi"; Chat.assistant (JStr "Routed to the support team")]
  /\ messages (ui (snd (chat "hi" [ok; Chat.Chunk legacy_line; Chat.Done])))
     = [user "hi"]
  /\ messages (ui (snd (chat "hi" [ok; Chat.Chunk (legacy_line ++ eol); Chat.Done])))
     = [user "hi"; Chat.assistant (JStr "Routed to the support team")]
  /\ messages (ui (snd (chat "hi" [ok; Chat.Chunk wrapped_line; Chat.Done])))
     = [user "hi"; Chat.assistant (JStr "Routed to the support team")].
Proof. vm_compute. repeat split. Qed.

(** The callback of the rate-limit timer reads the [isLoading] of the render
    that started the turn: started while the page is not loading, it does
    nothing when it fires. *)
Lemma rateLimitCallback_stale (s : State) (w : World) :
  isLoading s = false -> Chat.rateLimitCallback (seen_isLoading (render s)) w = w.
Proof. intros H. unfold render. cbn. now rewrite H. Qed.

(** C4, the code at a failing input: the first turn of a page, sixteen
    seconds without a response or with one progress event only.  The timer
    has fired and is gone, no advisory message was appended, and the page is
    still loading. *)
Example C4_watchdog_appends_nothing :
  (let '(phase, w) := chat "How to setup Snowflake connector?" [Chat.Wait 16000] in
   (exists timeoutId, phase = Chat.AwaitFetch timeoutId)
   /\ messages (ui w) = [user "How to setup Snowflake connector?"]
   /\ isLoading (ui w) = true
   /\ clock w = 16000%N
   /\ map timer_action (timers w) = [AbortFetch])
  /\ (let '(phase, w) :=
         chat "How to setup Snowflake connector?"
           [ok; Chat.Wait 1000; Chat.Chunk (progress_line ++ eol ++ eol); Chat.Wait 15000] in
       phase = Chat.AwaitRead ""
       /\ messages (ui w) = [user "How to setup Snowflake connector?"]
       /\ isLoading (ui w) = true
       /\ clock w = 16000%N
       /\ timers w = []).
Proof. vm_compute. repeat split. now exists 2. Qed.

End ConcreteTurns.

(** ** The batch orchestrator *)

Section Batches.

Lemma batchesFrom_length (i : nat) (data : list JSValue) :
  List.length (Bulk.batchesFrom i data) = (List.length data - i + 4) / 5.
Proof.
  funelim (Bulk.batchesFrom i data).
  - cbn [List.length]. rewrite H. unfold Bulk.batchSize.
    clear H Heq Heqcall.
    remember (List.length data - i) as m eqn:Em.
    assert (Hm : 1 <= m) by lia.
    replace (List.length data - (i + 5)) with (m - 5) by lia.
    destruct (Nat.le_gt_cases 5 m) as [H5|H5].
    + replace (m + 4) with ((m - 5 + 4) + 1 * 5) by lia.
      rewrite Nat.div_add by lia. now rewrite Nat.add_1_r.
    + replace (m - 5) with 0 by lia.
      assert (E : (m + 4) / 5 = 1).
      { symmetry. apply (Nat.div_unique (m + 4) 5 1 (m - 1)); lia. }
      rewrite E. reflexivity.
  - cbn [List.length]. symmetry. apply Nat.div_small. lia.
Qed.

Lemma batchesFrom_concat (i : nat) (data : list JSValue) :
  concat (Bulk.batchesFrom i data) = skipn i data.
Proof.
  funelim (Bulk.batchesFrom i data).
  - cbn [concat]. rewrite H. unfold Bulk.slice_list.
    replace (i + Bulk.batchSize - i) with Bulk.batchSize by lia.
    replace (i + Bulk.batchSize) with (Bulk.batchSize + i) by lia.
    rewrite <- skipn_skipn. apply firstn_skipn.
  - cbn [concat]. symmetry. apply skipn_all2. lia.
Qed.

Lemma batchesFrom_sizes (i : nat) (data : list JSValue) :
  Forall (fun b => 1 <= List.length b <= 5) (Bulk.batchesFrom i data).
Proof.
  funelim (Bulk.batchesFrom i data).
  - constructor; [|exact H].
    unfold Bulk.slice_list, Bulk.batchSize.
    rewrite length_firstn, length_skipn. lia.
  - constructor.
Qed.

End Batches.

Section BulkDriver.

Variable JSON_parse : string -> option JSValue.
Variable network : nat -> list JSValue -> Bulk.FetchOutcome.

Local Abbreviation processBatch := (Bulk.processBatch JSON_parse network).
Local Abbreviation iteration := (Bulk.iteration JSON_parse network).
Local Abbreviation batchLoop := (Bulk.batchLoop JSON_parse network).
Local Abbreviation startBulkProcessing := (Bulk.startBulkProcessing JSON_parse network).
Local Abbreviation bulkProgress := (Bulk.bulkProgress JSON_parse network).
Local Abbreviation seg := (segment JSON_parse network).
Local Abbreviation share :=
  (fun ib : nat * list JSValue => contributed (fst (processBatch (snd ib) (fst ib)))).

Lemma iteration_spec count i batch w trace :
  exists w',
    iteration count i batch (w, trace) = (w', trace ++ seg count (i, batch))
    /\ processedCount (ui w') = processedCount (ui w) + share (i, batch)
    /\ totalCount (ui w') = totalCount (ui w).
Proof.
  unfold Bulk.iteration, segment. cbn [fst snd].
  destruct (processBatch batch i) as [[results idx|error idx] effects].
  - eexists. split; [reflexivity|]. cbn. auto.
  - destruct (String.eqb error "") eqn:E; cbn [negb errorPause]; rewrite ?E;
      eexists; (split; [reflexivity|]); cbn; auto.
Qed.

Lemma batchLoop_spec count batches :
  forall i w trace,
    exists w',
      batchLoop count i batches (w, trace)
      = (w', trace ++ flat_map (seg count) (combine (seq i (List.length batches)) batches))
      /\ processedCount (ui w')
         = processedCount (ui w)
           + list_sum (map share (combine (seq i (List.length batches)) batches))
      /\ totalCount (ui w') = totalCount (ui w).
Proof.
  induction batches as [|batch rest IH]; intros i w trace.
  - exists w. cbn. rewrite app_nil_r. auto.
  - cbn [Bulk.batchLoop List.length seq combine flat_map map list_sum].
    destruct (iteration_spec count i batch w trace) as (w1 & -> & Hp1 & Ht1).
    destruct (IH (S i) w1 (trace ++ seg count (i, batch))) as (w2 & -> & Hp2 & Ht2).
    exists w2. rewrite <- app_assoc. split; [reflexivity|].
    rewrite Hp2, Hp1, Ht2, Ht1. split; [|reflexivity].
    unfold list_sum. cbn [fst snd fold_right]. lia.
Qed.

Lemma batchLoop_app count front back :
  forall i acc,
    batchLoop count i (front ++ back) acc
    = batchLoop count (i + List.length front) back (batchLoop count i front acc).
Proof.
  induction front as [|b front IH]; intros i acc; cbn [Bulk.batchLoop app List.length].
  - now rewrite Nat.add_0_r.
  - rewrite IH. now rewrite Nat.add_succ_r.
Qed.

Lemma batchLoop_monotone count batches i w trace :
  processedCount (ui w) <= processedCount (ui (fst (batchLoop count i batches (w, trace)))).
Proof.
  destruct (batchLoop_spec count batches i w trace) as (w' & -> & Hp & _).
  cbn [fst]. lia.
Qed.

Lemma share_prefix_bounded (batches : list (list JSValue)) :
  forall i k,
    Forall (fun ib => share ib <= List.length (snd ib))
      (combine (seq i (List.length batches)) batches) ->
    list_sum (map share
                (combine (seq i (List.length (firstn k batches))) (firstn k batches)))
    <= list_sum (map (@List.length JSValue) batches).
Proof.
  unfold list_sum.
  induction batches as [|b rest IH]; intros i k H.
  - rewrite firstn_nil. apply Nat.le_refl.
  - destruct k as [|k]; cbn [firstn List.length seq combine map fold_right]; [lia|].
    cbn [List.length seq combine] in H. inversion H as [|? ? Hb Hrest]; subst.
    specialize (IH (S i) k Hrest). cbn [fst snd] in *.
    now apply Nat.add_le_mono.
Qed.

Lemma firstn_plus {A} (j m : nat) (l : list A) :
  firstn (j + m) l = firstn j l ++ firstn m (skipn j l).
Proof.
  revert l. induction j as [|j IH]; intros l; [reflexivity|].
  destruct l as [|x l]; cbn [Nat.add firstn skipn app].
  - now rewrite firstn_nil.
  - now rewrite IH.
Qed.

Lemma concat_lengths (batches : list (list JSValue)) :
  list_sum (map (@List.length JSValue) batches) = List.length (concat batches).
Proof.
  unfold list_sum.
  induction batches as [|b rest IH]; [reflexivity|].
  cbn [map fold_right concat]. rewrite length_app. lia.
Qed.

Lemma segment_posted count ib :
  filter is_Posted (seg count ib) = [Bulk.Posted (fst ib) (snd ib)].
Proof.
  destruct ib as [i batch]. unfold segment, Bulk.processBatch. cbn [fst snd].
  assert (Hreads : forall chunks, filter is_Posted (map (Bulk.ReadChunk i) chunks) = []).
  { induction chunks; [reflexivity|assumption]. }
  assert (Hgap : filter is_Posted
                   (if Nat.ltb i (count - 1) then [interBatchPause] else []) = []).
  { destruct (Nat.ltb i (count - 1)); reflexivity. }
  destruct (network i batch) as [message|ok status statusText body].
  - cbn [negb errorPause]. rewrite filter_app, filter_app, Hgap.
    destruct (String.eqb message ""); reflexivity.
  - destruct ok; cbn [negb].
    + destruct body as [[chunks [|message]]|];
        cbn [errorPause app filter is_Posted];
        rewrite ?filter_app, ?Hreads, ?Hgap; try reflexivity.
      destruct (String.eqb message ""); reflexivity.
    + cbn [errorPause]. rewrite filter_app, filter_app, Hgap.
      destruct (String.eqb _ ""); reflexivity.
Qed.

Lemma segment_pauses count ib :
  List.length (filter is_interBatchPause (seg count ib))
  = if Nat.ltb (fst ib) (count - 1) then 1 else 0.
Proof.
  destruct ib as [i batch]. unfold segment, Bulk.processBatch. cbn [fst snd].
  assert (Hreads : forall chunks,
             filter is_interBatchPause (map (Bulk.ReadChunk i) chunks) = []).
  { induction chunks; [reflexivity|assumption]. }
  assert (Hgap : List.length
                   (filter is_interBatchPause
                      (if Nat.ltb i (count - 1) then [interBatchPause] else []))
                 = if Nat.ltb i (count - 1) then 1 else 0).
  { destruct (Nat.ltb i (count - 1)); reflexivity. }
  destruct (network i batch) as [message|ok status statusText body].
  - cbn [negb errorPause]. rewrite !filter_app, !length_app, Hgap.
    destruct (String.eqb message ""); reflexivity.
  - destruct ok; cbn [negb].
    + destruct body as [[chunks [|message]]|];
        cbn [errorPause app filter is_interBatchPause];
        rewrite ?filter_app, ?Hreads, ?length_app, ?Hgap; try reflexivity.
      destruct (String.eqb message ""); reflexivity.
    + cbn [errorPause]. rewrite !filter_app, !length_app, Hgap.
      destruct (String.eqb _ ""); reflexivity.
Qed.

(** The effects of the last batch end with something other than the pause
    between batches. *)
Lemma segment_last count i batch :
  Nat.ltb i (count - 1) = false ->
  exists front e, seg count (i, batch) = front ++ [e] /\ is_interBatchPause e = false.
Proof.
  intros Hlast. unfold segment, Bulk.processBatch. rewrite Hlast.
  destruct (network i batch) as [message|ok status statusText body].
  - cbn [negb errorPause]. rewrite app_nil_r.
    destruct (String.eqb message ""); eexists [_], _; split; reflexivity.
  - destruct ok; cbn [negb].
    + destruct body as [[chunks [|message]]|]; cbn [errorPause]; rewrite ?app_nil_r.
      * exists (Bulk.Posted i batch :: map (Bulk.ReadChunk i) chunks), (Bulk.ReadEnd i).
        split; reflexivity.
      * destruct (String.eqb message "");
          eexists (Bulk.Posted i batch :: map (Bulk.ReadChunk i) chunks), _;
          split; reflexivity.
      * exists [], (Bulk.Posted i batch). split; reflexivity.
    + cbn [errorPause]. rewrite app_nil_r.
      destruct (String.eqb _ ""); eexists [_], _; split; reflexivity.
Qed.

Lemma segment_not_nil count ib : seg count ib <> [].
Proof.
  intros H. pose proof (segment_posted count ib) as Hp. rewrite H in Hp. discriminate.
Qed.

Lemma ends_with_pause_app (front back : list Bulk.Effect) :
  back <> [] -> ends_with_pause (front ++ back) = ends_with_pause back.
Proof.
  intros Hb. unfold ends_with_pause. rewrite rev_app_distr.
  destruct (rev back) as [|e r] eqn:E; [|reflexivity].
  apply (f_equal (@rev _)) in E. rewrite rev_involutive in E. contradiction.
Qed.

Lemma trace_posted count batches :
  forall i,
    filter is_Posted (flat_map (seg count) (combine (seq i (List.length batches)) batches))
    = map (fun ib => Bulk.Posted (fst ib) (snd ib))
        (combine (seq i (List.length batches)) batches).
Proof.
  induction batches as [|b rest IH]; intros i; [reflexivity|].
  cbn [List.length seq combine flat_map map].
  now rewrite filter_app, segment_posted, IH.
Qed.

Lemma trace_pauses count batches :
  forall i,
    i + List.length batches = count ->
    List.length
      (filter is_interBatchPause
         (flat_map (seg count) (combine (seq i (List.length batches)) batches)))
    = List.length batches - 1.
Proof.
  induction batches as [|b rest IH]; intros i Hcount; [reflexivity|].
  cbn [List.length seq combine flat_map] in *.
  rewrite filter_app, length_app, segment_pauses, IH by lia. cbn [fst].
  destruct (Nat.ltb_spec i (count - 1)); destruct rest; cbn [List.length] in *; lia.
Qed.

Lemma trace_end count batches :
  forall i,
    i + List.length batches = count ->
    ends_with_pause
      (flat_map (seg count) (combine (seq i (List.length batches)) batches)) = false.
Proof.
  induction batches as [|b rest IH]; intros i Hcount; [reflexivity|].
  cbn [List.length seq combine flat_map] in *.
  destruct rest as [|b' rest].
  - cbn [List.length seq combine flat_map]. rewrite app_nil_r.
    destruct (segment_last count i b) as (front & e & -> & He).
    { apply Nat.ltb_ge. cbn [List.length] in Hcount. lia. }
    unfold ends_with_pause. rewrite rev_app_distr. exact He.
  - rewrite ends_with_pause_app.
    + apply IH. cbn [List.length] in *. lia.
    + cbn [List.length seq combine flat_map].
      intros H. apply app_eq_nil in H. destruct H as [H _].
      exact (segment_not_nil _ _ H).
Qed.

(** What the reader collects is what the lines of the chunks carry. *)
Lemma collectLine_result (results : list JSValue) (line : string) :
  Bulk.collectLine JSON_parse results line = results ++ line_result JSON_parse line.
Proof.
  unfold Bulk.collectLine, line_result.
  destruct (startsWith line "data: "); [|now rewrite app_nil_r].
  destruct (String.eqb (trim (slice 6 line)) ""); cbn [negb]; [now rewrite app_nil_r|].
  destruct (JSON_parse (trim (slice 6 line))); [reflexivity|now rewrite app_nil_r].
Qed.

Lemma collectLines_results (lines : list string) :
  forall results : list JSValue,
    fold_left (Bulk.collectLine JSON_parse) lines results
    = results ++ flat_map (line_result JSON_parse) lines.
Proof.
  induction lines as [|l lines IH]; intros results; cbn [fold_left flat_map].
  - now rewrite app_nil_r.
  - now rewrite IH, collectLine_result, <- app_assoc.
Qed.

Lemma collectChunks_results (chunks : list string) :
  forall results : list JSValue,
    fold_left (Bulk.collectChunk JSON_parse) chunks results
    = results
        ++ flat_map (fun chunk => flat_map (line_result JSON_parse) (split_nl chunk)) chunks.
Proof.
  induction chunks as [|c chunks IH]; intros results; cbn [fold_left flat_map].
  - now rewrite app_nil_r.
  - rewrite IH. unfold Bulk.collectChunk at 1.
    now rewrite collectLines_results, <- app_assoc.
Qed.

(** What [processBatch] returns and does, by what the server does. *)
Lemma processBatch_outcome (i : nat) (batch : list JSValue) :
  (match failure (network i batch) with
   | Some error => fst (processBatch batch i) = Bulk.BatchError error i
   | None =>
       fst (processBatch batch i)
       = Bulk.BatchResults (batch_results JSON_parse (network i batch)) i
   end)
  /\ snd (processBatch batch i) = Bulk.Posted i batch :: reads i (network i batch).
Proof.
  unfold Bulk.processBatch, failure, batch_results, reads, failure.
  destruct (network i batch) as [message|[|] status statusText [[chunks [|message]]|]];
    cbn [negb fst snd]; try (split; reflexivity).
  rewrite collectChunks_results. split; reflexivity.
Qed.

Lemma share_results (ib : nat * list JSValue) :
  share ib = List.length (batch_results JSON_parse (network (fst ib) (snd ib))).
Proof.
  destruct ib as [i batch]. cbn [fst snd].
  destruct (processBatch_outcome i batch) as [H _].
  destruct (failure (network i batch)) as [error|] eqn:E; rewrite H; cbn [contributed].
  - unfold batch_results. now rewrite E.
  - reflexivity.
Qed.

Lemma segment_steps (count : nat) (ib : nat * list JSValue) :
  seg count ib = batch_steps network count ib.
Proof.
  destruct ib as [i batch]. unfold segment, batch_steps, failurePause. cbn [fst snd].
  destruct (processBatch_outcome i batch) as [Hr He].
  destruct (processBatch batch i) as [result effects]. cbn [fst snd] in Hr, He. subst effects.
  destruct (failure (network i batch)) as [error|]; subst result; reflexivity.
Qed.

Lemma firstn_succ_nth_error {A : Type} (l : list A) :
  forall (i : nat) (x : A),
    nth_error l i = Some x -> firstn (S i) l = firstn i l ++ [x].
Proof.
  induction l as [|y l IH]; intros [|i] x H; try discriminate.
  - injection H as ->. reflexivity.
  - cbn [nth_error] in H. change (firstn (S (S i)) (y :: l)) with (y :: firstn (S i) l).
    now rewrite (IH i x H).
Qed.

(** The page after a batch that failed. *)
Lemma failed_batch_recorded (data : list JSValue) (w : World)
  (i : nat) (batch : list JSValue) (error : string) :
  nth_error (Bulk.makeBatches data) i = Some batch ->
  failure (network i batch) = Some error ->
  error <> "" ->
  currentStatus (ui (bulkProgress (S i) data w))
  = StatusText ("Batch " ++ decimal (i + 1) ++ " failed: " ++ error
                  ++ ". Continuing with next batch...")
  /\ processedCount (ui (bulkProgress (S i) data w))
     = processedCount (ui (bulkProgress i data w))
  /\ bulkResults (ui (bulkProgress (S i) data w))
     = bulkResults (ui (bulkProgress i data w)).
Proof.
  intros Hnth Hfail Herr. unfold Bulk.bulkProgress.
  rewrite (firstn_succ_nth_error _ _ _ Hnth), batchLoop_app.
  assert (Hlen : List.length (firstn i (Bulk.makeBatches data)) = i).
  { rewrite length_firstn. apply Nat.min_l, Nat.lt_le_incl, nth_error_Some. congruence. }
  rewrite Hlen. cbn [Nat.add Bulk.batchLoop].
  destruct (batchLoop _ 0 (firstn i (Bulk.makeBatches data)) _) as [w1 trace].
  unfold Bulk.iteration.
  destruct (processBatch_outcome i batch) as [Hr _]. rewrite Hfail in Hr.
  destruct (processBatch batch i) as [result effects]. cbn [fst] in Hr. subst result.
  apply String.eqb_neq in Herr. rewrite Herr. cbn. auto.
Qed.

(** C3.  The tickets are cut into [ceil(N/5)] batches of at most five, in
    the order of the list.  For every server, the run does, batch after
    batch in that order: the request of the batch; the reads of every chunk
    of its stream up to the end of the stream; a pause of one second (half a
    second for an empty error text) if the batch failed; and, for every
    batch but the last, a pause of 200 ms.  So every batch is requested,
    each after the stream of the one before was read to its end, whatever
    failed before.  A batch fails when its request is rejected, its response
    is not ok or a read is rejected: the failure is shown in the status text
    and leaves [processedCount] and the results as they were.
    [processedCount] ends as the number of results carried by the lines of
    the streams of the batches that did not fail. *)
Theorem C3_batches_in_order :
  forall (data : list JSValue) (w : World),
    List.length (Bulk.makeBatches data) = (List.length data + 4) / 5
    /\ concat (Bulk.makeBatches data) = data
    /\ Forall (fun b => 1 <= List.length b <= 5) (Bulk.makeBatches data)
    /\ snd (startBulkProcessing data w)
       = flat_map (batch_steps network (List.length (Bulk.makeBatches data)))
           (indexed (Bulk.makeBatches data))
    /\ filter is_Posted (snd (startBulkProcessing data w))
       = map (fun ib => Bulk.Posted (fst ib) (snd ib)) (indexed (Bulk.makeBatches data))
    /\ (forall (i : nat) (batch : list JSValue) (error : string),
          nth_error (Bulk.makeBatches data) i = Some batch ->
          failure (network i batch) = Some error ->
          error <> "" ->
          currentStatus (ui (bulkProgress (S i) data w))
          = StatusText ("Batch " ++ decimal (i + 1) ++ " failed: " ++ error
                          ++ ". Continuing with next batch...")
          /\ processedCount (ui (bulkProgress (S i) data w))
             = processedCount (ui (bulkProgress i data w))
          /\ bulkResults (ui (bulkProgress (S i) data w))
             = bulkResults (ui (bulkProgress i data w)))
    /\ processedCount (ui (fst (startBulkProcessing data w)))
       = list_sum
           (map (fun ib =>
                   List.length (batch_results JSON_parse (network (fst ib) (snd ib))))
              (indexed (Bulk.makeBatches data)))
    /\ List.length (filter is_interBatchPause (snd (startBulkProcessing data w)))
       = List.length (Bulk.makeBatches data) - 1
    /\ ends_with_pause (snd (startBulkProcessing data w)) = false.
Proof.
  intros data w.
  assert (Hrun : exists w',
             startBulkProcessing data w
             = (w', flat_map (seg (List.length (Bulk.makeBatches data)))
                      (indexed (Bulk.makeBatches data)))
             /\ processedCount (ui w')
                = list_sum (map share (indexed (Bulk.makeBatches data)))).
  { unfold Bulk.startBulkProcessing, indexed.
    match goal with
    | |- context [batchLoop ?c 0 ?bs (?w0, [])] =>
        destruct (batchLoop_spec c bs 0 w0 []) as (w1 & -> & Hp & _)
    end.
    eexists. split; [reflexivity|]. cbn in Hp |- *. exact Hp. }
  destruct Hrun as (w' & -> & Hp). cbn [fst snd]. unfold indexed.
  split; [|split; [|split; [|split; [|split; [|split; [|split; [|split]]]]]]].
  - unfold Bulk.makeBatches. rewrite batchesFrom_length. now rewrite Nat.sub_0_r.
  - unfold Bulk.makeBatches. now rewrite batchesFrom_concat.
  - apply batchesFrom_sizes.
  - apply flat_map_ext. intros ib. apply segment_steps.
  - apply trace_posted.
  - intros i batch error. apply failed_batch_recorded.
  - rewrite Hp. f_equal. apply map_ext. intros ib. apply share_results.
  - apply trace_pauses. reflexivity.
  - apply trace_end. reflexivity.
Qed.

Lemma failed_gap (batches : list (list JSValue)) :
  forall i,
    Forall (fun ib =>
              failure (network (fst ib) (snd ib)) = None ->
              List.length (batch_results JSON_parse (network (fst ib) (snd ib)))
              = List.length (snd ib))
      (combine (seq i (List.length batches)) batches) ->
    list_sum (map (fun ib =>
                     List.length (batch_results JSON_parse (network (fst ib) (snd ib))))
                (combine (seq i (List.length batches)) batches))
    + list_sum (map (failed_tickets network) (combine (seq i (List.length batches)) batches))
    = list_sum (map (@List.length JSValue) batches).
Proof.
  unfold list_sum.
  induction batches as [|b rest IH]; intros i H; [reflexivity|].
  cbn [List.length seq combine map fold_right] in *.
  inversion H as [|? ? Hb Hrest]; subst.
  specialize (IH (S i) Hrest). rewrite <- IH.
  assert (Hhere : List.length (batch_results JSON_parse (network i b))
                  + failed_tickets network (i, b) = List.length b).
  { unfold failed_tickets. cbn [fst snd] in *.
    destruct (failure (network i b)) as [error|] eqn:E.
    - unfold batch_results. rewrite E. reflexivity.
    - rewrite (Hb eq_refl). lia. }
  cbn [fst snd].
  set (x := List.length (batch_results JSON_parse (network i b))) in *.
  set (y := failed_tickets network (i, b)) in *.
  set (p := fold_right Init.Nat.add 0 (map _ (combine (seq (S i) (List.length rest)) rest))).
  set (q := fold_right Init.Nat.add 0
              (map (failed_tickets network) (combine (seq (S i) (List.length rest)) rest))).
  clearbody x y p q. lia.
Qed.

Lemma handleFileUpload_accepted name size text w data w' :
  Bulk.handleFileUpload JSON_parse name size text w = Bulk.Accepted data w' ->
  totalCount (ui w') = List.length data.
Proof.
  unfold Bulk.handleFileUpload.
  destruct (negb (Bulk.endsWith name ".json")); [discriminate|].
  destruct (N.ltb (2 * 1024 * 1024) size); [discriminate|].
  destruct (JSON_parse text) as [[| | | | |items|]|]; try discriminate.
  destruct (existsb nullish items); [discriminate|].
  destruct (Nat.ltb 0 _); [discriminate|].
  intros H. injection H as <- <-. reflexivity.
Qed.

Lemma bulkProgress_spec (k : nat) (data : list JSValue) (w : World) :
  processedCount (ui (bulkProgress k data w))
  = list_sum (map share
                (combine (seq 0 (List.length (firstn k (Bulk.makeBatches data))))
                   (firstn k (Bulk.makeBatches data))))
  /\ totalCount (ui (bulkProgress k data w)) = totalCount (ui w).
Proof.
  unfold Bulk.bulkProgress.
  match goal with
  | |- context [batchLoop ?c 0 ?bs (?w0, [])] =>
      destruct (batchLoop_spec c bs 0 w0 []) as (w1 & -> & Hp & Ht)
  end.
  cbn [fst]. rewrite Hp, Ht. cbn. auto.
Qed.

(** C7 (amended).  In every bulk run, whatever the server does,
    [processedCount] never decreases from one batch to the next nor to the
    end of the run, and it ends as the number of results carried by the
    lines of the streams of the batches that did not fail.  After an upload
    [totalCount] is the number of uploaded tickets; where no batch returns
    more results than it has tickets, [processedCount] never exceeds
    [totalCount]; and where every batch that does not fail returns one
    result for each of its tickets, the gap between the two at the end is
    the number of tickets of the batches that failed. *)
Theorem C7_processed_count :
  forall (data : list JSValue) (w' : World),
    (forall j k, j <= k ->
       processedCount (ui (bulkProgress j data w'))
       <= processedCount (ui (bulkProgress k data w')))
    /\ (forall k,
          processedCount (ui (bulkProgress k data w'))
          <= processedCount (ui (fst (startBulkProcessing data w'))))
    /\ processedCount (ui (fst (startBulkProcessing data w')))
       = list_sum
           (map (fun ib =>
                   List.length (batch_results JSON_parse (network (fst ib) (snd ib))))
              (indexed (Bulk.makeBatches data)))
    /\ (forall (name text : string) (size : N) (w : World),
          Bulk.handleFileUpload JSON_parse name size text w = Bulk.Accepted data w' ->
          totalCount (ui (fst (startBulkProcessing data w'))) = List.length data
          /\ (Forall (fun ib =>
                        List.length (batch_results JSON_parse (network (fst ib) (snd ib)))
                        <= List.length (snd ib))
                 (indexed (Bulk.makeBatches data)) ->
               (forall k, processedCount (ui (bulkProgress k data w'))
                          <= totalCount (ui (bulkProgress k data w')))
               /\ processedCount (ui (fst (startBulkProcessing data w')))
                  <= totalCount (ui (fst (startBulkProcessing data w'))))
          /\ (Forall (fun ib =>
                        failure (network (fst ib) (snd ib)) = None ->
                        List.length (batch_results JSON_parse (network (fst ib) (snd ib)))
                        = List.length (snd ib))
                 (indexed (Bulk.makeBatches data)) ->
               processedCount (ui (fst (startBulkProcessing data w')))
               + list_sum (map (failed_tickets network) (indexed (Bulk.makeBatches data)))
               = totalCount (ui (fst (startBulkProcessing data w'))))).
Proof.
  intros data w'.
  assert (Hall : list_sum (map (@List.length JSValue) (Bulk.makeBatches data))
                 = List.length data).
  { rewrite concat_lengths. unfold Bulk.makeBatches. now rewrite batchesFrom_concat. }
  assert (Hfinal : processedCount (ui (fst (startBulkProcessing data w')))
                   = processedCount (ui (bulkProgress (List.length (Bulk.makeBatches data)) data w'))
                   /\ totalCount (ui (fst (startBulkProcessing data w')))
                      = totalCount (ui (bulkProgress (List.length (Bulk.makeBatches data)) data w'))).
  { unfold Bulk.startBulkProcessing, Bulk.bulkProgress. rewrite firstn_all.
    destruct (batchLoop _ _ _ _) as [w1 trace]. cbn. auto. }
  destruct Hfinal as [Hfp Hft].
  assert (Hmono : forall j k, j <= k ->
                    processedCount (ui (bulkProgress j data w'))
                    <= processedCount (ui (bulkProgress k data w'))).
  { intros j k Hjk. unfold Bulk.bulkProgress.
    set (batches := Bulk.makeBatches data).
    replace (firstn k batches) with (firstn j batches ++ firstn (k - j) (skipn j batches)).
    - rewrite batchLoop_app.
      destruct (batchLoop (List.length batches) 0 (firstn j batches) _) as [w1 trace].
      apply batchLoop_monotone.
    - replace k with (j + (k - j)) at 2 by lia. symmetry. apply firstn_plus. }
  assert (Hsum : processedCount (ui (fst (startBulkProcessing data w')))
                 = list_sum
                     (map (fun ib =>
                             List.length
                               (batch_results JSON_parse (network (fst ib) (snd ib))))
                        (indexed (Bulk.makeBatches data)))).
  { rewrite Hfp. destruct (bulkProgress_spec (List.length (Bulk.makeBatches data)) data w')
      as [-> _]. rewrite firstn_all. f_equal. apply map_ext. intros ib. apply share_results. }
  split; [exact Hmono|]. split; [|split; [exact Hsum|]].
  { intros k. rewrite Hfp.
    destruct (Nat.le_ge_cases k (List.length (Bulk.makeBatches data))) as [Hk|Hk].
    - now apply Hmono.
    - unfold Bulk.bulkProgress. rewrite firstn_all, (firstn_all2 _ Hk). apply Nat.le_refl. }
  intros name text size w Hupload.
  pose proof (handleFileUpload_accepted _ _ _ _ _ _ Hupload) as Htotal.
  assert (Htf : totalCount (ui (fst (startBulkProcessing data w'))) = List.length data).
  { rewrite Hft. destruct (bulkProgress_spec (List.length (Bulk.makeBatches data)) data w')
      as [_ ->]. exact Htotal. }
  split; [exact Htf|]. split.
  - intros Hbound.
    assert (Hprogress : forall k, processedCount (ui (bulkProgress k data w'))
                                  <= totalCount (ui (bulkProgress k data w'))).
    { intros k. destruct (bulkProgress_spec k data w') as [-> ->].
      rewrite Htotal, <- Hall.
      apply share_prefix_bounded.
      eapply Forall_impl; [|exact Hbound].
      intros ib Hib. now rewrite share_results. }
    split; [exact Hprogress|]. rewrite Hfp, Hft. apply Hprogress.
  - intros Hexact. rewrite Hsum, Htf, <- Hall. apply failed_gap, Hexact.
Qed.

End BulkDriver.

(** ** Concrete bulk runs *)

Section ConcreteRuns.

Import Examples.

(** C7 at twelve uploaded tickets and a server that fails the second batch. *)
Lemma C7_witness :
  Bulk.handleFileUpload JSON.parse "tickets.json" 253 twelve_tickets initialWorld
  = Bulk.Accepted uploaded_data uploaded_page
  /\ Forall (fun ib =>
               List.length (batch_results JSON.parse (second_fails (fst ib) (snd ib)))
               <= List.length (snd ib))
       (indexed (Bulk.makeBatches uploaded_data))
  /\ processedCount
       (ui (fst (Bulk.startBulkProcessing JSON.parse second_fails uploaded_data uploaded_page)))
     <= totalCount
          (ui (fst (Bulk.startBulkProcessing JSON.parse second_fails uploaded_data uploaded_page))).
Proof.
  assert (Hupload :
            Bulk.handleFileUpload JSON.parse "tickets.json" 253 twelve_tickets initialWorld
            = Bulk.Accepted uploaded_data uploaded_page) by (vm_compute; reflexivity).
  assert (Hbound :
            Forall (fun ib =>
                      List.length (batch_results JSON.parse (second_fails (fst ib) (snd ib)))
                      <= List.length (snd ib))
              (indexed (Bulk.makeBatches uploaded_data))).
  { set (batches := indexed (Bulk.makeBatches uploaded_data)).
    vm_compute in batches. subst batches.
    repeat (constructor; [cbv beta; vm_compute; repeat constructor|]).
    constructor. }
  split; [exact Hupload|]. split; [exact Hbound|].
  exact (proj2 (proj1 (proj2 (proj2 (proj2 (proj2
           (C7_processed_count JSON.parse second_fails uploaded_data uploaded_page)))
           "tickets.json" twelve_tickets 253%N initialWorld Hupload)) Hbound)).
Defined.

(** The scenario of the specification: twelve tickets, the second batch
    fails. *)
Example twelve_tickets_second_batch_fails :
  map (@List.length JSValue) (Bulk.makeBatches uploaded_data) = [5; 5; 2]
  /\ processedCount
       (ui (fst (Bulk.startBulkProcessing JSON.parse second_fails uploaded_data uploaded_page)))
     = 7
  /\ totalCount
       (ui (fst (Bulk.startBulkProcessing JSON.parse second_fails uploaded_data uploaded_page)))
     = 12
  /\ filter (fun e => match e with Bulk.Slept _ => true | _ => false end)
       (snd (Bulk.startBulkProcessing JSON.parse second_fails uploaded_data uploaded_page))
     = [Bulk.Slept 200; Bulk.Slept 1000; Bulk.Slept 200].
Proof. vm_compute. repeat split. Qed.

(** The bulk reader keeps no buffer: a data line cut by a chunk boundary is
    lost, where the same text in one chunk gives its result. *)
Example bulk_reader_loses_a_cut_line :
  fold_left (Bulk.collectChunk JSON.parse)
    [json "data: {'classification':"; (json "{'priority':'P2'}}" ++ eol)%string] []
  = []
  /\ fold_left (Bulk.collectChunk JSON.parse)
       [(json "data: {'classification':{'priority':'P2'}}" ++ eol)%string] []
     = [JObj [("classification", JObj [("priority", JStr "P2")])]].
Proof. vm_compute. split; reflexivity. Qed.

(** C7, as stated, fails: a stream with two data lines per ticket takes
    [processedCount] above [totalCount]. *)
Lemma C7_counterexample :
  option_map (fun run => (processedCount (ui (fst run)), totalCount (ui (fst run))))
    (Bulk.bulkRun JSON.parse two_frames "tickets.json" 20 one_ticket initialWorld)
  = Some (2, 1)
  /\ ~ never_exceeds_total JSON.parse two_frames.
Proof.
  split; [vm_compute; reflexivity|].
  intros H.
  destruct (Bulk.bulkRun JSON.parse two_frames "tickets.json" 20 one_ticket initialWorld)
    as [run|] eqn:E; [|vm_compute in E; discriminate].
  specialize (H _ _ _ _ _ E).
  vm_compute in E. injection E as <-. vm_compute in H. lia.
Qed.

End ConcreteRuns.

(** * Further properties of the code *)

(** ** Batches and the bulk reader *)

Section MoreBatches.

Lemma batchesFrom_nil (i : nat) (data : list JSValue) :
  List.length data <= i -> Bulk.batchesFrom i data = [].
Proof.
  intros H. funelim (Bulk.batchesFrom i data); [lia|reflexivity].
Qed.

Lemma batchesFrom_cons (i : nat) (data : list JSValue) :
  i < List.length data ->
  Bulk.batchesFrom i data
  = Bulk.slice_list i (i + Bulk.batchSize) data :: Bulk.batchesFrom (i + Bulk.batchSize) data.
Proof.
  intros H. funelim (Bulk.batchesFrom i data); [reflexivity|lia].
Qed.

Lemma batchesFrom_full (i : nat) (data : list JSValue) :
  Forall (fun b => List.length b = Bulk.batchSize) (removelast (Bulk.batchesFrom i data)).
Proof.
  funelim (Bulk.batchesFrom i data); [|constructor].
  destruct (Nat.lt_ge_cases (i + Bulk.batchSize) (List.length data)) as [Hlt|Hge].
  - rewrite (batchesFrom_cons _ _ Hlt) in *.
    cbn [removelast] in *. constructor; [|exact H].
    unfold Bulk.slice_list, Bulk.batchSize in *.
    rewrite length_firstn, length_skipn. lia.
  - rewrite (batchesFrom_nil _ _ Hge). constructor.
Qed.

Lemma batchesFrom_nth (j : nat) :
  forall (i : nat) (data : list JSValue),
    j < List.length (Bulk.batchesFrom i data) ->
    nth j (Bulk.batchesFrom i data) []
    = Bulk.slice_list (i + Bulk.batchSize * j) (i + Bulk.batchSize * j + Bulk.batchSize) data.
Proof.
  induction j as [|j IH]; intros i data Hj.
  - destruct (Nat.lt_ge_cases i (List.length data)) as [Hlt|Hge].
    + rewrite (batchesFrom_cons _ _ Hlt). cbn [nth].
      now rewrite Nat.mul_0_r, Nat.add_0_r.
    + rewrite (batchesFrom_nil _ _ Hge) in Hj. cbn in Hj. lia.
  - destruct (Nat.lt_ge_cases i (List.length data)) as [Hlt|Hge].
    + rewrite (batchesFrom_cons _ _ Hlt) in *. cbn [nth List.length] in *.
      rewrite IH by lia. f_equal; unfold Bulk.batchSize; lia.
    + rewrite (batchesFrom_nil _ _ Hge) in Hj. cbn in Hj. lia.
Qed.

(** X1.  Batch [j] of the run is [data.slice(5 j, 5 j + 5)], and every batch
    but the last holds exactly five tickets. *)
Theorem batches_are_slices :
  forall (data : list JSValue) (j : nat),
    j < List.length (Bulk.makeBatches data) ->
    nth j (Bulk.makeBatches data) [] = Bulk.slice_list (5 * j) (5 * j + 5) data
    /\ Forall (fun b => List.length b = 5) (removelast (Bulk.makeBatches data)).
Proof.
  intros data j Hj. split.
  - unfold Bulk.makeBatches in *. now rewrite batchesFrom_nth.
  - apply batchesFrom_full.
Qed.

End MoreBatches.

Section MoreBulk.

Variable JSON_parse : string -> option JSValue.
Variable network : nat -> list JSValue -> Bulk.FetchOutcome.

Local Abbreviation collectLine := (Bulk.collectLine JSON_parse).
Local Abbreviation collectChunk := (Bulk.collectChunk JSON_parse).
Local Abbreviation processBatch := (Bulk.processBatch JSON_parse network).
Local Abbreviation batchLoop := (Bulk.batchLoop JSON_parse network).
Local Abbreviation startBulkProcessing := (Bulk.startBulkProcessing JSON_parse network).
Local Abbreviation handleBulkProcess := (Bulk.handleBulkProcess JSON_parse network).
Local Abbreviation results := (results_of JSON_parse network).

Lemma collectChunk_lines (acc : list JSValue) (text : string) :
  collectChunk acc text
  = fold_left collectLine [pending text] (fold_left collectLine (complete_lines text) acc).
Proof.
  unfold Bulk.collectChunk. rewrite split_nl_complete_pending at 1.
  now rewrite fold_left_app.
Qed.

Lemma collectChunk_aligned (acc : list JSValue) (chunk rest : string) :
  line_aligned chunk ->
  collectChunk acc (chunk ++ rest) = collectChunk (collectChunk acc chunk) rest.
Proof.
  unfold line_aligned. intros H.
  rewrite (collectChunk_lines acc chunk), H.
  unfold Bulk.collectChunk at 1 2. rewrite split_nl_resume, H, fold_left_app.
  reflexivity.
Qed.

(** X2.  Where every chunk of a bulk response ends at the end of a line (it
    is empty or ends with a line feed), the results collected chunk by chunk
    are those collected from the whole text at once. *)
Theorem bulk_reader_aligned_chunks :
  forall (chunks : list string) (acc : list JSValue),
    Forall line_aligned chunks ->
    fold_left collectChunk chunks acc = collectChunk acc (joined chunks).
Proof.
  intros chunks acc H. revert acc.
  induction H as [|c chunks Hc _ IH]; intros acc.
  - reflexivity.
  - cbn [fold_left joined fold_right].
    rewrite collectChunk_aligned by assumption. apply IH.
Qed.

(** *** The end of a bulk run *)

Lemma iteration_results count i batch w trace :
  exists w',
    fst (Bulk.iteration JSON_parse network count i batch (w, trace)) = w'
    /\ bulkResults (ui w') = bulkResults (ui w) ++ results (i, batch)
    /\ processedCount (ui w') = processedCount (ui w) + List.length (results (i, batch))
    /\ (exists status, currentStatus (ui w') = StatusText status)
    /\ isLoading (ui w') = isLoading (ui w)
    /\ same_outside_bulk w w'.
Proof.
  unfold Bulk.iteration, results_of. cbn [fst snd].
  destruct (processBatch batch i) as [[rs idx|error idx] effects]; cbn [fst].
  - eexists. split; [reflexivity|]. cbn.
    repeat split; eauto.
  - destruct (negb (String.eqb error "")); eexists; (split; [reflexivity|]); cbn;
      rewrite app_nil_r, Nat.add_0_r; repeat split; eauto.
Qed.

Lemma same_outside_bulk_trans (a b c : World) :
  same_outside_bulk a b -> same_outside_bulk b c -> same_outside_bulk a c.
Proof.
  unfold same_outside_bulk. intros H1 H2.
  decompose [and] H1. decompose [and] H2.
  repeat split; etransitivity; eassumption.
Qed.

Lemma batchLoop_results count batches :
  forall i w trace,
    exists w',
      fst (batchLoop count i batches (w, trace)) = w'
      /\ bulkResults (ui w')
         = bulkResults (ui w)
           ++ flat_map results (combine (seq i (List.length batches)) batches)
      /\ processedCount (ui w')
         = processedCount (ui w)
           + List.length (flat_map results (combine (seq i (List.length batches)) batches))
      /\ isLoading (ui w') = isLoading (ui w)
      /\ same_outside_bulk w w'.
Proof.
  induction batches as [|batch rest IH]; intros i w trace.
  - exists w. cbn. rewrite app_nil_r, Nat.add_0_r.
    unfold same_outside_bulk. repeat split; reflexivity.
  - cbn [Bulk.batchLoop List.length seq combine flat_map].
    destruct (Bulk.iteration JSON_parse network count i batch (w, trace)) as [w1 trace1] eqn:E.
    destruct (iteration_results count i batch w trace) as (w1' & Hw1 & Hb1 & Hp1 & _ & Hl1 & Hs1).
    rewrite E in Hw1. cbn [fst] in Hw1. subst w1'.
    destruct (IH (S i) w1 trace1) as (w2 & Hw2 & Hb2 & Hp2 & Hl2 & Hs2).
    exists w2. split; [exact Hw2|].
    rewrite Hb2, Hb1, Hp2, Hp1, Hl2, Hl1, length_app, <- app_assoc.
    repeat split; try lia.
    all: try (eapply same_outside_bulk_trans; eassumption).
    all: destruct (same_outside_bulk_trans _ _ _ Hs1 Hs2) as (? & ? & ? & ? & ? & ? & ? & ? & ? & ? & ? & ?);
      assumption.
Qed.

(** X3.  A bulk run ends with the loading flag off and the status text
    that names all the tickets; [bulkResults] holds the results of the
    batches that returned results, in batch order, and nothing from before
    the run; [processedCount] is their number; and the chat state, the
    uploaded tickets and [totalCount] are as they were. *)
Theorem bulk_run_end_state :
  forall (data : list JSValue) (w : World),
    isLoading (ui (fst (startBulkProcessing data w))) = false
    /\ currentStatus (ui (fst (startBulkProcessing data w)))
       = StatusText ("Processing complete: " ++ decimal (List.length data)
                       ++ " tickets processed")
    /\ bulkResults (ui (fst (startBulkProcessing data w)))
       = flat_map results (indexed (Bulk.makeBatches data))
    /\ processedCount (ui (fst (startBulkProcessing data w)))
       = List.length (bulkResults (ui (fst (startBulkProcessing data w))))
    /\ same_outside_bulk w (fst (startBulkProcessing data w)).
Proof.
  intros data w. unfold Bulk.startBulkProcessing, indexed.
  match goal with
  | |- context [batchLoop ?c 0 ?bs (?w0, [])] =>
      destruct (batchLoop_results c bs 0 w0 []) as (w1 & Hw1 & Hb & Hp & Hl & Hs);
      destruct (batchLoop c 0 bs (w0, [])) as [w1' trace]
  end.
  cbn [fst] in Hw1. subst w1'. cbn [fst].
  cbn in Hb, Hp, Hl |- *. rewrite Hb, Hp.
  repeat split.
  all: destruct Hs as (? & ? & ? & ? & ? & ? & ? & ? & ? & ? & ? & ?); cbn in *; assumption.
Qed.

Lemma start_same_outside (data : list JSValue) (w : World) :
  same_outside_bulk w (fst (startBulkProcessing data w)).
Proof.
  unfold Bulk.startBulkProcessing.
  match goal with
  | |- context [batchLoop ?c 0 ?bs (?w0, [])] =>
      destruct (batchLoop_results c bs 0 w0 []) as (w1 & Hw1 & _ & _ & _ & Hs);
      destruct (batchLoop c 0 bs (w0, [])) as [w1' trace]
  end.
  cbn [fst] in Hw1. subst w1'. cbn [fst].
  destruct Hs as (? & ? & ? & ? & ? & ? & ? & ? & ? & ? & ? & ?).
  unfold same_outside_bulk. cbn in *. repeat split; assumption.
Qed.

Lemma start_from_same (data : list JSValue) (w w' : World) :
  same_outside_bulk w w' -> startBulkProcessing data w = startBulkProcessing data w'.
Proof.
  unfold same_outside_bulk.
  destruct w as [[m i l c s ci td pc tc br ia sv rt] ck tm nt].
  destruct w' as [[m' i' l' c' s' ci' td' pc' tc' br' ia' sv' rt'] ck' tm' nt'].
  cbn. intros (-> & -> & -> & -> & -> & -> & -> & -> & -> & -> & -> & ->).
  reflexivity.
Qed.

(** X4.  Processing the uploaded tickets again after a run gives the run
    again: the same requests and pauses and the same final page, whatever the
    first run left in [bulkResults] and [processedCount]. *)
Theorem bulk_rerun_gives_same_run :
  forall (data : list JSValue) (w : World),
    ticketData (ui w) = data ->
    data <> [] ->
    handleBulkProcess (fst (startBulkProcessing data w))
    = Bulk.Started (startBulkProcessing data w).
Proof.
  intros data w Hdata Hne.
  pose proof (start_same_outside data w) as Hs.
  unfold Bulk.handleBulkProcess.
  assert (Htd : ticketData (ui (fst (startBulkProcessing data w))) = data).
  { destruct Hs as (_ & _ & _ & _ & Htd & _). now rewrite <- Htd. }
  rewrite Htd.
  destruct data as [|t data]; [contradiction|]. cbn [List.length Nat.eqb].
  f_equal. symmetry. now apply start_from_same.
Qed.

(** *** The upload *)

Lemma filter_nil_forall {A} (f : A -> bool) (l : list A) :
  filter f l = [] <-> Forall (fun x => f x = false) l.
Proof.
  induction l as [|x l IH]; cbn.
  - split; [constructor|reflexivity].
  - destruct (f x) eqn:E; split; intros H.
    + discriminate.
    + inversion H; subst. congruence.
    + constructor; [assumption|now apply IH].
    + inversion H; subst. now apply IH.
Qed.

Lemma existsb_false_forall {A} (f : A -> bool) (l : list A) :
  existsb f l = false <-> Forall (fun x => f x = false) l.
Proof.
  induction l as [|x l IH]; cbn.
  - split; [constructor|reflexivity].
  - rewrite orb_false_iff, IH. split.
    + intros [H1 H2]. now constructor.
    + intros H. inversion H; subst. auto.
Qed.

Lemma valid_tickets_checks (data : list JSValue) :
  Forall valid_ticket data
  <-> existsb nullish data = false /\ filter Bulk.invalidTicket data = [].
Proof.
  rewrite existsb_false_forall, filter_nil_forall. unfold valid_ticket, Bulk.invalidTicket.
  split.
  - intros H. split; eapply Forall_impl; try exact H; cbn.
    + tauto.
    + intros t (_ & -> & ->). reflexivity.
  - intros [H1 H2]. rewrite Forall_forall in *. intros t Ht.
    specialize (H1 t Ht). specialize (H2 t Ht).
    apply orb_false_iff in H2. destruct H2 as [Hi Hb].
    apply negb_false_iff in Hi. apply negb_false_iff in Hb. auto.
Qed.

(** X5.  A file is accepted exactly when its name ends in [.json], it has
    at most 2 MB, its text parses to an array, and every item of the array is
    a ticket with a truthy [id] and [body].  The accepted page holds the
    tickets, their number as [totalCount], a zero [processedCount] and no
    results, and its messages and citations are as they were. *)
Theorem upload_accepts_valid_files_only :
  forall (name text : string) (size : N) (w : World) (data : list JSValue),
    ((exists w', Bulk.handleFileUpload JSON_parse name size text w = Bulk.Accepted data w')
     <-> (Bulk.endsWith name ".json" = true
          /\ (size <= 2097152)%N
          /\ JSON_parse text = Some (JArr data)
          /\ Forall valid_ticket data))
    /\ (forall w',
          Bulk.handleFileUpload JSON_parse name size text w = Bulk.Accepted data w' ->
          ticketData (ui w') = data
          /\ totalCount (ui w') = List.length data
          /\ processedCount (ui w') = 0
          /\ bulkResults (ui w') = []
          /\ messages (ui w') = messages (ui w)
          /\ citations (ui w') = citations (ui w)
          /\ isLoading (ui w') = isLoading (ui w)).
Proof.
  intros name text size w data.
  unfold Bulk.handleFileUpload.
  destruct (Bulk.endsWith name ".json") eqn:Ename; cbn [negb].
  2:{ split; [split|]; [intros [w' H]; discriminate| intros (H & _); discriminate
                        | intros w' H; discriminate]. }
  change (2 * 1024 * 1024)%N with 2097152%N.
  destruct (N.ltb_spec 2097152 size) as [Hbig|Hsmall].
  { split; [split|]; [intros [w' H]; discriminate| intros (_ & H & _); lia
                      | intros w' H; discriminate]. }
  destruct (JSON_parse text) as [parsed|] eqn:Eparse.
  2:{ split; [split|]; [intros [w' H]; discriminate| intros (_ & _ & H & _); discriminate
                        | intros w' H; discriminate]. }
  destruct parsed as [| | | | |items|];
    try (split; [split|]; [intros [w' H]; discriminate| intros (_ & _ & H & _); discriminate
                           | intros w' H; discriminate]).
  pose proof (valid_tickets_checks items) as Hvalid.
  destruct (existsb nullish items) eqn:Enull.
  { split; [split|]; [intros [w' H]; discriminate| | intros w' H; discriminate].
    intros (_ & _ & H & Hv). injection H as <-.
    apply Hvalid in Hv. destruct Hv; discriminate. }
  destruct (filter Bulk.invalidTicket items) as [|bad rest] eqn:Efilter; cbn [List.length Nat.ltb Nat.leb].
  - split; [split|].
    + intros [w' H]. injection H as <- _. repeat split; try assumption.
      apply Hvalid. auto.
    + intros (_ & _ & H & _). injection H as <-. eauto.
    + intros w' H. injection H as <- <-. cbn. repeat split.
  - split; [split|]; [intros [w' H]; discriminate| | intros w' H; discriminate].
    intros (_ & _ & H & Hv). injection H as <-.
    apply Hvalid in Hv. destruct Hv; discriminate.
Qed.

End MoreBulk.

(** ** The chat turn *)

Section MoreChat.

Variable JSON_parse : string -> option JSValue.
Variable text_positive : string -> bool.

Local Abbreviation handleParsed := (Chat.handleParsed text_positive).
Local Abbreviation processLine := (Chat.processLine JSON_parse text_positive).
Local Abbreviation flushBuffer := (Chat.flushBuffer JSON_parse text_positive).
Local Abbreviation onDone := (Chat.onDone JSON_parse text_positive).
Local Abbreviation step := (Chat.step JSON_parse text_positive).
Local Abbreviation run_timers := (Chat.run_timers).
Local Abbreviation handleSendMessage := (Chat.handleSendMessage JSON_parse text_positive).

Lemma deliver_messages content sources w :
  messages (ui (Chat.deliver text_positive content sources w))
  = if truthy content then messages (ui w) ++ [Chat.assistant content] else messages (ui w).
Proof.
  unfold Chat.deliver. destruct (truthy content); [|reflexivity].
  destruct (Chat.greater_than_zero _ _); reflexivity.
Qed.

Lemma cleared_messages seen w :
  messages (ui (clearRateLimitTimer seen (setIsLoading false (setCurrentStatus "" w))))
  = messages (ui w).
Proof. unfold clearRateLimitTimer. destruct (seen_rateLimitTimer seen); reflexivity. Qed.

Lemma storeAnalysis_messages data w :
  messages (ui (Chat.storeAnalysis data w)) = messages (ui w).
Proof. unfold Chat.storeAnalysis. destruct (truthy _); reflexivity. Qed.

(** What one parsed payload does to the message list. *)
Lemma handleParsed_messages seen parsed w :
  messages (ui (handleParsed seen parsed w)) = messages (ui w)
  \/ exists content,
       truthy content = true
       /\ messages (ui (handleParsed seen parsed w))
          = messages (ui w) ++ [Chat.assistant content].
Proof.
  unfold Chat.handleParsed.
  destruct (nullish parsed); [now left|].
  destruct (truthy (prop parsed "internal_analysis") && truthy (prop parsed "final_response"))%bool.
  { destruct (Chat.extractFlattened parsed) as [content sources].
    rewrite deliver_messages. cbn. rewrite cleared_messages.
    destruct (truthy content) eqn:E; [right; eauto|now left]. }
  destruct (is_str (prop parsed "type") "node_complete").
  { destruct (truthy (prop parsed "message")).
    - destruct (Chat.getFriendlyStatusMessage _ _); [|now left].
      destruct (_ && _)%bool; now left.
    - destruct (_ && _)%bool; now left. }
  destruct (is_str (prop parsed "type") "final_response"
            || is_str (prop parsed "type") "final_result")%bool.
  { destruct (Chat.extractTyped parsed) as [content sources].
    assert (H : forall w3, messages (ui (if truthy (or_else (prop parsed "citations")
                                              (prop (prop parsed "response") "citations"))
                                   then setCitations (or_else (prop parsed "citations")
                                              (prop (prop parsed "response") "citations")) w3
                                   else w3)) = messages (ui w3)).
    { intros w3. destruct (truthy _); reflexivity. }
    rewrite H, deliver_messages.
    assert (H2 : messages (ui (if (is_str (prop parsed "type") "final_result"
                                   && truthy (prop parsed "data"))%bool
                               then Chat.storeAnalysis (prop parsed "data")
                                      (clearRateLimitTimer seen
                                         (setIsLoading false (setCurrentStatus "" w)))
                               else clearRateLimitTimer seen
                                      (setIsLoading false (setCurrentStatus "" w))))
                 = messages (ui w)).
    { destruct (_ && _)%bool; rewrite ?storeAnalysis_messages; apply cleared_messages. }
    rewrite H2.
    destruct (truthy content) eqn:E; [right; eauto|now left]. }
  destruct (truthy (prop parsed "response")
            && truthy (prop (prop parsed "response") "data"))%bool eqn:E; [|now left].
  apply andb_prop in E. destruct E as [_ E].
  right. exists (prop (prop parsed "response") "data"). split; [exact E|].
  destruct (truthy (prop (prop parsed "response") "citations")); cbn;
    now rewrite cleared_messages.
Qed.

(** X6.  One parsed payload appends at most one message to the list, an
    assistant message whose content is truthy: the loop never appends an
    empty answer. *)
Theorem payload_appends_at_most_one_answer :
  forall (seen : Render) (parsed : JSValue) (w : World),
    messages (ui (handleParsed seen parsed w)) = messages (ui w)
    \/ exists content,
         truthy content = true
         /\ messages (ui (handleParsed seen parsed w))
            = messages (ui w) ++ [{| role := "assistant"; content := content;
                                     timestamp := None |}].
Proof. intros. apply handleParsed_messages. Qed.

(** *** The message list only grows *)

Local Abbreviation grows w w' :=
  (exists more, messages (ui w') = messages (ui w) ++ more).

Lemma grows_refl (w : World) : grows w w.
Proof. exists []. now rewrite app_nil_r. Qed.

Lemma grows_trans (a b c : World) : grows a b -> grows b c -> grows a c.
Proof.
  intros [m1 H1] [m2 H2]. exists (m1 ++ m2). now rewrite H2, H1, app_assoc.
Qed.

Lemma grows_same (a b : World) : messages (ui b) = messages (ui a) -> grows a b.
Proof. intros H. exists []. now rewrite app_nil_r. Qed.

Lemma grows_handleParsed seen parsed w : grows w (handleParsed seen parsed w).
Proof.
  destruct (handleParsed_messages seen parsed w) as [H|[c [_ H]]].
  - now apply grows_same.
  - eauto.
Qed.

Lemma grows_processLine seen w line : grows w (processLine seen w line).
Proof.
  unfold Chat.processLine.
  destruct (startsWith line "data: "); [|apply grows_refl].
  destruct (String.eqb _ "[DONE]").
  { apply grows_same. now destruct (clearRateLimitTimer_ui seen (setCurrentStatus "" (setIsLoading false w))) as [-> _]. }
  destruct (String.eqb _ ""); [apply grows_refl|].
  destruct (JSON_parse _); [apply grows_handleParsed|apply grows_refl].
Qed.

Lemma grows_lines seen lines : forall w, grows w (fold_left (processLine seen) lines w).
Proof.
  induction lines as [|l lines IH]; intros w; [apply grows_refl|].
  cbn [fold_left]. eapply grows_trans; [apply grows_processLine|apply IH].
Qed.

Lemma grows_flushBuffer buffer w : grows w (flushBuffer buffer w).
Proof.
  unfold Chat.flushBuffer.
  destruct (negb _); [|apply grows_refl].
  destruct (startsWith _ _); [|apply grows_refl].
  destruct (_ && _)%bool; [|apply grows_refl].
  destruct (JSON_parse _) as [parsed|]; [|apply grows_refl].
  destruct (nullish parsed); [apply grows_refl|].
  destruct (_ && _)%bool; [|apply grows_refl].
  destruct (Chat.extractFinalResult _) as [content sources].
  pose proof (deliver_messages content sources (Chat.storeAnalysis (prop parsed "data") w)) as H.
  rewrite storeAnalysis_messages in H.
  destruct (truthy content); [eauto|now apply grows_same].
Qed.

Lemma grows_onDone seen buffer w : grows w (onDone seen buffer w).
Proof.
  unfold Chat.onDone.
  destruct (seen_isLoading seen); [|apply grows_flushBuffer].
  eapply grows_trans; [apply grows_flushBuffer|].
  apply grows_same.
  now destruct (clearRateLimitTimer_ui seen
                  (setIsLoading false
                     (setCurrentStatus "Processing complete" (flushBuffer buffer w))))
    as [-> _].
Qed.

Lemma grows_finallyBlock seen w : grows w (Chat.finallyBlock seen w).
Proof.
  apply grows_same. unfold Chat.finallyBlock.
  now destruct (clearRateLimitTimer_ui seen (setCurrentStatus "" (setIsLoading false w)))
    as [-> _].
Qed.

Lemma catchBlock_messages seen name message w :
  exists text,
    messages (ui (Chat.catchBlock seen name message w))
    = messages (ui w) ++ [Chat.assistant (JStr text)].
Proof.
  unfold Chat.catchBlock. eexists. cbn.
  now destruct (clearRateLimitTimer_ui seen w) as [-> _].
Qed.

Lemma grows_catchBlock seen name message w : grows w (Chat.catchBlock seen name message w).
Proof. destruct (catchBlock_messages seen name message w) as [text H]. eauto. Qed.

Lemma grows_rateLimitCallback b w : grows w (Chat.rateLimitCallback b w).
Proof. destruct b; [eexists; reflexivity|apply grows_refl]. Qed.

Lemma grows_fire seen t pw : grows (snd pw) (snd (Chat.fire seen t pw)).
Proof.
  destruct pw as [phase w]. unfold Chat.fire. cbn [snd].
  set (w1 := Chat.set_clock _ _).
  assert (H1 : grows w w1) by (apply grows_same; reflexivity).
  destruct (timer_action t).
  - cbn [snd]. eapply grows_trans; [exact H1|apply grows_rateLimitCallback].
  - destruct phase; cbn [snd]; try exact H1.
    eapply grows_trans; [exact H1|].
    eapply grows_trans; [apply grows_catchBlock|apply grows_finallyBlock].
Qed.

Lemma grows_run_timers seen target fuel :
  forall pw, grows (snd pw) (snd (run_timers fuel target seen pw)).
Proof.
  induction fuel as [|fuel IH]; intros pw; cbn [Chat.run_timers].
  - cbn [snd]. apply grows_same. reflexivity.
  - destruct (Chat.earliest_due target (timers (snd pw))).
    + eapply grows_trans; [apply grows_fire|apply IH].
    + cbn [snd]. apply grows_same. reflexivity.
Qed.

Lemma grows_step seen pw e : grows (snd pw) (snd (step seen pw e)).
Proof.
  destruct pw as [phase w]. unfold Chat.step.
  destruct e as [ok status statusText hasBody|text| |name message|ms].
  - destruct phase; cbn [snd]; try apply grows_refl.
    assert (H1 : grows w (clearRateLimitTimer seen (clearTimeout timeoutId w))).
    { apply grows_same. now destruct (clearRateLimitTimer_ui seen (clearTimeout timeoutId w)) as [-> _]. }
    destruct (negb ok); [|destruct hasBody]; cbn [snd]; try exact H1.
    + eapply grows_trans; [exact H1|].
      eapply grows_trans; [apply grows_catchBlock|apply grows_finallyBlock].
    + eapply grows_trans; [exact H1|apply grows_finallyBlock].
  - destruct phase; cbn [snd]; try apply grows_refl.
    unfold Chat.onChunk. cbn [snd]. apply grows_lines.
  - destruct phase; cbn [snd]; try apply grows_refl.
    eapply grows_trans; [apply grows_onDone|apply grows_finallyBlock].
  - destruct phase; cbn [snd]; try apply grows_refl;
      (eapply grows_trans; [apply grows_catchBlock|apply grows_finallyBlock]).
  - apply (grows_run_timers seen _ _ (phase, w)).
Qed.

Lemma grows_steps seen events : forall pw, grows (snd pw) (snd (fold_left (step seen) events pw)).
Proof.
  induction events as [|e events IH]; intros pw; [apply grows_refl|].
  cbn [fold_left]. eapply grows_trans; [apply grows_step|apply IH].
Qed.

Lemma beginTurn_messages seen message w :
  messages (ui (snd (Chat.beginTurn seen message w)))
  = if String.eqb (trim message) "" then messages (ui w)
    else messages (ui w)
           ++ [{| role := "user"; content := JStr message; timestamp := Some (clock w) |}].
Proof.
  unfold Chat.beginTurn.
  destruct (String.eqb (trim message) ""); [reflexivity|].
  destruct (seen_rateLimitTimer seen); reflexivity.
Qed.

(** X7.  Whatever the events of a turn, the messages that were on the page
    stay, in their order, at the head of the list: a turn only appends.  The
    first message a turn appends is the user's, with the text as it was
    typed; a blank text appends no user message. *)
Theorem turn_only_appends :
  forall (message : string) (events : list Chat.Event) (w : World),
    exists more,
      messages (ui (snd (handleSendMessage message events w)))
      = messages (ui w)
          ++ (if String.eqb (trim message) "" then []
              else [{| role := "user"; content := JStr message;
                       timestamp := Some (clock w) |}])
          ++ more.
Proof.
  intros message events w. unfold Chat.handleSendMessage.
  destruct (grows_steps (render (ui w)) events
              (Chat.beginTurn (render (ui w)) message w)) as [more H].
  exists more. rewrite H, beginTurn_messages.
  destruct (String.eqb (trim message) ""); [reflexivity|].
  now rewrite <- app_assoc.
Qed.

(** *** A finished turn is not loading *)

Local Abbreviation settled pw :=
  (fst pw = Chat.Finished ->
   isLoading (ui (snd pw)) = false /\ currentStatus (ui (snd pw)) = StatusText "").

Lemma finallyBlock_settles seen w :
  isLoading (ui (Chat.finallyBlock seen w)) = false
  /\ currentStatus (ui (Chat.finallyBlock seen w)) = StatusText "".
Proof.
  unfold Chat.finallyBlock.
  destruct (clearRateLimitTimer_ui seen (setCurrentStatus "" (setIsLoading false w)))
    as (_ & -> & -> & _). split; reflexivity.
Qed.

Lemma settled_fire seen t pw : settled pw -> settled (Chat.fire seen t pw).
Proof.
  destruct pw as [phase w]. unfold Chat.fire. cbn [fst snd]. intros H.
  destruct (timer_action t) as [b|].
  - cbn [fst snd]. intros Hf. specialize (H Hf).
    destruct b; [split; reflexivity|exact H].
  - destruct phase; cbn [fst snd]; intros Hf; try discriminate.
    + apply finallyBlock_settles.
    + exact (H Hf).
Qed.

Lemma settled_run_timers seen target fuel :
  forall pw, settled pw -> settled (run_timers fuel target seen pw).
Proof.
  induction fuel as [|fuel IH]; intros pw H; cbn [Chat.run_timers].
  - exact H.
  - destruct (Chat.earliest_due target (timers (snd pw))).
    + apply IH, settled_fire, H.
    + exact H.
Qed.

Lemma settled_step seen pw e : settled pw -> settled (step seen pw e).
Proof.
  destruct pw as [phase w]. intros H. unfold Chat.step.
  destruct e as [ok status statusText hasBody|text| |name message|ms].
  - destruct phase; try exact H.
    destruct (negb ok); [|destruct hasBody]; cbn [fst snd]; intros Hf;
      try discriminate; apply finallyBlock_settles.
  - destruct phase; try exact H. cbn [fst snd]. discriminate.
  - destruct phase; try exact H. cbn [fst snd]. intros _. apply finallyBlock_settles.
  - destruct phase; try exact H; cbn [fst snd]; intros _; apply finallyBlock_settles.
  - apply (settled_run_timers seen _ _ (phase, w)), H.
Qed.

Lemma settled_steps seen events :
  forall pw, settled pw -> settled (fold_left (step seen) events pw).
Proof.
  induction events as [|e events IH]; intros pw H; [exact H|].
  cbn [fold_left]. apply IH, settled_step, H.
Qed.

(** X8.  However a turn ends (end of stream, failed response, rejected
    fetch or read, timeout), once it has finished the page is not loading
    and the status text is empty. *)
Theorem finished_turn_is_not_loading :
  forall (message : string) (events : list Chat.Event) (w : World),
    trim message <> "" ->
    fst (handleSendMessage message events w) = Chat.Finished ->
    isLoading (ui (snd (handleSendMessage message events w))) = false
    /\ currentStatus (ui (snd (handleSendMessage message events w))) = StatusText "".
Proof.
  intros message events w Hmsg. unfold Chat.handleSendMessage.
  apply settled_steps.
  destruct (beginTurn_phase (render (ui w)) message w) as [(timeoutId & w' & ->)|E].
  - cbn [fst]. discriminate.
  - exfalso. unfold Chat.beginTurn in E.
    destruct (String.eqb_spec (trim message) ""); [contradiction|].
    destruct (seen_rateLimitTimer (render (ui w))); discriminate E.
Qed.

(** *** Payloads that no branch takes *)

(** X9.  A parsed value that is not an object (a number, a text, a boolean,
    an array, [null]) and an object that none of the four branches of the
    loop takes, such as an event of type [error], leave the page as it was. *)
Theorem unrecognised_payload_ignored :
  forall (seen : Render) (parsed : JSValue) (w : World),
    recognised parsed = false \/ (forall fields, parsed <> JObj fields) ->
    handleParsed seen parsed w = w.
Proof.
  intros seen parsed w [H|H].
  - unfold recognised, is_flattened in H.
    repeat (apply orb_false_iff in H; destruct H as [H ?]).
    unfold Chat.handleParsed.
    destruct (nullish parsed); [reflexivity|].
    rewrite H.
    repeat match goal with E : _ = false |- _ => rewrite E; clear E end.
    reflexivity.
  - destruct parsed; try reflexivity. exfalso. exact (H fields eq_refl).
Qed.

(** *** The final pass and the loop *)

(** X10.  On a wrapped [final_result] payload the pass over the buffer at the
    end of the stream appends the message, sets the citations and stores the
    analysis that the loop would for the same line. *)
Theorem flush_agrees_with_loop_on_wrapped :
  forall (seen : Render) (buffer : string) (parsed : JSValue) (w : World),
    startsWith (trim buffer) "data: " = true ->
    trim (slice 6 (trim buffer)) <> "" ->
    trim (slice 6 (trim buffer)) <> "[DONE]" ->
    JSON_parse (trim (slice 6 (trim buffer))) = Some parsed ->
    is_str (prop parsed "type") "final_result" = true ->
    truthy (prop parsed "data") = true ->
    is_flattened parsed = false ->
    truthy (or_else (prop parsed "citations") (prop (prop parsed "response") "citations"))
    = false ->
    messages (ui (flushBuffer buffer w)) = messages (ui (processLine seen w (trim buffer)))
    /\ citations (ui (flushBuffer buffer w))
       = citations (ui (processLine seen w (trim buffer)))
    /\ internalAnalysis (ui (flushBuffer buffer w))
       = internalAnalysis (ui (processLine seen w (trim buffer))).
Proof.
  intros seen buffer parsed w Hdata Hne Hnd Hparse Htype Hd Hflat Hcit.
  assert (Hnull : nullish parsed = false).
  { destruct parsed; try reflexivity; discriminate Htype. }
  assert (Hnode : is_str (prop parsed "type") "node_complete" = false).
  { apply (is_str_other _ _ _ Htype). discriminate. }
  apply String.eqb_neq in Hne. apply String.eqb_neq in Hnd.
  unfold Chat.flushBuffer, Chat.processLine.
  assert (Hb : String.eqb (trim buffer) "" = false).
  { destruct (trim buffer); [discriminate Hdata|reflexivity]. }
  rewrite Hb, Hdata, Hne, Hnd, Hparse. cbn [negb andb].
  unfold Chat.handleParsed. unfold is_flattened in Hflat.
  rewrite Hnull, Hflat, Hnode, Htype, Hd, Hcit, orb_true_r. cbn [andb].
  unfold Chat.extractTyped. rewrite Htype, Hd. cbn [andb].
  destruct (Chat.extractFinalResult (prop parsed "data")) as [content sources].
  destruct (clearRateLimitTimer_ui seen (setIsLoading false (setCurrentStatus "" w)))
    as (Hm & _ & _ & Hc & Hi).
  unfold Chat.deliver, Chat.storeAnalysis.
  destruct (truthy (prop (prop parsed "data") "internal_analysis"));
    destruct (truthy content); try destruct (Chat.greater_than_zero _ _); cbn;
    rewrite ?Hm, ?Hc, ?Hi; cbn; auto.
  all: repeat split; try reflexivity.
  all: unfold clearRateLimitTimer; destruct (seen_rateLimitTimer seen); reflexivity.
Qed.

(** *** Timers *)

Lemma earliest_due_spec (target : N) (pending : list Timer) (t : Timer) :
  Chat.earliest_due target pending = Some t ->
  In t pending /\ (timer_due t <= target)%N.
Proof.
  revert t. induction pending as [|x rest IH]; intros t H; [discriminate|].
  cbn [Chat.earliest_due] in H.
  destruct (Chat.earliest_due target rest) as [t'|].
  - destruct (N.leb (timer_due x) target && N.leb (timer_due x) (timer_due t'))%bool eqn:E;
      injection H as <-.
    + apply andb_prop in E. destruct E as [E _]. apply N.leb_le in E.
      split; [now left|exact E].
    + destruct (IH _ eq_refl). split; [now right|assumption].
  - destruct (N.leb (timer_due x) target) eqn:E; [|discriminate].
    injection H as <-. apply N.leb_le in E. split; [now left|exact E].
Qed.

Lemma fire_quiet seen (target : N) (t : Timer) (phase : Chat.Phase) (w : World) :
  quiet target t ->
  (timer_due t <= target)%N ->
  fst (Chat.fire seen t (phase, w)) = phase
  /\ ui (snd (Chat.fire seen t (phase, w))) = ui w
  /\ (forall x, In x (timers (snd (Chat.fire seen t (phase, w)))) -> In x (timers w)).
Proof.
  intros [Hlate|Hinert] Hdue; [lia|].
  unfold Chat.fire. rewrite Hinert. cbn.
  repeat split. intros x Hx. apply filter_In in Hx. tauto.
Qed.

Lemma run_timers_quiet seen (target : N) (fuel : nat) :
  forall (phase : Chat.Phase) (w : World),
    Forall (quiet target) (timers w) ->
    fst (run_timers fuel target seen (phase, w)) = phase
    /\ ui (snd (run_timers fuel target seen (phase, w))) = ui w
    /\ (forall x, In x (timers (snd (run_timers fuel target seen (phase, w)))) ->
                  In x (timers w)).
Proof.
  induction fuel as [|fuel IH]; intros phase w Hq; cbn [Chat.run_timers fst snd].
  - repeat split. auto.
  - destruct (Chat.earliest_due target (timers w)) as [t|] eqn:E; cbn [fst snd].
    + destruct (earliest_due_spec _ _ _ E) as [Hin Hdue].
      rewrite Forall_forall in Hq.
      destruct (fire_quiet seen target t phase w (Hq t Hin) Hdue) as (Hp & Hu & Ht).
      destruct (Chat.fire seen t (phase, w)) as [phase' w'] eqn:Ef.
      cbn [fst snd] in *. subst phase'.
      destruct (IH phase w') as (Hp' & Hu' & Ht').
      { apply Forall_forall. intros x Hx. apply Hq, Ht, Hx. }
      rewrite Hp', Hu', Hu. repeat split. intros x Hx. apply Ht, Ht', Hx.
    + repeat split. auto.
Qed.

Lemma inert_is_quiet (target : N) (pending : list Timer) :
  Forall (fun t => timer_action t = RateLimitCallback false) pending ->
  Forall (quiet target) pending.
Proof. apply Forall_impl. intros t H. now right. Qed.

Lemma waits_inert seen (waits : list N) :
  forall (phase : Chat.Phase) (w : World),
    Forall (fun t => timer_action t = RateLimitCallback false) (timers w) ->
    fst (fold_left (step seen) (map Chat.Wait waits) (phase, w)) = phase
    /\ ui (snd (fold_left (step seen) (map Chat.Wait waits) (phase, w))) = ui w.
Proof.
  induction waits as [|ms waits IH]; intros phase w Hq; [split; reflexivity|].
  cbn [map fold_left].
  change (step seen (phase, w) (Chat.Wait ms))
    with (run_timers (List.length (timers w)) (clock w + ms)%N seen (phase, w)).
  destruct (run_timers_quiet seen (clock w + ms) (List.length (timers w)) phase w
              (inert_is_quiet _ _ Hq)) as (Hp & Hu & Ht).
  destruct (run_timers _ _ _ _) as [phase' w'].
  cbn [fst snd] in *. subst phase'.
  destruct (IH phase w') as [Hp' Hu'].
  { rewrite Forall_forall in *. intros x Hx. apply Hq, Ht, Hx. }
  now rewrite Hp', Hu', Hu.
Qed.

(** X11.  Once the response has arrived the abort timer is gone: however
    long the body then stays silent, the turn keeps waiting for the next
    chunk, no message is appended and the page stays loading.  (No timer of
    an earlier turn is pending that was set while the page was loading.) *)
Theorem waiting_after_response_changes_nothing :
  forall (message statusText : string) (status : nat) (waits : list N) (w : World),
    trim message <> "" ->
    isLoading (ui w) = false ->
    Forall (fun t => timer_action t = RateLimitCallback false) (timers w) ->
    fst (handleSendMessage message
           (Chat.Response true status statusText true :: map Chat.Wait waits) w)
    = Chat.AwaitRead ""
    /\ messages (ui (snd (handleSendMessage message
                            (Chat.Response true status statusText true
                               :: map Chat.Wait waits) w)))
       = messages (ui w)
           ++ [{| role := "user"; content := JStr message; timestamp := Some (clock w) |}]
    /\ isLoading (ui (snd (handleSendMessage message
                             (Chat.Response true status statusText true
                                :: map Chat.Wait waits) w)))
       = true.
Proof.
  intros message statusText status waits w Hmsg Hload Hinert.
  apply String.eqb_neq in Hmsg.
  unfold Chat.handleSendMessage, Chat.beginTurn. rewrite Hmsg.
  unfold render. cbn [seen_isLoading seen_rateLimitTimer]. rewrite Hload.
  set (seen := {| seen_isLoading := false; seen_rateLimitTimer := rateLimitTimer (ui w) |}).
  cbn [fold_left].
  match goal with
  | |- context [fold_left _ (map Chat.Wait waits) ?pw] =>
      assert (Hpw : exists w1,
                 pw = (Chat.AwaitRead "", w1)
                 /\ messages (ui w1)
                    = messages (ui w)
                        ++ [{| role := "user"; content := JStr message;
                               timestamp := Some (clock w) |}]
                 /\ isLoading (ui w1) = true
                 /\ Forall (fun t => timer_action t = RateLimitCallback false) (timers w1))
  end.
  { destruct (rateLimitTimer (ui w)) as [h|]; cbn; eexists; (split; [reflexivity|]); cbn;
      (split; [reflexivity|]); (split; [reflexivity|]).
    all: rewrite Forall_forall in *; intros x Hx.
    all: repeat (apply (proj1 (filter_In _ _ _)) in Hx;
                 let Hf := fresh "Hf" in destruct Hx as [Hx Hf]).
    all: apply in_app_or in Hx; destruct Hx as [Hx|[<-|[]]];
      [|cbn in *; rewrite Nat.eqb_refl in *; discriminate].
    all: apply in_app_or in Hx; destruct Hx as [Hx|[<-|[]]]; [|reflexivity].
    all: try (apply (proj1 (filter_In _ _ _)) in Hx; destruct Hx as [Hx _]).
    all: now apply Hinert. }
  destruct Hpw as (w1 & -> & Hm & Hl & Hq).
  destruct (waits_inert seen waits (Chat.AwaitRead "") w1 Hq) as [-> ->].
  auto.
Qed.

Lemma earliest_due_some (target : N) (pending : list Timer) (t : Timer) :
  In t pending -> (timer_due t <= target)%N ->
  exists t', Chat.earliest_due target pending = Some t'.
Proof.
  induction pending as [|x rest IH]; intros Hin Hdue; [destruct Hin|].
  cbn [Chat.earliest_due].
  destruct (Chat.earliest_due target rest) as [t'|] eqn:E.
  - destruct (_ && _)%bool; eauto.
  - destruct Hin as [->|Hin].
    + apply N.leb_le in Hdue. rewrite Hdue. eauto.
    + destruct (IH Hin Hdue) as [t' Ht']. discriminate.
Qed.

Lemma filter_length_bound {A : Type} (f : A -> bool) (l : list A) :
  List.length (filter f l) <= List.length l.
Proof. induction l as [|x l IH]; cbn; [lia|]. destruct (f x); cbn; lia. Qed.

Lemma clearTimeout_shorter (t : Timer) (w : World) :
  In t (timers w) ->
  List.length (timers (clearTimeout (timer_id t) w)) < List.length (timers w).
Proof.
  unfold clearTimeout. cbn [timers].
  induction (timers w) as [|x l IH]; intros Hin; [destruct Hin|].
  cbn [filter]. destruct Hin as [->|Hin].
  - rewrite Nat.eqb_refl. cbn [negb List.length].
    pose proof (filter_length_bound (fun t0 => negb (Nat.eqb (timer_id t0) (timer_id t))) l).
    lia.
  - specialize (IH Hin). destruct (negb _); cbn [List.length]; lia.
Qed.





(** *** A response that is not ok *)

Lemma avoids_app (c : ascii) (s1 s2 : string) :
  avoids c s1 -> avoids c s2 -> avoids c (s1 ++ s2)%string.
Proof. induction s1 as [|x s1 IH]; cbn; [auto|]. intros [Hx H1] H2. auto. Qed.

Lemma digit_not_F (n : nat) : digit n <> "F"%char.
Proof.
  unfold digit. intros H. apply (f_equal nat_of_ascii) in H.
  pose proof (Nat.mod_upper_bound n 10 ltac:(lia)) as Hb.
  rewrite nat_ascii_embedding in H by lia.
  change (nat_of_ascii "F") with 70 in H. lia.
Qed.

Lemma decimal_aux_avoids_F (fuel : nat) :
  forall (n : nat) (acc : string),
    avoids "F" acc -> avoids "F" (decimal_aux fuel n acc).
Proof.
  induction fuel as [|fuel IH]; intros n acc Hacc; cbn [decimal_aux]; [assumption|].
  assert (avoids "F" (String (digit n) acc)) by (split; [apply digit_not_F|assumption]).
  destruct (Nat.ltb n 10); auto.
Qed.

Lemma includes_skip (s1 s2 : string) (c : ascii) (p : string) :
  avoids c s1 ->
  includes (s1 ++ s2) (String c p) = includes s2 (String c p).
Proof.
  induction s1 as [|x s1 IH]; intros Hs; [reflexivity|].
  destruct Hs as [Hx Hs]. cbn [String.append includes String.prefix].
  rewrite (IH Hs).
  destruct (Ascii.ascii_dec c x) as [->|_]; [contradiction|reflexivity].
Qed.

Lemma http_error_text seen (status : nat) (statusText : string) (w : World) :
  messages (ui (Chat.finallyBlock seen
                  (Chat.catchBlock seen "Error"
                     ("HTTP " ++ decimal status ++ ": " ++ statusText) w)))
  = messages (ui w)
      ++ [Chat.assistant
            (JStr (if includes statusText "Failed to fetch"
                   then "Unable to connect to the server. Please check if the backend is running."
                   else ("Server error: HTTP " ++ decimal status ++ ": " ++ statusText)%string))].
Proof.
  unfold Chat.finallyBlock.
  match goal with
  | |- context [clearRateLimitTimer ?r (setCurrentStatus "" (setIsLoading false ?x))] =>
      destruct (clearRateLimitTimer_ui r (setCurrentStatus "" (setIsLoading false x)))
        as (-> & _)
  end.
  unfold Chat.catchBlock.
  assert (Hff : includes ("HTTP " ++ decimal status ++ ": " ++ statusText) "Failed to fetch"
                = includes statusText "Failed to fetch").
  { change ("HTTP " ++ decimal status ++ ": " ++ statusText)%string
      with ("HTTP " ++ (decimal status ++ ": " ++ statusText))%string.
    rewrite (includes_skip "HTTP " _ "F" "ailed to fetch")
      by (cbn; repeat split; discriminate).
    rewrite (includes_skip (decimal status) _ "F" "ailed to fetch")
      by (apply decimal_aux_avoids_F; exact I).
    apply (includes_skip ": " statusText "F" "ailed to fetch").
    cbn; repeat split; discriminate. }
  rewrite Hff.
  assert (Hh : includes ("HTTP " ++ decimal status ++ ": " ++ statusText) "HTTP" = true)
    by reflexivity.
  rewrite Hh.
  change (String.eqb "Error" "AbortError") with false. cbv iota.
  cbn [ui Page.pushMessage Page.with_ui messages Page.setCurrentStatus Page.setIsLoading
       Page.setCurrentStatusValue].
  now destruct (clearRateLimitTimer_ui seen w) as (-> & _).
Qed.

(** X13.  A response whose status is not ok ends the turn at once, whether
    or not it has a body: after the user's message exactly one assistant
    message is appended, "Server error: HTTP <status>: <statusText>", and
    the page is no longer loading.  The one exception is a status text that
    holds "Failed to fetch": then the message is the one for an unreachable
    server. *)
Theorem failed_response_reports_status :
  forall (message statusText : string) (status : nat) (hasBody : bool) (w : World),
    trim message <> "" ->
    fst (handleSendMessage message [Chat.Response false status statusText hasBody] w)
    = Chat.Finished
    /\ messages (ui (snd (handleSendMessage message
                            [Chat.Response false status statusText hasBody] w)))
       = messages (ui w)
           ++ [{| role := "user"; content := JStr message; timestamp := Some (clock w) |};
               Chat.assistant
                 (JStr (if includes statusText "Failed to fetch"
                        then "Unable to connect to the server. Please check if the backend is running."
                        else ("Server error: HTTP " ++ decimal status ++ ": " ++ statusText)%string))]
    /\ isLoading (ui (snd (handleSendMessage message
                             [Chat.Response false status statusText hasBody] w)))
       = false.
Proof.
  intros message statusText status hasBody w Hmsg.
  apply String.eqb_neq in Hmsg.
  unfold Chat.handleSendMessage, Chat.beginTurn. rewrite Hmsg.
  cbn [fold_left Chat.step Page.setTimeout fst snd negb].
  split; [reflexivity|]. cbn [snd].
  split; [|apply finallyBlock_settles].
  rewrite http_error_text.
  match goal with
  | |- context [clearRateLimitTimer ?r ?x] =>
      destruct (clearRateLimitTimer_ui r x) as (-> & _)
  end.
  destruct (seen_rateLimitTimer (render (ui w))); cbn; now rewrite <- app_assoc.
Qed.

(** *** The rate-limit timer of a turn started while the page was loading *)

Local Abbreviation keeps seen w w' :=
  (clock w' = clock w
   /\ (forall x, In x (timers w') -> In x (timers w))
   /\ (forall x, In x (timers w) ->
                 (forall h, seen_rateLimitTimer seen = Some h -> timer_id x <> h) ->
                 In x (timers w'))).

Lemma keeps_refl seen (w : World) : keeps seen w w.
Proof. split; [reflexivity|]. split; auto. Qed.

Lemma keeps_trans seen (a b c : World) : keeps seen a b -> keeps seen b c -> keeps seen a c.
Proof.
  intros (C1 & S1 & K1) (C2 & S2 & K2).
  split; [congruence|]. split; auto.
Qed.

Lemma keeps_same seen (a b : World) :
  clock b = clock a -> timers b = timers a -> keeps seen a b.
Proof. intros Hc Ht. rewrite Ht. split; [assumption|]. split; auto. Qed.

Lemma keeps_clear seen (w : World) : keeps seen w (clearRateLimitTimer seen w).
Proof.
  unfold clearRateLimitTimer.
  destruct (seen_rateLimitTimer seen) as [h|] eqn:E;
    [|split; [reflexivity|]; split; auto].
  cbn. split; [reflexivity|]. split.
  - intros x Hx. apply (proj1 (filter_In _ _ _)) in Hx. tauto.
  - intros x Hx Hid. apply filter_In. split; [assumption|].
    apply negb_true_iff, Nat.eqb_neq. now apply Hid.
Qed.

Lemma keeps_cleared seen (w : World) :
  keeps seen w (clearRateLimitTimer seen (setIsLoading false (setCurrentStatus "" w))).
Proof.
  eapply keeps_trans; [|apply keeps_clear]. apply keeps_same; reflexivity.
Qed.

Lemma keeps_deliver seen content sources (w : World) :
  keeps seen w (Chat.deliver text_positive content sources w).
Proof.
  unfold Chat.deliver. destruct (truthy content); [|apply keeps_refl].
  destruct (Chat.greater_than_zero _ _); apply keeps_same; reflexivity.
Qed.

Lemma keeps_storeAnalysis seen data (w : World) : keeps seen w (Chat.storeAnalysis data w).
Proof.
  unfold Chat.storeAnalysis. destruct (truthy _); [|apply keeps_refl].
  apply keeps_same; reflexivity.
Qed.

Lemma keeps_handleParsed seen parsed (w : World) : keeps seen w (handleParsed seen parsed w).
Proof.
  unfold Chat.handleParsed.
  destruct (nullish parsed); [apply keeps_refl|].
  destruct (truthy (prop parsed "internal_analysis") && truthy (prop parsed "final_response"))%bool.
  { destruct (Chat.extractFlattened parsed) as [content sources].
    eapply keeps_trans; [|apply keeps_deliver].
    eapply keeps_trans; [apply keeps_cleared|]. apply keeps_same; reflexivity. }
  destruct (is_str (prop parsed "type") "node_complete").
  { destruct (truthy (prop parsed "message")).
    - destruct (Chat.getFriendlyStatusMessage _ _); [|apply keeps_refl].
      destruct (_ && _)%bool; apply keeps_same; reflexivity.
    - destruct (_ && _)%bool; apply keeps_same; reflexivity. }
  destruct (is_str (prop parsed "type") "final_response"
            || is_str (prop parsed "type") "final_result")%bool.
  { destruct (Chat.extractTyped parsed) as [content sources].
    assert (H : keeps seen w
                  (Chat.deliver text_positive content sources
                     (if (is_str (prop parsed "type") "final_result"
                          && truthy (prop parsed "data"))%bool
                      then Chat.storeAnalysis (prop parsed "data")
                             (clearRateLimitTimer seen
                                (setIsLoading false (setCurrentStatus "" w)))
                      else clearRateLimitTimer seen
                             (setIsLoading false (setCurrentStatus "" w))))).
    { eapply keeps_trans; [|apply keeps_deliver].
      destruct (_ && _)%bool; [|apply keeps_cleared].
      eapply keeps_trans; [apply keeps_cleared|apply keeps_storeAnalysis]. }
    destruct (truthy (or_else (prop parsed "citations")
                        (prop (prop parsed "response") "citations"))); [|exact H].
    eapply keeps_trans; [exact H|apply keeps_same; reflexivity]. }
  destruct (truthy (prop parsed "response")
            && truthy (prop (prop parsed "response") "data"))%bool; [|apply keeps_refl].
  destruct (truthy (prop (prop parsed "response") "citations"));
    (eapply keeps_trans; [apply keeps_cleared|apply keeps_same; reflexivity]).
Qed.

Lemma keeps_processLine seen (w : World) line : keeps seen w (processLine seen w line).
Proof.
  unfold Chat.processLine.
  destruct (startsWith line "data: "); [|apply keeps_refl].
  destruct (String.eqb _ "[DONE]").
  { eapply keeps_trans; [|apply keeps_clear]. apply keeps_same; reflexivity. }
  destruct (String.eqb _ ""); [apply keeps_refl|].
  destruct (JSON_parse _); [apply keeps_handleParsed|apply keeps_refl].
Qed.

Lemma keeps_lines seen lines :
  forall w : World, keeps seen w (fold_left (processLine seen) lines w).
Proof.
  induction lines as [|l lines IH]; intros w; [apply keeps_refl|].
  cbn [fold_left]. eapply keeps_trans; [apply keeps_processLine|apply IH].
Qed.

Lemma keeps_flushBuffer seen buffer (w : World) : keeps seen w (flushBuffer buffer w).
Proof.
  unfold Chat.flushBuffer.
  destruct (negb _); [|apply keeps_refl].
  destruct (startsWith _ _); [|apply keeps_refl].
  destruct (_ && _)%bool; [|apply keeps_refl].
  destruct (JSON_parse _) as [parsed|]; [|apply keeps_refl].
  destruct (nullish parsed); [apply keeps_refl|].
  destruct (_ && _)%bool; [|apply keeps_refl].
  destruct (Chat.extractFinalResult _) as [content sources].
  eapply keeps_trans; [apply keeps_storeAnalysis|apply keeps_deliver].
Qed.

Lemma keeps_onDone seen buffer (w : World) : keeps seen w (onDone seen buffer w).
Proof.
  unfold Chat.onDone.
  destruct (seen_isLoading seen); [|apply keeps_flushBuffer].
  eapply keeps_trans; [apply keeps_flushBuffer|].
  eapply keeps_trans; [|apply keeps_clear]. apply keeps_same; reflexivity.
Qed.

Lemma keeps_finallyBlock seen (w : World) : keeps seen w (Chat.finallyBlock seen w).
Proof.
  unfold Chat.finallyBlock. eapply keeps_trans; [|apply keeps_clear].
  apply keeps_same; reflexivity.
Qed.

Lemma keeps_catchBlock seen name message (w : World) :
  keeps seen w (Chat.catchBlock seen name message w).
Proof.
  unfold Chat.catchBlock. eapply keeps_trans; [apply keeps_clear|].
  apply keeps_same; reflexivity.
Qed.

(** The timer [t1] is pending on [w], every other pending timer is quiet
    up to [target] and has another handle, and the clock shows [c]. *)
Local Abbreviation live c target t1 w :=
  (clock w = c
   /\ In t1 (timers w)
   /\ (forall t, In t (timers w) ->
                 t = t1 \/ (quiet target t /\ timer_id t <> timer_id t1))).

Lemma live_keeps seen (c target : N) (t1 : Timer) (w w' : World) :
  (forall h, seen_rateLimitTimer seen = Some h -> timer_id t1 <> h) ->
  live c target t1 w -> keeps seen w w' -> live c target t1 w'.
Proof.
  intros Hs (Hc & Hin & Ho) (Kc & Ks & Kk).
  split; [congruence|]. split; [now apply Kk|].
  intros t Ht. apply Ho, Ks, Ht.
Qed.

Lemma live_clearTimeout (c target : N) (t1 : Timer) (tid : nat) (w : World) :
  tid <> timer_id t1 ->
  live c target t1 w -> live c target t1 (clearTimeout tid w).
Proof.
  intros Hid (Hc & Hin & Ho). cbn.
  split; [assumption|]. split.
  - apply filter_In. split; [assumption|]. apply negb_true_iff, Nat.eqb_neq. congruence.
  - intros t Ht. apply (proj1 (filter_In _ _ _)) in Ht. apply Ho. tauto.
Qed.

Lemma live_step seen (c target : N) (t1 : Timer) (e : Chat.Event) (pw : Chat.Phase * World) :
  (forall h, seen_rateLimitTimer seen = Some h -> timer_id t1 <> h) ->
  not_wait e ->
  (forall tid, fst pw = Chat.AwaitFetch tid -> tid <> timer_id t1) ->
  live c target t1 (snd pw) ->
  (forall tid, fst (step seen pw e) = Chat.AwaitFetch tid -> tid <> timer_id t1)
  /\ live c target t1 (snd (step seen pw e)).
Proof.
  intros Hs He Hp Hl. destruct pw as [phase w]. cbn [fst snd] in Hp, Hl.
  destruct e as [ok status statusText hasBody|text| |name message|ms]; [| | | |destruct He].
  - destruct phase as [tid|buffer|]; [|now split|now split].
    cbn [Chat.step].
    assert (H1 : live c target t1 (clearRateLimitTimer seen (clearTimeout tid w))).
    { eapply live_keeps; [exact Hs| |apply keeps_clear].
      apply live_clearTimeout; [now apply Hp|exact Hl]. }
    destruct (negb ok); [|destruct hasBody]; cbn [fst snd]; (split; [discriminate|]).
    + eapply live_keeps; [exact Hs|exact H1|].
      eapply keeps_trans; [apply keeps_catchBlock|apply keeps_finallyBlock].
    + exact H1.
    + eapply live_keeps; [exact Hs|exact H1|apply keeps_finallyBlock].
  - destruct phase as [tid|buffer|]; [now split| |now split].
    cbn [Chat.step]. unfold Chat.onChunk. cbn [fst snd]. split; [discriminate|].
    eapply live_keeps; [exact Hs|exact Hl|apply keeps_lines].
  - destruct phase as [tid|buffer|]; [now split| |now split].
    cbn [Chat.step fst snd]. split; [discriminate|].
    eapply live_keeps; [exact Hs|exact Hl|].
    eapply keeps_trans; [apply keeps_onDone|apply keeps_finallyBlock].
  - destruct phase as [tid|buffer|]; [| |now split];
      cbn [Chat.step fst snd]; (split; [discriminate|]);
      (eapply live_keeps; [exact Hs|exact Hl|]);
      (eapply keeps_trans; [apply keeps_catchBlock|apply keeps_finallyBlock]).
Qed.

Lemma live_steps seen (c target : N) (t1 : Timer) (events : list Chat.Event) :
  (forall h, seen_rateLimitTimer seen = Some h -> timer_id t1 <> h) ->
  Forall not_wait events ->
  forall pw : Chat.Phase * World,
    (forall tid, fst pw = Chat.AwaitFetch tid -> tid <> timer_id t1) ->
    live c target t1 (snd pw) ->
    live c target t1 (snd (fold_left (step seen) events pw)).
Proof.
  intros Hs Hev. induction Hev as [|e events He _ IH]; intros pw Hp Hl; [exact Hl|].
  cbn [fold_left].
  destruct (live_step seen c target t1 e pw Hs He Hp Hl) as [Hp' Hl'].
  exact (IH _ Hp' Hl').
Qed.

Lemma run_timers_advisory seen (target : N) (t1 : Timer) (fuel : nat) :
  forall (phase : Chat.Phase) (w : World),
    timer_action t1 = RateLimitCallback true ->
    In t1 (timers w) ->
    (timer_due t1 <= target)%N ->
    (forall t, In t (timers w) ->
               t = t1 \/ (quiet target t /\ timer_id t <> timer_id t1)) ->
    List.length (timers w) <= fuel ->
    fst (run_timers fuel target seen (phase, w)) = phase
    /\ messages (ui (snd (run_timers fuel target seen (phase, w))))
       = messages (ui w) ++ [Chat.assistant (JStr Chat.rateLimitMessage)]
    /\ isLoading (ui (snd (run_timers fuel target seen (phase, w)))) = false
    /\ currentStatus (ui (snd (run_timers fuel target seen (phase, w)))) = StatusText "".
Proof.
  induction fuel as [|fuel IH]; intros phase w Hact Hin Hdue Hothers Hlen.
  - destruct (timers w); [destruct Hin|cbn in Hlen; lia].
  - cbn [Chat.run_timers fst snd].
    destruct (earliest_due_some target _ _ Hin Hdue) as [t Ht]. rewrite Ht.
    destruct (earliest_due_spec _ _ _ Ht) as [Htin Htdue].
    destruct (Hothers t Htin) as [->|[[Hlate|Hinert] Hid]]; [| lia |].
    + unfold Chat.fire. rewrite Hact. cbn [Chat.rateLimitCallback].
      set (w1 := Chat.set_clock _ _).
      set (wF := setCurrentStatus "" _).
      destruct (run_timers_quiet seen target fuel phase wF) as (-> & -> & _).
      { apply Forall_forall. intros x Hx. subst wF w1. cbn in Hx.
        apply (proj1 (filter_In _ _ _)) in Hx. destruct Hx as [Hx Hf].
        destruct (Hothers x Hx) as [->|[Hq _]]; [|exact Hq].
        rewrite Nat.eqb_refl in Hf. discriminate. }
      subst wF w1. cbn. auto.
    + unfold Chat.fire. rewrite Hinert. cbn [Chat.rateLimitCallback].
      set (w1 := Chat.set_clock _ _).
      destruct (IH phase w1) as (Hp & Hm & Hl & Hs); try assumption.
      * subst w1. cbn. apply filter_In. split; [assumption|].
        apply negb_true_iff, Nat.eqb_neq. congruence.
      * intros x Hx. subst w1. cbn in Hx.
        apply (proj1 (filter_In _ _ _)) in Hx. apply Hothers. tauto.
      * pose proof (clearTimeout_shorter t w Htin) as Hsh. subst w1. cbn in *. lia.
      * rewrite Hp, Hm, Hl, Hs. subst w1. cbn. auto.
Qed.

(** X15.  A message sent while the page is loading (the render that made
    the handler saw [isLoading] true) arms a rate-limit timer that the turn
    never cancels: when the clock reaches 15 s after the sending, and before
    it reaches 5 min, the advisory message is appended, the loading flag and
    the status text are cleared and the turn stays where it was, whatever
    has arrived in the meantime, be it nothing or the complete answer. *)
Theorem advisory_fires_whatever_arrived :
  forall (message : string) (events : list Chat.Event) (ms : N) (w : World),
    trim message <> "" ->
    isLoading (ui w) = true ->
    Forall (fun t => timer_action t = RateLimitCallback false
                     /\ timer_id t < next_timer w) (timers w) ->
    (forall h, rateLimitTimer (ui w) = Some h -> h < next_timer w) ->
    Forall not_wait events ->
    (15000 <= ms < 300000)%N ->
    fst (handleSendMessage message (events ++ [Chat.Wait ms]) w)
    = fst (handleSendMessage message events w)
    /\ messages (ui (snd (handleSendMessage message (events ++ [Chat.Wait ms]) w)))
       = messages (ui (snd (handleSendMessage message events w)))
           ++ [Chat.assistant (JStr Chat.rateLimitMessage)]
    /\ isLoading (ui (snd (handleSendMessage message (events ++ [Chat.Wait ms]) w))) = false
    /\ currentStatus (ui (snd (handleSendMessage message (events ++ [Chat.Wait ms]) w)))
       = StatusText "".
Proof.
  intros message events ms w Hmsg Hload Hold Hhandle Hev Hms.
  apply String.eqb_neq in Hmsg.
  set (t1 := {| timer_id := next_timer w; timer_due := (clock w + 15000)%N;
                timer_action := RateLimitCallback true |}).
  set (target := (clock w + ms)%N).
  assert (Hs : forall h, seen_rateLimitTimer (render (ui w)) = Some h -> timer_id t1 <> h).
  { intros h Hh. apply Hhandle in Hh. cbn. lia. }
  assert (Hbegin : exists w0,
             Chat.beginTurn (render (ui w)) message w = (Chat.AwaitFetch (S (next_timer w)), w0)
             /\ live (clock w) target t1 w0).
  { unfold Chat.beginTurn. rewrite Hmsg.
    unfold render. cbn [seen_isLoading seen_rateLimitTimer]. rewrite Hload.
    rewrite Forall_forall in Hold.
    destruct (rateLimitTimer (ui w)) as [h|]; cbn; eexists; (split; [reflexivity|]); cbn;
      (split; [reflexivity|]).
    all: split; [apply in_or_app; left; apply in_or_app; right; now left|].
    all: intros t Ht; apply in_app_or in Ht; destruct Ht as [Ht|[<-|[]]];
      [|right; split; [left; subst target; cbn; lia|cbn; lia]].
    all: apply in_app_or in Ht; destruct Ht as [Ht|[<-|[]]]; [|now left].
    all: try (apply (proj1 (filter_In _ _ _)) in Ht; destruct Ht as [Ht _]).
    all: destruct (Hold t Ht) as [Ha Hi]; right; split; [now right|cbn; lia]. }
  destruct Hbegin as (w0 & Hw0 & Hlive).
  unfold Chat.handleSendMessage. rewrite fold_left_app, Hw0. cbn [fold_left].
  pose proof (live_steps (render (ui w)) (clock w) target t1 events Hs Hev
                (Chat.AwaitFetch (S (next_timer w)), w0)) as Hend.
  destruct (fold_left (step (render (ui w))) events (Chat.AwaitFetch (S (next_timer w)), w0))
    as [phase w2].
  cbn [fst snd] in Hend.
  destruct Hend as (Hc & Hin & Hothers); [intros tid [= <-]; cbn; lia|exact Hlive|].
  change (step (render (ui w)) (phase, w2) (Chat.Wait ms))
    with (run_timers (List.length (timers w2)) (clock w2 + ms)%N (render (ui w)) (phase, w2)).
  rewrite Hc. fold target.
  apply (run_timers_advisory (render (ui w)) target t1); auto.
  subst target. cbn. lia.
Qed.

End MoreChat.

(** ** The status text of a node outside the table *)

Section MoreStatus.

Lemma replace_word_spaces_no_match (word by_ s : string) :
  no_match word s -> replace_word_spaces word by_ s = s.
Proof.
  induction s as [|c s IH]; intros H; pose proof (H 0) as H0; cbn [slice] in H0;
    cbn [replace_word_spaces]; rewrite H0; [reflexivity|].
  f_equal. apply IH. intros k. exact (H (S k)).
Qed.

(** X14.  For a node that is not in the table (nor the name of an inherited
    member), a progress message in which neither "Processing" nor
    "Completed" is followed by white space, in any letter case and at any
    place, is shown as it is. *)
Theorem plain_message_shown_unchanged :
  forall node message : string,
    ~ In node (map fst Chat.statusMap) ->
    ~ In node Chat.Object_prototype_members ->
    no_match "Processing" message ->
    no_match "Completed" message ->
    Chat.getFriendlyStatusMessage (JStr node) (JStr message) = Some (StatusText message).
Proof.
  intros node message Htable Hproto Hp Hc.
  unfold Chat.getFriendlyStatusMessage. cbn [ToString].
  rewrite statusMap_get_none by assumption.
  unfold Chat.cleanup. rewrite replace_ellipsis_id.
  rewrite (replace_word_spaces_no_match "Processing" "" message Hp).
  now rewrite (replace_word_spaces_no_match "Completed" "Finished " message Hc).
Qed.

End MoreStatus.

(** ** Concrete instances *)

Section MoreConcrete.

Import Examples.

(** X1 at the third batch of the twelve uploaded tickets. *)
Lemma batches_are_slices_witness :
  2 < List.length (Bulk.makeBatches uploaded_data)
  /\ nth 2 (Bulk.makeBatches uploaded_data) [] = Bulk.slice_list 10 15 uploaded_data.
Proof.
  assert (H : 2 < List.length (Bulk.makeBatches uploaded_data)) by (vm_compute; lia).
  split; [exact H|]. exact (proj1 (batches_are_slices uploaded_data 2 H)).
Defined.

(** X2 at two frames that arrive as two chunks. *)
Lemma bulk_reader_aligned_chunks_witness :
  Forall line_aligned [result_frame; result_frame]
  /\ fold_left (Bulk.collectChunk JSON.parse) [result_frame; result_frame] []
     = Bulk.collectChunk JSON.parse [] (joined [result_frame; result_frame]).
Proof.
  assert (H : Forall line_aligned [result_frame; result_frame])
    by (repeat (constructor; [vm_compute; reflexivity|]); constructor).
  split; [exact H|].
  exact (bulk_reader_aligned_chunks JSON.parse [result_frame; result_frame] [] H).
Defined.

(** X4 at the twelve uploaded tickets, with the second batch unreachable. *)
Lemma bulk_rerun_gives_same_run_witness :
  ticketData (ui uploaded_page) = uploaded_data
  /\ uploaded_data <> []
  /\ Bulk.handleBulkProcess JSON.parse second_fails
       (fst (Bulk.startBulkProcessing JSON.parse second_fails uploaded_data uploaded_page))
     = Bulk.Started
         (Bulk.startBulkProcessing JSON.parse second_fails uploaded_data uploaded_page).
Proof.
  assert (H1 : ticketData (ui uploaded_page) = uploaded_data) by (vm_compute; reflexivity).
  assert (H2 : uploaded_data <> []) by (vm_compute; discriminate).
  split; [exact H1|]. split; [exact H2|].
  exact (bulk_rerun_gives_same_run JSON.parse second_fails uploaded_data uploaded_page H1 H2).
Defined.

(** X8 at a turn that ends with the end of the stream. *)
Lemma finished_turn_is_not_loading_witness :
  trim "hi" <> ""
  /\ fst (chat "hi" [ok; Chat.Chunk (flattened_line ++ eol); Chat.Done]) = Chat.Finished
  /\ isLoading (ui (snd (chat "hi" [ok; Chat.Chunk (flattened_line ++ eol); Chat.Done])))
     = false.
Proof.
  assert (H1 : trim "hi" <> "") by (vm_compute; discriminate).
  assert (H2 : fst (chat "hi" [ok; Chat.Chunk (flattened_line ++ eol); Chat.Done])
               = Chat.Finished) by (vm_compute; reflexivity).
  split; [exact H1|]. split; [exact H2|].
  exact (proj1 (finished_turn_is_not_loading JSON.parse JSON.positive_text "hi"
                  [ok; Chat.Chunk (flattened_line ++ eol); Chat.Done] initialWorld H1 H2)).
Defined.

(** X9 at an event of type [error]. *)
Lemma unrecognised_payload_ignored_witness :
  recognised (JObj [("type", JStr "error"); ("message", JStr "boom")]) = false
  /\ Chat.handleParsed JSON.positive_text (render initialState)
       (JObj [("type", JStr "error"); ("message", JStr "boom")]) initialWorld
     = initialWorld.
Proof.
  assert (H : recognised (JObj [("type", JStr "error"); ("message", JStr "boom")]) = false)
    by (vm_compute; reflexivity).
  split; [exact H|].
  exact (unrecognised_payload_ignored JSON.positive_text (render initialState)
           (JObj [("type", JStr "error"); ("message", JStr "boom")]) initialWorld
           (or_introl H)).
Defined.

(** X10 at the wrapped line of the examples. *)
Lemma flush_agrees_with_loop_on_wrapped_witness :
  JSON.parse (trim (slice 6 (trim wrapped_line))) = Some wrapped_payload
  /\ is_flattened wrapped_payload = false
  /\ messages (ui (Chat.flushBuffer JSON.parse JSON.positive_text wrapped_line initialWorld))
     = messages (ui (Chat.processLine JSON.parse JSON.positive_text (render initialState)
                       initialWorld (trim wrapped_line))).
Proof.
  assert (H1 : startsWith (trim wrapped_line) "data: " = true) by (vm_compute; reflexivity).
  assert (H2 : trim (slice 6 (trim wrapped_line)) <> "") by (vm_compute; discriminate).
  assert (H3 : trim (slice 6 (trim wrapped_line)) <> "[DONE]") by (vm_compute; discriminate).
  assert (H4 : JSON.parse (trim (slice 6 (trim wrapped_line))) = Some wrapped_payload)
    by (vm_compute; reflexivity).
  assert (H5 : is_str (prop wrapped_payload "type") "final_result" = true)
    by (vm_compute; reflexivity).
  assert (H6 : truthy (prop wrapped_payload "data") = true) by (vm_compute; reflexivity).
  assert (H7 : is_flattened wrapped_payload = false) by (vm_compute; reflexivity).
  assert (H8 : truthy (or_else (prop wrapped_payload "citations")
                         (prop (prop wrapped_payload "response") "citations")) = false)
    by (vm_compute; reflexivity).
  split; [exact H4|]. split; [exact H7|].
  exact (proj1 (flush_agrees_with_loop_on_wrapped JSON.parse JSON.positive_text
                  (render initialState) wrapped_line wrapped_payload initialWorld
                  H1 H2 H3 H4 H5 H6 H7 H8)).
Defined.

(** X11 at a body that stays silent for twenty seconds and then for four
    hundred more. *)
Lemma waiting_after_response_changes_nothing_witness :
  trim "hi" <> ""
  /\ fst (chat "hi" [ok; Chat.Wait 20000; Chat.Wait 400000]) = Chat.AwaitRead "".
Proof.
  assert (H1 : trim "hi" <> "") by (vm_compute; discriminate).
  split; [exact H1|].
  exact (proj1 (waiting_after_response_changes_nothing JSON.parse JSON.positive_text
                  "hi" "OK" 200 [20000%N; 400000%N] initialWorld H1 eq_refl
                  (Forall_nil _))).
Defined.


(** X13 at a 503. *)
Lemma failed_response_reports_status_witness :
  trim "hi" <> ""
  /\ messages (ui (snd (chat "hi" [Chat.Response false 503 "Service Unavailable" false])))
     = [user "hi";
        Chat.assistant (JStr "Server error: HTTP 503: Service Unavailable")].
Proof.
  assert (H1 : trim "hi" <> "") by (vm_compute; discriminate).
  split; [exact H1|].
  exact (proj1 (proj2 (failed_response_reports_status JSON.parse JSON.positive_text
                         "hi" "Service Unavailable" 503 false initialWorld H1))).
Defined.

(** X14 at a node outside the table and a message without either word. *)
Lemma plain_message_shown_unchanged_witness :
  ~ In "retrieval" (map fst Chat.statusMap)
  /\ ~ In "retrieval" Chat.Object_prototype_members
  /\ no_match "Processing" "Searching docs"
  /\ no_match "Completed" "Searching docs"
  /\ Chat.getFriendlyStatusMessage (JStr "retrieval") (JStr "Searching docs")
     = Some (StatusText "Searching docs").
Proof.
  assert (H1 : ~ In "retrieval" (map fst Chat.statusMap))
    by (cbn; intuition discriminate).
  assert (H2 : ~ In "retrieval" Chat.Object_prototype_members)
    by (cbn; intuition discriminate).
  assert (H3 : no_match "Processing" "Searching docs")
    by (intros k; do 14 (destruct k as [|k]; [reflexivity|]); destruct k; reflexivity).
  assert (H4 : no_match "Completed" "Searching docs")
    by (intros k; do 14 (destruct k as [|k]; [reflexivity|]); destruct k; reflexivity).
  split; [exact H1|]. split; [exact H2|]. split; [exact H3|]. split; [exact H4|].
  exact (plain_message_shown_unchanged "retrieval" "Searching docs" H1 H2 H3 H4).
Defined.

(** X15 at a complete answer followed by sixteen seconds. *)
Lemma advisory_fires_whatever_arrived_witness :
  isLoading (ui loading_page) = true
  /\ (15000 <= 16000 < 300000)%N
  /\ messages (ui (snd (Chat.handleSendMessage JSON.parse JSON.positive_text "hi"
                          ([ok; Chat.Chunk (flattened_line ++ eol); Chat.Done]
                             ++ [Chat.Wait 16000]) loading_page)))
     = messages (ui (snd (Chat.handleSendMessage JSON.parse JSON.positive_text "hi"
                            [ok; Chat.Chunk (flattened_line ++ eol); Chat.Done]
                            loading_page)))
         ++ [Chat.assistant (JStr Chat.rateLimitMessage)].
Proof.
  assert (H1 : trim "hi" <> "") by (vm_compute; discriminate).
  assert (H2 : isLoading (ui loading_page) = true) by reflexivity.
  assert (H3 : forall h, rateLimitTimer (ui loading_page) = Some h
                         -> h < next_timer loading_page)
    by (intros h Hh; discriminate Hh).
  assert (H4 : Forall not_wait [ok; Chat.Chunk (flattened_line ++ eol); Chat.Done])
    by (repeat constructor).
  assert (H5 : (15000 <= 16000 < 300000)%N) by lia.
  split; [exact H2|]. split; [exact H5|].
  exact (proj1 (proj2 (advisory_fires_whatever_arrived JSON.parse JSON.positive_text
                         "hi" [ok; Chat.Chunk (flattened_line ++ eol); Chat.Done]
                         16000%N loading_page H1 H2 (Forall_nil _) H3 H4 H5))).
Defined.

End MoreConcrete.
